(** * MovieIsFine: the IMDB parental-guide scraper, its batch driver and the
    translation pass, embedded from [src/data/*.py]. *)

From Stdlib Require Import ZArith NArith List Lia String Ascii Bool DecimalString.
From stdpp Require Import prelude.

Local Open Scope Z_scope.

(* ===================================================================== *)
(** * Part I. Definitions                                                 *)
(* ===================================================================== *)

(** ** Python [str]: sequences of Unicode code points *)
Module Str.

Abbreviation char := N (only parsing).
Abbreviation str := (list N) (only parsing).

(** An ASCII literal of the source, as code points. *)
Fixpoint py (s : string) : str :=
  match s with
  | EmptyString => []
  | String a s' => N_of_ascii a :: py s'
  end.

(** The double quote, which a literal of this file cannot hold. *)
Definition dq : str := [34%N].

(** [q s] is the source text ["s"], quotes included. *)
Definition q (s : string) : str := dq ++ py s ++ dq.

Definition str_eqb (a b : str) : bool := bool_decide (a = b).

(** [s.startswith(p)] *)
Fixpoint startswith (p s : str) : bool :=
  match p, s with
  | [], _ => true
  | a :: p', b :: s' => N.eqb a b && startswith p' s'
  | _ :: _, [] => false
  end.

(** [p in s] for strings. *)
Fixpoint contains (p s : str) : bool :=
  startswith p s ||
  match s with
  | [] => false
  | _ :: s' => contains p s'
  end.

(** [str.isspace] on one character, and [\s] of a [str] pattern: the
    characters CPython's [_PyUnicode_IsWhitespace] accepts. *)
Definition isspace (c : char) : bool :=
  ((9 <=? c) && (c <=? 13) || (28 <=? c) && (c <=? 32) ||
   (c =? 133) || (c =? 160) || (c =? 5760) ||
   (8192 <=? c) && (c <=? 8202) || (c =? 8232) || (c =? 8233) ||
   (c =? 8239) || (c =? 8287) || (c =? 12288))%N.

(** [\d] of a [str] pattern, [str.isdecimal]: the decimal digits of
    Unicode 14, as CPython 3.11 has them, by ranges. *)
Definition decimal_ranges : list (N * N) :=
  [(48, 57); (1632, 1641); (1776, 1785); (1984, 1993); (2406, 2415); (2534, 2543);
   (2662, 2671); (2790, 2799); (2918, 2927); (3046, 3055); (3174, 3183); (3302, 3311);
   (3430, 3439); (3558, 3567); (3664, 3673); (3792, 3801); (3872, 3881); (4160, 4169);
   (4240, 4249); (6112, 6121); (6160, 6169); (6470, 6479); (6608, 6617); (6784, 6793);
   (6800, 6809); (6992, 7001); (7088, 7097); (7232, 7241); (7248, 7257);
   (42528, 42537); (43216, 43225); (43264, 43273); (43472, 43481); (43504, 43513);
   (43600, 43609); (44016, 44025); (65296, 65305); (66720, 66729); (68912, 68921);
   (69734, 69743); (69872, 69881); (69942, 69951); (70096, 70105); (70384, 70393);
   (70736, 70745); (70864, 70873); (71248, 71257); (71360, 71369); (71472, 71481);
   (71904, 71913); (72016, 72025); (72784, 72793); (73040, 73049); (73120, 73129);
   (92768, 92777); (92864, 92873); (93008, 93017); (120782, 120831); (123200, 123209);
   (123632, 123641); (125264, 125273); (130032, 130041)]%N.

Definition isdecimal (c : char) : bool :=
  existsb (fun r => (r.1 <=? c)%N && (c <=? r.2)%N) decimal_ranges.

(** [s] without its leading characters in [p]. *)
Fixpoint drop_while (p : char -> bool) (s : str) : str :=
  match s with
  | c :: s' => if p c then drop_while p s' else s
  | [] => []
  end.

Definition lstrip (s : str) : str := drop_while isspace s.

Definition rstrip (s : str) : str := rev (lstrip (rev s)).

(** [s.strip()] *)
Definition strip (s : str) : str := rstrip (lstrip s).

(** [rstrip] by recursion on the string: the same function (lemma
    [rstrip_direct_eq]). *)
Fixpoint rstrip_direct (s : str) : str :=
  match s with
  | [] => []
  | c :: s' =>
      match rstrip_direct s' with
      | [] => if isspace c then [] else [c]
      | r => c :: r
      end
  end.

(** Every run of whitespace replaced by one space, [prev_space] saying
    that the character before was whitespace: what
    [re.sub(r'\s+', ' ', s)] computes (lemma [sub_whitespace_run]). *)
Fixpoint squeeze (prev_space : bool) (s : str) : str :=
  match s with
  | [] => []
  | c :: s' =>
      if isspace c
      then if prev_space then squeeze true s' else 32%N :: squeeze true s'
      else c :: squeeze false s'
  end.

(** A string that does not begin with whitespace. *)
Definition no_lead (s : str) : Prop :=
  match s with
  | [] => True
  | c :: _ => isspace c = false
  end.

(** Whitespace only as single spaces. *)
Fixpoint single_spaced (prev_space : bool) (s : str) : bool :=
  match s with
  | [] => true
  | c :: s' =>
      if isspace c
      then (c =? 32)%N && negb prev_space && single_spaced true s'
      else single_spaced false s'
  end.

(** Text in normal form: the only whitespace in it is the space, no two
    spaces follow each other, and it neither begins nor ends with one. *)
Definition normalized (s : str) : Prop :=
  (forall c, c ∈ s -> isspace c = true -> c = 32%N)
  /\ (forall a c c' b, s = a ++ c :: c' :: b -> isspace c = true -> isspace c' = false)
  /\ (forall c b, s = c :: b -> isspace c = false)
  /\ (forall a c, s = a ++ [c] -> isspace c = false).

End Str.

(** ** The scraper's records ([imdb_parental_guide_scraper.py], lines 27-60) *)
Module Guide.
Import Str.

Record CertificationRating := { rating : str; note : str }.
Record CertificationItem := { country : str; ratings : list CertificationRating }.
Record CategoryInfo := { severity : str; items : list str }.

Record ParentalGuide := {
  imdb_id : str;
  title : str;
  url : str;
  content_rating : str;
  sex_nudity : CategoryInfo;
  violence_gore : CategoryInfo;
  profanity : CategoryInfo;
  alcohol_drugs_smoking : CategoryInfo;
  frightening_intense : CategoryInfo;
  certifications : list CertificationItem
}.

End Guide.

(** ** Python's [re]: the patterns of the source and their backtracking
    semantics *)
Module Re.
Import Str.

(** One-character patterns. *)
Inductive cset : Type :=
| CAny                                      (* [.] under [re.DOTALL] *)
| CDot                                      (* [.] otherwise *)
| CSpace                                    (* [\s] *)
| CDigit                                    (* [\d] *)
| CSet (negated : bool) (ranges : list (char * char)).  (* [[...]], [[^...]] *)

Definition in_ranges (c : char) (ranges : list (char * char)) : bool :=
  existsb (fun r => (r.1 <=? c)%N && (c <=? r.2)%N) ranges.

Definition cmatch (cs : cset) (c : char) : bool :=
  match cs with
  | CAny => true
  | CDot => negb (c =? 10)%N
  | CSpace => isspace c
  | CDigit => isdecimal c
  | CSet negated ranges => xorb negated (in_ranges c ranges)
  end.

(** The character [c] of an ASCII literal, as a one-element range. *)
Definition ch (a : ascii) : char * char := (N_of_ascii a, N_of_ascii a).

(** The patterns the source uses. A repetition is always of a
    one-character pattern: [RRep cs lo hi greedy] is [cs{lo,hi}], lazy when
    [greedy] is false, unbounded when [hi] is [None]. *)
Inductive regex : Type :=
| REps
| RLit (l : str)
| RSet (cs : cset)
| RRep (cs : cset) (lo : nat) (hi : option nat) (greedy : bool)
| RSeq (r1 r2 : regex)
| RAlt (r1 r2 : regex)
| RGroup (n : nat) (r : regex)
| RLook (r : regex)                         (* [(?=r)] *)
| RBol                                      (* [^] *)
| REol.                                     (* [$] *)

(** Captured groups, the most recent capture of a group first. *)
Definition groups := list (nat * str).

(** A way to match: the position reached, the text left, the groups. *)
Definition way : Type := nat * str * groups.

(** [s] without the prefix [l], when it starts with it. *)
Fixpoint strip_prefix (l s : str) : option str :=
  match l, s with
  | [], _ => Some s
  | a :: l', b :: s' => if (a =? b)%N then strip_prefix l' s' else None
  | _ :: _, [] => None
  end.

(** The length of the longest prefix of [s] in [cs]. *)
Fixpoint span (cs : cset) (s : str) : nat :=
  match s with
  | c :: s' => if cmatch cs c then S (span cs s') else O
  | [] => O
  end.

(** The numbers of characters a repetition may take, in the order the
    matcher tries them. *)
Definition counts (cs : cset) (lo : nat) (hi : option nat) (greedy : bool) (s : str)
  : list nat :=
  let m := match hi with Some h => Nat.min h (span cs s) | None => span cs s end in
  if (m <? lo)%nat then []
  else if greedy then rev (seq lo (m - lo + 1)) else seq lo (m - lo + 1).

(** All the ways [r] matches at position [i], where the text left is [s],
    in the order a backtracking matcher finds them. *)
Fixpoint run (r : regex) (i : nat) (s : str) (g : groups) : list way :=
  match r with
  | REps => [(i, s, g)]
  | RLit l =>
      match strip_prefix l s with
      | Some s' => [((i + length l)%nat, s', g)]
      | None => []
      end
  | RSet cs =>
      match s with
      | c :: s' => if cmatch cs c then [(S i, s', g)] else []
      | [] => []
      end
  | RRep cs lo hi greedy =>
      map (fun k => ((i + k)%nat, drop k s, g)) (counts cs lo hi greedy s)
  | RSeq r1 r2 =>
      flat_map (fun w : way => run r2 w.1.1 w.1.2 w.2) (run r1 i s g)
  | RAlt r1 r2 => run r1 i s g ++ run r2 i s g
  | RGroup n r1 =>
      map (fun w : way => (w.1.1, w.1.2, (n, take (w.1.1 - i) s) :: w.2)) (run r1 i s g)
  | RLook r1 =>
      match run r1 i s g with
      | w :: _ => [(i, s, w.2)]
      | [] => []
      end
  | RBol => if (i =? 0)%nat then [(i, s, g)] else []
  | REol =>
      match s with
      | [] => [(i, s, g)]
      | [c] => if (c =? 10)%N then [(i, s, g)] else []
      | _ => []
      end
  end.

(** A way to match from position [i] ends at a position of the text,
    not before [i], with the text from there on left. *)
Definition way_ok (i : nat) (s : str) (w : way) : Prop :=
  (i <= w.1.1)%nat /\ (w.1.1 - i <= length s)%nat /\ w.1.2 = drop (w.1.1 - i) s.

(** A match object. *)
Record rmatch := {
  m_start : nat;
  m_end : nat;
  m_text : str;                             (* [group(0)] *)
  m_groups : groups
}.

(** [m.group(n)] for a group that took part in the match; the empty
    string, as in [findall], for one that did not. *)
Definition group (n : nat) (m : rmatch) : str :=
  match List.find (fun e : nat * str => (e.1 =? n)%nat) (m_groups m) with
  | Some e => e.2
  | None => []
  end.

(** The match at position [i], if any; with [must_advance], one that
    does not end at [i]. *)
Definition match_at (r : regex) (must_advance : bool) (i : nat) (s : str) : option rmatch :=
  match List.find (fun w : way => negb must_advance || (i <? w.1.1)%nat) (run r i s []) with
  | Some w => Some {| m_start := i; m_end := w.1.1;
                      m_text := take (w.1.1 - i) s; m_groups := w.2 |}
  | None => None
  end.

(** [re.search]: the match at the first position that has one. *)
Fixpoint search_from (r : regex) (i : nat) (s : str) : option rmatch :=
  match match_at r false i s with
  | Some m => Some m
  | None =>
      match s with
      | [] => None
      | _ :: s' => search_from r (S i) s'
      end
  end.

Definition search (r : regex) (s : str) : option rmatch := search_from r 0 s.

(** The successive matches of [findall], [sub] and [split]: after a match
    the scan goes on where it ended, and after an empty match the next
    one at the same position must not be empty. [skip] characters of a
    match just found are still to pass. *)
Fixpoint finditer_from (r : regex) (i skip : nat) (s : str) {struct s} : list rmatch :=
  match skip with
  | S k =>
      match s with
      | [] => []
      | _ :: s' => finditer_from r (S i) k s'
      end
  | O =>
      let next (k : nat) :=
        match s with
        | [] => []
        | _ :: s' => finditer_from r (S i) k s'
        end in
      match match_at r false i s with
      | None => next O
      | Some m =>
          if (m_end m =? i)%nat then
            m :: match match_at r true i s with
                 | None => next O
                 | Some m' => m' :: next (m_end m' - i - 1)%nat
                 end
          else m :: next (m_end m - i - 1)%nat
      end
  end.

Definition finditer (r : regex) (s : str) : list rmatch := finditer_from r 0 0 s.

(** Matches one after the other from position [from] on, none
    beginning before the one before it ends. *)
Fixpoint in_order (from : nat) (ms : list rmatch) : Prop :=
  match ms with
  | [] => True
  | m :: ms' =>
      (from <= m_start m)%nat /\ (m_start m <= m_end m)%nat /\ in_order (m_end m) ms'
  end.

(** [re.findall] for a pattern with one group, and with two. *)
Definition findall1 (r : regex) (s : str) : list str := map (group 1) (finditer r s).

Definition findall2 (r : regex) (s : str) : list (str * str) :=
  map (fun m => (group 1 m, group 2 m)) (finditer r s).

(** The text between the matches [ms] of [s], whose part from position
    [i] on is [rest]: each match replaced ([sub]), or cut out ([split]). *)
Fixpoint sub_matches (repl : rmatch -> str) (ms : list rmatch) (i : nat) (rest : str) : str :=
  match ms with
  | [] => rest
  | m :: ms' =>
      take (m_start m - i) rest ++ repl m ++
      sub_matches repl ms' (m_end m) (drop (m_end m - i) rest)
  end.

Fixpoint split_matches (ms : list rmatch) (i : nat) (rest : str) : list str :=
  match ms with
  | [] => [rest]
  | m :: ms' =>
      take (m_start m - i) rest :: split_matches ms' (m_end m) (drop (m_end m - i) rest)
  end.

(** [re.sub(r, repl, s)], [repl] a function of the match. *)
Definition sub (r : regex) (repl : rmatch -> str) (s : str) : str :=
  sub_matches repl (finditer r s) 0 s.

(** [re.split(r, s)] for a pattern without groups. *)
Definition split (r : regex) (s : str) : list str :=
  split_matches (finditer r s) 0 s.

End Re.

(** ** Python's [html.unescape] *)
Module Html.
Import Str Re.
Local Open Scope N_scope.

(** [html._invalid_charrefs] *)
Definition invalid_charrefs : list (N * str) :=
  [(0, [65533]); (13, [13]); (128, [8364]); (129, [129]); (130, [8218]); (131, [402]);
   (132, [8222]); (133, [8230]); (134, [8224]); (135, [8225]); (136, [710]);
   (137, [8240]); (138, [352]); (139, [8249]); (140, [338]); (141, [141]);
   (142, [381]); (143, [143]); (144, [144]); (145, [8216]); (146, [8217]);
   (147, [8220]); (148, [8221]); (149, [8226]); (150, [8211]); (151, [8212]);
   (152, [732]); (153, [8482]); (154, [353]); (155, [8250]); (156, [339]);
   (157, [157]); (158, [382]); (159, [376])].

(** [html._invalid_codepoints], by ranges. *)
Definition invalid_codepoints : list (N * N) :=
  [(1, 8); (11, 11); (14, 31); (127, 159); (64976, 65007); (65534, 65535);
   (131070, 131071); (196606, 196607); (262142, 262143); (327678, 327679);
   (393214, 393215); (458750, 458751); (524286, 524287); (589822, 589823);
   (655358, 655359); (720894, 720895); (786430, 786431); (851966, 851967);
   (917502, 917503); (983038, 983039); (1048574, 1048575); (1114110, 1114111)].

Definition ent (name : string) (value : str) : str * str := (py name, value).

(** [html.entities.html5]: the named character references, with and
    without their semicolon, and the code points they stand for. *)
Definition html5 : list (str * str) :=
  [ent "Aacute" [193]; ent "aacute" [225]; ent "Aacute;" [193]; ent "aacute;" [225];
   ent "Abreve;" [258]; ent "abreve;" [259]; ent "ac;" [8766]; ent "acd;" [8767];
   ent "acE;" [8766; 819]; ent "Acirc" [194]; ent "acirc" [226]; ent "Acirc;" [194];
   ent "acirc;" [226]; ent "acute" [180]; ent "acute;" [180]; ent "Acy;" [1040];
   ent "acy;" [1072]; ent "AElig" [198]; ent "aelig" [230]; ent "AElig;" [198];
   ent "aelig;" [230]; ent "af;" [8289]; ent "Afr;" [120068]; ent "afr;" [120094];
   ent "Agrave" [192]; ent "agrave" [224]; ent "Agrave;" [192]; ent "agrave;" [224];
   ent "alefsym;" [8501]; ent "aleph;" [8501]; ent "Alpha;" [913]; ent "alpha;" [945];
   ent "Amacr;" [256]; ent "amacr;" [257]; ent "amalg;" [10815]; ent "AMP" [38];
   ent "amp" [38]; ent "AMP;" [38]; ent "amp;" [38]; ent "And;" [10835];
   ent "and;" [8743]; ent "andand;" [10837]; ent "andd;" [10844];
   ent "andslope;" [10840]; ent "andv;" [10842]; ent "ang;" [8736];
   ent "ange;" [10660]; ent "angle;" [8736]; ent "angmsd;" [8737];
   ent "angmsdaa;" [10664]; ent "angmsdab;" [10665]; ent "angmsdac;" [10666];
   ent "angmsdad;" [10667]; ent "angmsdae;" [10668]; ent "angmsdaf;" [10669];
   ent "angmsdag;" [10670]; ent "angmsdah;" [10671]; ent "angrt;" [8735];
   ent "angrtvb;" [8894]; ent "angrtvbd;" [10653]; ent "angsph;" [8738];
   ent "angst;" [197]; ent "angzarr;" [9084]; ent "Aogon;" [260]; ent "aogon;" [261];
   ent "Aopf;" [120120]; ent "aopf;" [120146]; ent "ap;" [8776]; ent "apacir;" [10863];
   ent "apE;" [10864]; ent "ape;" [8778]; ent "apid;" [8779]; ent "apos;" [39];
   ent "ApplyFunction;" [8289]; ent "approx;" [8776]; ent "approxeq;" [8778];
   ent "Aring" [197]; ent "aring" [229]; ent "Aring;" [197]; ent "aring;" [229];
   ent "Ascr;" [119964]; ent "ascr;" [119990]; ent "Assign;" [8788]; ent "ast;" [42];
   ent "asymp;" [8776]; ent "asympeq;" [8781]; ent "Atilde" [195]; ent "atilde" [227];
   ent "Atilde;" [195]; ent "atilde;" [227]; ent "Auml" [196]; ent "auml" [228];
   ent "Auml;" [196]; ent "auml;" [228]; ent "awconint;" [8755]; ent "awint;" [10769];
   ent "backcong;" [8780]; ent "backepsilon;" [1014]; ent "backprime;" [8245];
   ent "backsim;" [8765]; ent "backsimeq;" [8909]; ent "Backslash;" [8726];
   ent "Barv;" [10983]; ent "barvee;" [8893]; ent "Barwed;" [8966];
   ent "barwed;" [8965]; ent "barwedge;" [8965]; ent "bbrk;" [9141];
   ent "bbrktbrk;" [9142]; ent "bcong;" [8780]; ent "Bcy;" [1041]; ent "bcy;" [1073];
   ent "bdquo;" [8222]; ent "becaus;" [8757]; ent "Because;" [8757];
   ent "because;" [8757]; ent "bemptyv;" [10672]; ent "bepsi;" [1014];
   ent "bernou;" [8492]; ent "Bernoullis;" [8492]; ent "Beta;" [914];
   ent "beta;" [946]; ent "beth;" [8502]; ent "between;" [8812]; ent "Bfr;" [120069];
   ent "bfr;" [120095]; ent "bigcap;" [8898]; ent "bigcirc;" [9711];
   ent "bigcup;" [8899]; ent "bigodot;" [10752]; ent "bigoplus;" [10753];
   ent "bigotimes;" [10754]; ent "bigsqcup;" [10758]; ent "bigstar;" [9733];
   ent "bigtriangledown;" [9661]; ent "bigtriangleup;" [9651]; ent "biguplus;" [10756];
   ent "bigvee;" [8897]; ent "bigwedge;" [8896]; ent "bkarow;" [10509];
   ent "blacklozenge;" [10731]; ent "blacksquare;" [9642]; ent "blacktriangle;" [9652];
   ent "blacktriangledown;" [9662]; ent "blacktriangleleft;" [9666];
   ent "blacktriangleright;" [9656]; ent "blank;" [9251]; ent "blk12;" [9618];
   ent "blk14;" [9617]; ent "blk34;" [9619]; ent "block;" [9608];
   ent "bne;" [61; 8421]; ent "bnequiv;" [8801; 8421]; ent "bNot;" [10989];
   ent "bnot;" [8976]; ent "Bopf;" [120121]; ent "bopf;" [120147]; ent "bot;" [8869];
   ent "bottom;" [8869]; ent "bowtie;" [8904]; ent "boxbox;" [10697];
   ent "boxDL;" [9559]; ent "boxDl;" [9558]; ent "boxdL;" [9557]; ent "boxdl;" [9488];
   ent "boxDR;" [9556]; ent "boxDr;" [9555]; ent "boxdR;" [9554]; ent "boxdr;" [9484];
   ent "boxH;" [9552]; ent "boxh;" [9472]; ent "boxHD;" [9574]; ent "boxHd;" [9572];
   ent "boxhD;" [9573]; ent "boxhd;" [9516]; ent "boxHU;" [9577]; ent "boxHu;" [9575];
   ent "boxhU;" [9576]; ent "boxhu;" [9524]; ent "boxminus;" [8863];
   ent "boxplus;" [8862]; ent "boxtimes;" [8864]; ent "boxUL;" [9565];
   ent "boxUl;" [9564]; ent "boxuL;" [9563]; ent "boxul;" [9496]; ent "boxUR;" [9562];
   ent "boxUr;" [9561]; ent "boxuR;" [9560]; ent "boxur;" [9492]; ent "boxV;" [9553];
   ent "boxv;" [9474]; ent "boxVH;" [9580]; ent "boxVh;" [9579]; ent "boxvH;" [9578];
   ent "boxvh;" [9532]; ent "boxVL;" [9571]; ent "boxVl;" [9570]; ent "boxvL;" [9569];
   ent "boxvl;" [9508]; ent "boxVR;" [9568]; ent "boxVr;" [9567]; ent "boxvR;" [9566];
   ent "boxvr;" [9500]; ent "bprime;" [8245]; ent "Breve;" [728]; ent "breve;" [728];
   ent "brvbar" [166]; ent "brvbar;" [166]; ent "Bscr;" [8492]; ent "bscr;" [119991];
   ent "bsemi;" [8271]; ent "bsim;" [8765]; ent "bsime;" [8909]; ent "bsol;" [92];
   ent "bsolb;" [10693]; ent "bsolhsub;" [10184]; ent "bull;" [8226];
   ent "bullet;" [8226]; ent "bump;" [8782]; ent "bumpE;" [10926]; ent "bumpe;" [8783];
   ent "Bumpeq;" [8782]; ent "bumpeq;" [8783]; ent "Cacute;" [262];
   ent "cacute;" [263]; ent "Cap;" [8914]; ent "cap;" [8745]; ent "capand;" [10820];
   ent "capbrcup;" [10825]; ent "capcap;" [10827]; ent "capcup;" [10823];
   ent "capdot;" [10816]; ent "CapitalDifferentialD;" [8517];
   ent "caps;" [8745; 65024]; ent "caret;" [8257]; ent "caron;" [711];
   ent "Cayleys;" [8493]; ent "ccaps;" [10829]; ent "Ccaron;" [268];
   ent "ccaron;" [269]; ent "Ccedil" [199]; ent "ccedil" [231]; ent "Ccedil;" [199];
   ent "ccedil;" [231]; ent "Ccirc;" [264]; ent "ccirc;" [265]; ent "Cconint;" [8752];
   ent "ccups;" [10828]; ent "ccupssm;" [10832]; ent "Cdot;" [266]; ent "cdot;" [267];
   ent "cedil" [184]; ent "cedil;" [184]; ent "Cedilla;" [184]; ent "cemptyv;" [10674];
   ent "cent" [162]; ent "cent;" [162]; ent "CenterDot;" [183]; ent "centerdot;" [183];
   ent "Cfr;" [8493]; ent "cfr;" [120096]; ent "CHcy;" [1063]; ent "chcy;" [1095];
   ent "check;" [10003]; ent "checkmark;" [10003]; ent "Chi;" [935]; ent "chi;" [967];
   ent "cir;" [9675]; ent "circ;" [710]; ent "circeq;" [8791];
   ent "circlearrowleft;" [8634]; ent "circlearrowright;" [8635];
   ent "circledast;" [8859]; ent "circledcirc;" [8858]; ent "circleddash;" [8861];
   ent "CircleDot;" [8857]; ent "circledR;" [174]; ent "circledS;" [9416];
   ent "CircleMinus;" [8854]; ent "CirclePlus;" [8853]; ent "CircleTimes;" [8855];
   ent "cirE;" [10691]; ent "cire;" [8791]; ent "cirfnint;" [10768];
   ent "cirmid;" [10991]; ent "cirscir;" [10690];
   ent "ClockwiseContourIntegral;" [8754]; ent "CloseCurlyDoubleQuote;" [8221];
   ent "CloseCurlyQuote;" [8217]; ent "clubs;" [9827]; ent "clubsuit;" [9827];
   ent "Colon;" [8759]; ent "colon;" [58]; ent "Colone;" [10868]; ent "colone;" [8788];
   ent "coloneq;" [8788]; ent "comma;" [44]; ent "commat;" [64]; ent "comp;" [8705];
   ent "compfn;" [8728]; ent "complement;" [8705]; ent "complexes;" [8450];
   ent "cong;" [8773]; ent "congdot;" [10861]; ent "Congruent;" [8801];
   ent "Conint;" [8751]; ent "conint;" [8750]; ent "ContourIntegral;" [8750];
   ent "Copf;" [8450]; ent "copf;" [120148]; ent "coprod;" [8720];
   ent "Coproduct;" [8720]; ent "COPY" [169]; ent "copy" [169]; ent "COPY;" [169];
   ent "copy;" [169]; ent "copysr;" [8471];
   ent "CounterClockwiseContourIntegral;" [8755]; ent "crarr;" [8629];
   ent "Cross;" [10799]; ent "cross;" [10007]; ent "Cscr;" [119966];
   ent "cscr;" [119992]; ent "csub;" [10959]; ent "csube;" [10961];
   ent "csup;" [10960]; ent "csupe;" [10962]; ent "ctdot;" [8943];
   ent "cudarrl;" [10552]; ent "cudarrr;" [10549]; ent "cuepr;" [8926];
   ent "cuesc;" [8927]; ent "cularr;" [8630]; ent "cularrp;" [10557];
   ent "Cup;" [8915]; ent "cup;" [8746]; ent "cupbrcap;" [10824]; ent "CupCap;" [8781];
   ent "cupcap;" [10822]; ent "cupcup;" [10826]; ent "cupdot;" [8845];
   ent "cupor;" [10821]; ent "cups;" [8746; 65024]; ent "curarr;" [8631];
   ent "curarrm;" [10556]; ent "curlyeqprec;" [8926]; ent "curlyeqsucc;" [8927];
   ent "curlyvee;" [8910]; ent "curlywedge;" [8911]; ent "curren" [164];
   ent "curren;" [164]; ent "curvearrowleft;" [8630]; ent "curvearrowright;" [8631];
   ent "cuvee;" [8910]; ent "cuwed;" [8911]; ent "cwconint;" [8754];
   ent "cwint;" [8753]; ent "cylcty;" [9005]; ent "Dagger;" [8225];
   ent "dagger;" [8224]; ent "daleth;" [8504]; ent "Darr;" [8609]; ent "dArr;" [8659];
   ent "darr;" [8595]; ent "dash;" [8208]; ent "Dashv;" [10980]; ent "dashv;" [8867];
   ent "dbkarow;" [10511]; ent "dblac;" [733]; ent "Dcaron;" [270];
   ent "dcaron;" [271]; ent "Dcy;" [1044]; ent "dcy;" [1076]; ent "DD;" [8517];
   ent "dd;" [8518]; ent "ddagger;" [8225]; ent "ddarr;" [8650];
   ent "DDotrahd;" [10513]; ent "ddotseq;" [10871]; ent "deg" [176]; ent "deg;" [176];
   ent "Del;" [8711]; ent "Delta;" [916]; ent "delta;" [948]; ent "demptyv;" [10673];
   ent "dfisht;" [10623]; ent "Dfr;" [120071]; ent "dfr;" [120097];
   ent "dHar;" [10597]; ent "dharl;" [8643]; ent "dharr;" [8642];
   ent "DiacriticalAcute;" [180]; ent "DiacriticalDot;" [729];
   ent "DiacriticalDoubleAcute;" [733]; ent "DiacriticalGrave;" [96];
   ent "DiacriticalTilde;" [732]; ent "diam;" [8900]; ent "Diamond;" [8900];
   ent "diamond;" [8900]; ent "diamondsuit;" [9830]; ent "diams;" [9830];
   ent "die;" [168]; ent "DifferentialD;" [8518]; ent "digamma;" [989];
   ent "disin;" [8946]; ent "div;" [247]; ent "divide" [247]; ent "divide;" [247];
   ent "divideontimes;" [8903]; ent "divonx;" [8903]; ent "DJcy;" [1026];
   ent "djcy;" [1106]; ent "dlcorn;" [8990]; ent "dlcrop;" [8973]; ent "dollar;" [36];
   ent "Dopf;" [120123]; ent "dopf;" [120149]; ent "Dot;" [168]; ent "dot;" [729];
   ent "DotDot;" [8412]; ent "doteq;" [8784]; ent "doteqdot;" [8785];
   ent "DotEqual;" [8784]; ent "dotminus;" [8760]; ent "dotplus;" [8724];
   ent "dotsquare;" [8865]; ent "doublebarwedge;" [8966];
   ent "DoubleContourIntegral;" [8751]; ent "DoubleDot;" [168];
   ent "DoubleDownArrow;" [8659]; ent "DoubleLeftArrow;" [8656];
   ent "DoubleLeftRightArrow;" [8660]; ent "DoubleLeftTee;" [10980];
   ent "DoubleLongLeftArrow;" [10232]; ent "DoubleLongLeftRightArrow;" [10234];
   ent "DoubleLongRightArrow;" [10233]; ent "DoubleRightArrow;" [8658];
   ent "DoubleRightTee;" [8872]; ent "DoubleUpArrow;" [8657];
   ent "DoubleUpDownArrow;" [8661]; ent "DoubleVerticalBar;" [8741];
   ent "DownArrow;" [8595]; ent "Downarrow;" [8659]; ent "downarrow;" [8595];
   ent "DownArrowBar;" [10515]; ent "DownArrowUpArrow;" [8693]; ent "DownBreve;" [785];
   ent "downdownarrows;" [8650]; ent "downharpoonleft;" [8643];
   ent "downharpoonright;" [8642]; ent "DownLeftRightVector;" [10576];
   ent "DownLeftTeeVector;" [10590]; ent "DownLeftVector;" [8637];
   ent "DownLeftVectorBar;" [10582]; ent "DownRightTeeVector;" [10591];
   ent "DownRightVector;" [8641]; ent "DownRightVectorBar;" [10583];
   ent "DownTee;" [8868]; ent "DownTeeArrow;" [8615]; ent "drbkarow;" [10512];
   ent "drcorn;" [8991]; ent "drcrop;" [8972]; ent "Dscr;" [119967];
   ent "dscr;" [119993]; ent "DScy;" [1029]; ent "dscy;" [1109]; ent "dsol;" [10742];
   ent "Dstrok;" [272]; ent "dstrok;" [273]; ent "dtdot;" [8945]; ent "dtri;" [9663];
   ent "dtrif;" [9662]; ent "duarr;" [8693]; ent "duhar;" [10607];
   ent "dwangle;" [10662]; ent "DZcy;" [1039]; ent "dzcy;" [1119];
   ent "dzigrarr;" [10239]; ent "Eacute" [201]; ent "eacute" [233];
   ent "Eacute;" [201]; ent "eacute;" [233]; ent "easter;" [10862];
   ent "Ecaron;" [282]; ent "ecaron;" [283]; ent "ecir;" [8790]; ent "Ecirc" [202];
   ent "ecirc" [234]; ent "Ecirc;" [202]; ent "ecirc;" [234]; ent "ecolon;" [8789];
   ent "Ecy;" [1069]; ent "ecy;" [1101]; ent "eDDot;" [10871]; ent "Edot;" [278];
   ent "eDot;" [8785]; ent "edot;" [279]; ent "ee;" [8519]; ent "efDot;" [8786];
   ent "Efr;" [120072]; ent "efr;" [120098]; ent "eg;" [10906]; ent "Egrave" [200];
   ent "egrave" [232]; ent "Egrave;" [200]; ent "egrave;" [232]; ent "egs;" [10902];
   ent "egsdot;" [10904]; ent "el;" [10905]; ent "Element;" [8712];
   ent "elinters;" [9191]; ent "ell;" [8467]; ent "els;" [10901];
   ent "elsdot;" [10903]; ent "Emacr;" [274]; ent "emacr;" [275]; ent "empty;" [8709];
   ent "emptyset;" [8709]; ent "EmptySmallSquare;" [9723]; ent "emptyv;" [8709];
   ent "EmptyVerySmallSquare;" [9643]; ent "emsp13;" [8196]; ent "emsp14;" [8197];
   ent "emsp;" [8195]; ent "ENG;" [330]; ent "eng;" [331]; ent "ensp;" [8194];
   ent "Eogon;" [280]; ent "eogon;" [281]; ent "Eopf;" [120124]; ent "eopf;" [120150];
   ent "epar;" [8917]; ent "eparsl;" [10723]; ent "eplus;" [10865]; ent "epsi;" [949];
   ent "Epsilon;" [917]; ent "epsilon;" [949]; ent "epsiv;" [1013];
   ent "eqcirc;" [8790]; ent "eqcolon;" [8789]; ent "eqsim;" [8770];
   ent "eqslantgtr;" [10902]; ent "eqslantless;" [10901]; ent "Equal;" [10869];
   ent "equals;" [61]; ent "EqualTilde;" [8770]; ent "equest;" [8799];
   ent "Equilibrium;" [8652]; ent "equiv;" [8801]; ent "equivDD;" [10872];
   ent "eqvparsl;" [10725]; ent "erarr;" [10609]; ent "erDot;" [8787];
   ent "Escr;" [8496]; ent "escr;" [8495]; ent "esdot;" [8784]; ent "Esim;" [10867];
   ent "esim;" [8770]; ent "Eta;" [919]; ent "eta;" [951]; ent "ETH" [208];
   ent "eth" [240]; ent "ETH;" [208]; ent "eth;" [240]; ent "Euml" [203];
   ent "euml" [235]; ent "Euml;" [203]; ent "euml;" [235]; ent "euro;" [8364];
   ent "excl;" [33]; ent "exist;" [8707]; ent "Exists;" [8707];
   ent "expectation;" [8496]; ent "ExponentialE;" [8519]; ent "exponentiale;" [8519];
   ent "fallingdotseq;" [8786]; ent "Fcy;" [1060]; ent "fcy;" [1092];
   ent "female;" [9792]; ent "ffilig;" [64259]; ent "fflig;" [64256];
   ent "ffllig;" [64260]; ent "Ffr;" [120073]; ent "ffr;" [120099];
   ent "filig;" [64257]; ent "FilledSmallSquare;" [9724];
   ent "FilledVerySmallSquare;" [9642]; ent "fjlig;" [102; 106]; ent "flat;" [9837];
   ent "fllig;" [64258]; ent "fltns;" [9649]; ent "fnof;" [402]; ent "Fopf;" [120125];
   ent "fopf;" [120151]; ent "ForAll;" [8704]; ent "forall;" [8704];
   ent "fork;" [8916]; ent "forkv;" [10969]; ent "Fouriertrf;" [8497];
   ent "fpartint;" [10765]; ent "frac12" [189]; ent "frac12;" [189];
   ent "frac13;" [8531]; ent "frac14" [188]; ent "frac14;" [188]; ent "frac15;" [8533];
   ent "frac16;" [8537]; ent "frac18;" [8539]; ent "frac23;" [8532];
   ent "frac25;" [8534]; ent "frac34" [190]; ent "frac34;" [190]; ent "frac35;" [8535];
   ent "frac38;" [8540]; ent "frac45;" [8536]; ent "frac56;" [8538];
   ent "frac58;" [8541]; ent "frac78;" [8542]; ent "frasl;" [8260];
   ent "frown;" [8994]; ent "Fscr;" [8497]; ent "fscr;" [119995]; ent "gacute;" [501];
   ent "Gamma;" [915]; ent "gamma;" [947]; ent "Gammad;" [988]; ent "gammad;" [989];
   ent "gap;" [10886]; ent "Gbreve;" [286]; ent "gbreve;" [287]; ent "Gcedil;" [290];
   ent "Gcirc;" [284]; ent "gcirc;" [285]; ent "Gcy;" [1043]; ent "gcy;" [1075];
   ent "Gdot;" [288]; ent "gdot;" [289]; ent "gE;" [8807]; ent "ge;" [8805];
   ent "gEl;" [10892]; ent "gel;" [8923]; ent "geq;" [8805]; ent "geqq;" [8807];
   ent "geqslant;" [10878]; ent "ges;" [10878]; ent "gescc;" [10921];
   ent "gesdot;" [10880]; ent "gesdoto;" [10882]; ent "gesdotol;" [10884];
   ent "gesl;" [8923; 65024]; ent "gesles;" [10900]; ent "Gfr;" [120074];
   ent "gfr;" [120100]; ent "Gg;" [8921]; ent "gg;" [8811]; ent "ggg;" [8921];
   ent "gimel;" [8503]; ent "GJcy;" [1027]; ent "gjcy;" [1107]; ent "gl;" [8823];
   ent "gla;" [10917]; ent "glE;" [10898]; ent "glj;" [10916]; ent "gnap;" [10890];
   ent "gnapprox;" [10890]; ent "gnE;" [8809]; ent "gne;" [10888]; ent "gneq;" [10888];
   ent "gneqq;" [8809]; ent "gnsim;" [8935]; ent "Gopf;" [120126];
   ent "gopf;" [120152]; ent "grave;" [96]; ent "GreaterEqual;" [8805];
   ent "GreaterEqualLess;" [8923]; ent "GreaterFullEqual;" [8807];
   ent "GreaterGreater;" [10914]; ent "GreaterLess;" [8823];
   ent "GreaterSlantEqual;" [10878]; ent "GreaterTilde;" [8819]; ent "Gscr;" [119970];
   ent "gscr;" [8458]; ent "gsim;" [8819]; ent "gsime;" [10894]; ent "gsiml;" [10896];
   ent "GT" [62]; ent "gt" [62]; ent "GT;" [62]; ent "Gt;" [8811]; ent "gt;" [62];
   ent "gtcc;" [10919]; ent "gtcir;" [10874]; ent "gtdot;" [8919];
   ent "gtlPar;" [10645]; ent "gtquest;" [10876]; ent "gtrapprox;" [10886];
   ent "gtrarr;" [10616]; ent "gtrdot;" [8919]; ent "gtreqless;" [8923];
   ent "gtreqqless;" [10892]; ent "gtrless;" [8823]; ent "gtrsim;" [8819];
   ent "gvertneqq;" [8809; 65024]; ent "gvnE;" [8809; 65024]; ent "Hacek;" [711];
   ent "hairsp;" [8202]; ent "half;" [189]; ent "hamilt;" [8459]; ent "HARDcy;" [1066];
   ent "hardcy;" [1098]; ent "hArr;" [8660]; ent "harr;" [8596];
   ent "harrcir;" [10568]; ent "harrw;" [8621]; ent "Hat;" [94]; ent "hbar;" [8463];
   ent "Hcirc;" [292]; ent "hcirc;" [293]; ent "hearts;" [9829];
   ent "heartsuit;" [9829]; ent "hellip;" [8230]; ent "hercon;" [8889];
   ent "Hfr;" [8460]; ent "hfr;" [120101]; ent "HilbertSpace;" [8459];
   ent "hksearow;" [10533]; ent "hkswarow;" [10534]; ent "hoarr;" [8703];
   ent "homtht;" [8763]; ent "hookleftarrow;" [8617]; ent "hookrightarrow;" [8618];
   ent "Hopf;" [8461]; ent "hopf;" [120153]; ent "horbar;" [8213];
   ent "HorizontalLine;" [9472]; ent "Hscr;" [8459]; ent "hscr;" [119997];
   ent "hslash;" [8463]; ent "Hstrok;" [294]; ent "hstrok;" [295];
   ent "HumpDownHump;" [8782]; ent "HumpEqual;" [8783]; ent "hybull;" [8259];
   ent "hyphen;" [8208]; ent "Iacute" [205]; ent "iacute" [237]; ent "Iacute;" [205];
   ent "iacute;" [237]; ent "ic;" [8291]; ent "Icirc" [206]; ent "icirc" [238];
   ent "Icirc;" [206]; ent "icirc;" [238]; ent "Icy;" [1048]; ent "icy;" [1080];
   ent "Idot;" [304]; ent "IEcy;" [1045]; ent "iecy;" [1077]; ent "iexcl" [161];
   ent "iexcl;" [161]; ent "iff;" [8660]; ent "Ifr;" [8465]; ent "ifr;" [120102];
   ent "Igrave" [204]; ent "igrave" [236]; ent "Igrave;" [204]; ent "igrave;" [236];
   ent "ii;" [8520]; ent "iiiint;" [10764]; ent "iiint;" [8749]; ent "iinfin;" [10716];
   ent "iiota;" [8489]; ent "IJlig;" [306]; ent "ijlig;" [307]; ent "Im;" [8465];
   ent "Imacr;" [298]; ent "imacr;" [299]; ent "image;" [8465];
   ent "ImaginaryI;" [8520]; ent "imagline;" [8464]; ent "imagpart;" [8465];
   ent "imath;" [305]; ent "imof;" [8887]; ent "imped;" [437]; ent "Implies;" [8658];
   ent "in;" [8712]; ent "incare;" [8453]; ent "infin;" [8734];
   ent "infintie;" [10717]; ent "inodot;" [305]; ent "Int;" [8748]; ent "int;" [8747];
   ent "intcal;" [8890]; ent "integers;" [8484]; ent "Integral;" [8747];
   ent "intercal;" [8890]; ent "Intersection;" [8898]; ent "intlarhk;" [10775];
   ent "intprod;" [10812]; ent "InvisibleComma;" [8291]; ent "InvisibleTimes;" [8290];
   ent "IOcy;" [1025]; ent "iocy;" [1105]; ent "Iogon;" [302]; ent "iogon;" [303];
   ent "Iopf;" [120128]; ent "iopf;" [120154]; ent "Iota;" [921]; ent "iota;" [953];
   ent "iprod;" [10812]; ent "iquest" [191]; ent "iquest;" [191]; ent "Iscr;" [8464];
   ent "iscr;" [119998]; ent "isin;" [8712]; ent "isindot;" [8949];
   ent "isinE;" [8953]; ent "isins;" [8948]; ent "isinsv;" [8947]; ent "isinv;" [8712];
   ent "it;" [8290]; ent "Itilde;" [296]; ent "itilde;" [297]; ent "Iukcy;" [1030];
   ent "iukcy;" [1110]; ent "Iuml" [207]; ent "iuml" [239]; ent "Iuml;" [207];
   ent "iuml;" [239]; ent "Jcirc;" [308]; ent "jcirc;" [309]; ent "Jcy;" [1049];
   ent "jcy;" [1081]; ent "Jfr;" [120077]; ent "jfr;" [120103]; ent "jmath;" [567];
   ent "Jopf;" [120129]; ent "jopf;" [120155]; ent "Jscr;" [119973];
   ent "jscr;" [119999]; ent "Jsercy;" [1032]; ent "jsercy;" [1112];
   ent "Jukcy;" [1028]; ent "jukcy;" [1108]; ent "Kappa;" [922]; ent "kappa;" [954];
   ent "kappav;" [1008]; ent "Kcedil;" [310]; ent "kcedil;" [311]; ent "Kcy;" [1050];
   ent "kcy;" [1082]; ent "Kfr;" [120078]; ent "kfr;" [120104]; ent "kgreen;" [312];
   ent "KHcy;" [1061]; ent "khcy;" [1093]; ent "KJcy;" [1036]; ent "kjcy;" [1116];
   ent "Kopf;" [120130]; ent "kopf;" [120156]; ent "Kscr;" [119974];
   ent "kscr;" [120000]; ent "lAarr;" [8666]; ent "Lacute;" [313]; ent "lacute;" [314];
   ent "laemptyv;" [10676]; ent "lagran;" [8466]; ent "Lambda;" [923];
   ent "lambda;" [955]; ent "Lang;" [10218]; ent "lang;" [10216]; ent "langd;" [10641];
   ent "langle;" [10216]; ent "lap;" [10885]; ent "Laplacetrf;" [8466];
   ent "laquo" [171]; ent "laquo;" [171]; ent "Larr;" [8606]; ent "lArr;" [8656];
   ent "larr;" [8592]; ent "larrb;" [8676]; ent "larrbfs;" [10527];
   ent "larrfs;" [10525]; ent "larrhk;" [8617]; ent "larrlp;" [8619];
   ent "larrpl;" [10553]; ent "larrsim;" [10611]; ent "larrtl;" [8610];
   ent "lat;" [10923]; ent "lAtail;" [10523]; ent "latail;" [10521];
   ent "late;" [10925]; ent "lates;" [10925; 65024]; ent "lBarr;" [10510];
   ent "lbarr;" [10508]; ent "lbbrk;" [10098]; ent "lbrace;" [123]; ent "lbrack;" [91];
   ent "lbrke;" [10635]; ent "lbrksld;" [10639]; ent "lbrkslu;" [10637];
   ent "Lcaron;" [317]; ent "lcaron;" [318]; ent "Lcedil;" [315]; ent "lcedil;" [316];
   ent "lceil;" [8968]; ent "lcub;" [123]; ent "Lcy;" [1051]; ent "lcy;" [1083];
   ent "ldca;" [10550]; ent "ldquo;" [8220]; ent "ldquor;" [8222];
   ent "ldrdhar;" [10599]; ent "ldrushar;" [10571]; ent "ldsh;" [8626];
   ent "lE;" [8806]; ent "le;" [8804]; ent "LeftAngleBracket;" [10216];
   ent "LeftArrow;" [8592]; ent "Leftarrow;" [8656]; ent "leftarrow;" [8592];
   ent "LeftArrowBar;" [8676]; ent "LeftArrowRightArrow;" [8646];
   ent "leftarrowtail;" [8610]; ent "LeftCeiling;" [8968];
   ent "LeftDoubleBracket;" [10214]; ent "LeftDownTeeVector;" [10593];
   ent "LeftDownVector;" [8643]; ent "LeftDownVectorBar;" [10585];
   ent "LeftFloor;" [8970]; ent "leftharpoondown;" [8637]; ent "leftharpoonup;" [8636];
   ent "leftleftarrows;" [8647]; ent "LeftRightArrow;" [8596];
   ent "Leftrightarrow;" [8660]; ent "leftrightarrow;" [8596];
   ent "leftrightarrows;" [8646]; ent "leftrightharpoons;" [8651];
   ent "leftrightsquigarrow;" [8621]; ent "LeftRightVector;" [10574];
   ent "LeftTee;" [8867]; ent "LeftTeeArrow;" [8612]; ent "LeftTeeVector;" [10586];
   ent "leftthreetimes;" [8907]; ent "LeftTriangle;" [8882];
   ent "LeftTriangleBar;" [10703]; ent "LeftTriangleEqual;" [8884];
   ent "LeftUpDownVector;" [10577]; ent "LeftUpTeeVector;" [10592];
   ent "LeftUpVector;" [8639]; ent "LeftUpVectorBar;" [10584];
   ent "LeftVector;" [8636]; ent "LeftVectorBar;" [10578]; ent "lEg;" [10891];
   ent "leg;" [8922]; ent "leq;" [8804]; ent "leqq;" [8806]; ent "leqslant;" [10877];
   ent "les;" [10877]; ent "lescc;" [10920]; ent "lesdot;" [10879];
   ent "lesdoto;" [10881]; ent "lesdotor;" [10883]; ent "lesg;" [8922; 65024];
   ent "lesges;" [10899]; ent "lessapprox;" [10885]; ent "lessdot;" [8918];
   ent "lesseqgtr;" [8922]; ent "lesseqqgtr;" [10891]; ent "LessEqualGreater;" [8922];
   ent "LessFullEqual;" [8806]; ent "LessGreater;" [8822]; ent "lessgtr;" [8822];
   ent "LessLess;" [10913]; ent "lesssim;" [8818]; ent "LessSlantEqual;" [10877];
   ent "LessTilde;" [8818]; ent "lfisht;" [10620]; ent "lfloor;" [8970];
   ent "Lfr;" [120079]; ent "lfr;" [120105]; ent "lg;" [8822]; ent "lgE;" [10897];
   ent "lHar;" [10594]; ent "lhard;" [8637]; ent "lharu;" [8636];
   ent "lharul;" [10602]; ent "lhblk;" [9604]; ent "LJcy;" [1033]; ent "ljcy;" [1113];
   ent "Ll;" [8920]; ent "ll;" [8810]; ent "llarr;" [8647]; ent "llcorner;" [8990];
   ent "Lleftarrow;" [8666]; ent "llhard;" [10603]; ent "lltri;" [9722];
   ent "Lmidot;" [319]; ent "lmidot;" [320]; ent "lmoust;" [9136];
   ent "lmoustache;" [9136]; ent "lnap;" [10889]; ent "lnapprox;" [10889];
   ent "lnE;" [8808]; ent "lne;" [10887]; ent "lneq;" [10887]; ent "lneqq;" [8808];
   ent "lnsim;" [8934]; ent "loang;" [10220]; ent "loarr;" [8701];
   ent "lobrk;" [10214]; ent "LongLeftArrow;" [10229]; ent "Longleftarrow;" [10232];
   ent "longleftarrow;" [10229]; ent "LongLeftRightArrow;" [10231];
   ent "Longleftrightarrow;" [10234]; ent "longleftrightarrow;" [10231];
   ent "longmapsto;" [10236]; ent "LongRightArrow;" [10230];
   ent "Longrightarrow;" [10233]; ent "longrightarrow;" [10230];
   ent "looparrowleft;" [8619]; ent "looparrowright;" [8620]; ent "lopar;" [10629];
   ent "Lopf;" [120131]; ent "lopf;" [120157]; ent "loplus;" [10797];
   ent "lotimes;" [10804]; ent "lowast;" [8727]; ent "lowbar;" [95];
   ent "LowerLeftArrow;" [8601]; ent "LowerRightArrow;" [8600]; ent "loz;" [9674];
   ent "lozenge;" [9674]; ent "lozf;" [10731]; ent "lpar;" [40]; ent "lparlt;" [10643];
   ent "lrarr;" [8646]; ent "lrcorner;" [8991]; ent "lrhar;" [8651];
   ent "lrhard;" [10605]; ent "lrm;" [8206]; ent "lrtri;" [8895]; ent "lsaquo;" [8249];
   ent "Lscr;" [8466]; ent "lscr;" [120001]; ent "Lsh;" [8624]; ent "lsh;" [8624];
   ent "lsim;" [8818]; ent "lsime;" [10893]; ent "lsimg;" [10895]; ent "lsqb;" [91];
   ent "lsquo;" [8216]; ent "lsquor;" [8218]; ent "Lstrok;" [321]; ent "lstrok;" [322];
   ent "LT" [60]; ent "lt" [60]; ent "LT;" [60]; ent "Lt;" [8810]; ent "lt;" [60];
   ent "ltcc;" [10918]; ent "ltcir;" [10873]; ent "ltdot;" [8918];
   ent "lthree;" [8907]; ent "ltimes;" [8905]; ent "ltlarr;" [10614];
   ent "ltquest;" [10875]; ent "ltri;" [9667]; ent "ltrie;" [8884];
   ent "ltrif;" [9666]; ent "ltrPar;" [10646]; ent "lurdshar;" [10570];
   ent "luruhar;" [10598]; ent "lvertneqq;" [8808; 65024]; ent "lvnE;" [8808; 65024];
   ent "macr" [175]; ent "macr;" [175]; ent "male;" [9794]; ent "malt;" [10016];
   ent "maltese;" [10016]; ent "Map;" [10501]; ent "map;" [8614]; ent "mapsto;" [8614];
   ent "mapstodown;" [8615]; ent "mapstoleft;" [8612]; ent "mapstoup;" [8613];
   ent "marker;" [9646]; ent "mcomma;" [10793]; ent "Mcy;" [1052]; ent "mcy;" [1084];
   ent "mdash;" [8212]; ent "mDDot;" [8762]; ent "measuredangle;" [8737];
   ent "MediumSpace;" [8287]; ent "Mellintrf;" [8499]; ent "Mfr;" [120080];
   ent "mfr;" [120106]; ent "mho;" [8487]; ent "micro" [181]; ent "micro;" [181];
   ent "mid;" [8739]; ent "midast;" [42]; ent "midcir;" [10992]; ent "middot" [183];
   ent "middot;" [183]; ent "minus;" [8722]; ent "minusb;" [8863];
   ent "minusd;" [8760]; ent "minusdu;" [10794]; ent "MinusPlus;" [8723];
   ent "mlcp;" [10971]; ent "mldr;" [8230]; ent "mnplus;" [8723]; ent "models;" [8871];
   ent "Mopf;" [120132]; ent "mopf;" [120158]; ent "mp;" [8723]; ent "Mscr;" [8499];
   ent "mscr;" [120002]; ent "mstpos;" [8766]; ent "Mu;" [924]; ent "mu;" [956];
   ent "multimap;" [8888]; ent "mumap;" [8888]; ent "nabla;" [8711];
   ent "Nacute;" [323]; ent "nacute;" [324]; ent "nang;" [8736; 8402];
   ent "nap;" [8777]; ent "napE;" [10864; 824]; ent "napid;" [8779; 824];
   ent "napos;" [329]; ent "napprox;" [8777]; ent "natur;" [9838];
   ent "natural;" [9838]; ent "naturals;" [8469]; ent "nbsp" [160]; ent "nbsp;" [160];
   ent "nbump;" [8782; 824]; ent "nbumpe;" [8783; 824]; ent "ncap;" [10819];
   ent "Ncaron;" [327]; ent "ncaron;" [328]; ent "Ncedil;" [325]; ent "ncedil;" [326];
   ent "ncong;" [8775]; ent "ncongdot;" [10861; 824]; ent "ncup;" [10818];
   ent "Ncy;" [1053]; ent "ncy;" [1085]; ent "ndash;" [8211]; ent "ne;" [8800];
   ent "nearhk;" [10532]; ent "neArr;" [8663]; ent "nearr;" [8599];
   ent "nearrow;" [8599]; ent "nedot;" [8784; 824]; ent "NegativeMediumSpace;" [8203];
   ent "NegativeThickSpace;" [8203]; ent "NegativeThinSpace;" [8203];
   ent "NegativeVeryThinSpace;" [8203]; ent "nequiv;" [8802]; ent "nesear;" [10536];
   ent "nesim;" [8770; 824]; ent "NestedGreaterGreater;" [8811];
   ent "NestedLessLess;" [8810]; ent "NewLine;" [10]; ent "nexist;" [8708];
   ent "nexists;" [8708]; ent "Nfr;" [120081]; ent "nfr;" [120107];
   ent "ngE;" [8807; 824]; ent "nge;" [8817]; ent "ngeq;" [8817];
   ent "ngeqq;" [8807; 824]; ent "ngeqslant;" [10878; 824]; ent "nges;" [10878; 824];
   ent "nGg;" [8921; 824]; ent "ngsim;" [8821]; ent "nGt;" [8811; 8402];
   ent "ngt;" [8815]; ent "ngtr;" [8815]; ent "nGtv;" [8811; 824]; ent "nhArr;" [8654];
   ent "nharr;" [8622]; ent "nhpar;" [10994]; ent "ni;" [8715]; ent "nis;" [8956];
   ent "nisd;" [8954]; ent "niv;" [8715]; ent "NJcy;" [1034]; ent "njcy;" [1114];
   ent "nlArr;" [8653]; ent "nlarr;" [8602]; ent "nldr;" [8229];
   ent "nlE;" [8806; 824]; ent "nle;" [8816]; ent "nLeftarrow;" [8653];
   ent "nleftarrow;" [8602]; ent "nLeftrightarrow;" [8654];
   ent "nleftrightarrow;" [8622]; ent "nleq;" [8816]; ent "nleqq;" [8806; 824];
   ent "nleqslant;" [10877; 824]; ent "nles;" [10877; 824]; ent "nless;" [8814];
   ent "nLl;" [8920; 824]; ent "nlsim;" [8820]; ent "nLt;" [8810; 8402];
   ent "nlt;" [8814]; ent "nltri;" [8938]; ent "nltrie;" [8940];
   ent "nLtv;" [8810; 824]; ent "nmid;" [8740]; ent "NoBreak;" [8288];
   ent "NonBreakingSpace;" [160]; ent "Nopf;" [8469]; ent "nopf;" [120159];
   ent "not" [172]; ent "Not;" [10988]; ent "not;" [172]; ent "NotCongruent;" [8802];
   ent "NotCupCap;" [8813]; ent "NotDoubleVerticalBar;" [8742];
   ent "NotElement;" [8713]; ent "NotEqual;" [8800]; ent "NotEqualTilde;" [8770; 824];
   ent "NotExists;" [8708]; ent "NotGreater;" [8815]; ent "NotGreaterEqual;" [8817];
   ent "NotGreaterFullEqual;" [8807; 824]; ent "NotGreaterGreater;" [8811; 824];
   ent "NotGreaterLess;" [8825]; ent "NotGreaterSlantEqual;" [10878; 824];
   ent "NotGreaterTilde;" [8821]; ent "NotHumpDownHump;" [8782; 824];
   ent "NotHumpEqual;" [8783; 824]; ent "notin;" [8713]; ent "notindot;" [8949; 824];
   ent "notinE;" [8953; 824]; ent "notinva;" [8713]; ent "notinvb;" [8951];
   ent "notinvc;" [8950]; ent "NotLeftTriangle;" [8938];
   ent "NotLeftTriangleBar;" [10703; 824]; ent "NotLeftTriangleEqual;" [8940];
   ent "NotLess;" [8814]; ent "NotLessEqual;" [8816]; ent "NotLessGreater;" [8824];
   ent "NotLessLess;" [8810; 824]; ent "NotLessSlantEqual;" [10877; 824];
   ent "NotLessTilde;" [8820]; ent "NotNestedGreaterGreater;" [10914; 824];
   ent "NotNestedLessLess;" [10913; 824]; ent "notni;" [8716]; ent "notniva;" [8716];
   ent "notnivb;" [8958]; ent "notnivc;" [8957]; ent "NotPrecedes;" [8832];
   ent "NotPrecedesEqual;" [10927; 824]; ent "NotPrecedesSlantEqual;" [8928];
   ent "NotReverseElement;" [8716]; ent "NotRightTriangle;" [8939];
   ent "NotRightTriangleBar;" [10704; 824]; ent "NotRightTriangleEqual;" [8941];
   ent "NotSquareSubset;" [8847; 824]; ent "NotSquareSubsetEqual;" [8930];
   ent "NotSquareSuperset;" [8848; 824]; ent "NotSquareSupersetEqual;" [8931];
   ent "NotSubset;" [8834; 8402]; ent "NotSubsetEqual;" [8840];
   ent "NotSucceeds;" [8833]; ent "NotSucceedsEqual;" [10928; 824];
   ent "NotSucceedsSlantEqual;" [8929]; ent "NotSucceedsTilde;" [8831; 824];
   ent "NotSuperset;" [8835; 8402]; ent "NotSupersetEqual;" [8841];
   ent "NotTilde;" [8769]; ent "NotTildeEqual;" [8772];
   ent "NotTildeFullEqual;" [8775]; ent "NotTildeTilde;" [8777];
   ent "NotVerticalBar;" [8740]; ent "npar;" [8742]; ent "nparallel;" [8742];
   ent "nparsl;" [11005; 8421]; ent "npart;" [8706; 824]; ent "npolint;" [10772];
   ent "npr;" [8832]; ent "nprcue;" [8928]; ent "npre;" [10927; 824];
   ent "nprec;" [8832]; ent "npreceq;" [10927; 824]; ent "nrArr;" [8655];
   ent "nrarr;" [8603]; ent "nrarrc;" [10547; 824]; ent "nrarrw;" [8605; 824];
   ent "nRightarrow;" [8655]; ent "nrightarrow;" [8603]; ent "nrtri;" [8939];
   ent "nrtrie;" [8941]; ent "nsc;" [8833]; ent "nsccue;" [8929];
   ent "nsce;" [10928; 824]; ent "Nscr;" [119977]; ent "nscr;" [120003];
   ent "nshortmid;" [8740]; ent "nshortparallel;" [8742]; ent "nsim;" [8769];
   ent "nsime;" [8772]; ent "nsimeq;" [8772]; ent "nsmid;" [8740]; ent "nspar;" [8742];
   ent "nsqsube;" [8930]; ent "nsqsupe;" [8931]; ent "nsub;" [8836];
   ent "nsubE;" [10949; 824]; ent "nsube;" [8840]; ent "nsubset;" [8834; 8402];
   ent "nsubseteq;" [8840]; ent "nsubseteqq;" [10949; 824]; ent "nsucc;" [8833];
   ent "nsucceq;" [10928; 824]; ent "nsup;" [8837]; ent "nsupE;" [10950; 824];
   ent "nsupe;" [8841]; ent "nsupset;" [8835; 8402]; ent "nsupseteq;" [8841];
   ent "nsupseteqq;" [10950; 824]; ent "ntgl;" [8825]; ent "Ntilde" [209];
   ent "ntilde" [241]; ent "Ntilde;" [209]; ent "ntilde;" [241]; ent "ntlg;" [8824];
   ent "ntriangleleft;" [8938]; ent "ntrianglelefteq;" [8940];
   ent "ntriangleright;" [8939]; ent "ntrianglerighteq;" [8941]; ent "Nu;" [925];
   ent "nu;" [957]; ent "num;" [35]; ent "numero;" [8470]; ent "numsp;" [8199];
   ent "nvap;" [8781; 8402]; ent "nVDash;" [8879]; ent "nVdash;" [8878];
   ent "nvDash;" [8877]; ent "nvdash;" [8876]; ent "nvge;" [8805; 8402];
   ent "nvgt;" [62; 8402]; ent "nvHarr;" [10500]; ent "nvinfin;" [10718];
   ent "nvlArr;" [10498]; ent "nvle;" [8804; 8402]; ent "nvlt;" [60; 8402];
   ent "nvltrie;" [8884; 8402]; ent "nvrArr;" [10499]; ent "nvrtrie;" [8885; 8402];
   ent "nvsim;" [8764; 8402]; ent "nwarhk;" [10531]; ent "nwArr;" [8662];
   ent "nwarr;" [8598]; ent "nwarrow;" [8598]; ent "nwnear;" [10535];
   ent "Oacute" [211]; ent "oacute" [243]; ent "Oacute;" [211]; ent "oacute;" [243];
   ent "oast;" [8859]; ent "ocir;" [8858]; ent "Ocirc" [212]; ent "ocirc" [244];
   ent "Ocirc;" [212]; ent "ocirc;" [244]; ent "Ocy;" [1054]; ent "ocy;" [1086];
   ent "odash;" [8861]; ent "Odblac;" [336]; ent "odblac;" [337]; ent "odiv;" [10808];
   ent "odot;" [8857]; ent "odsold;" [10684]; ent "OElig;" [338]; ent "oelig;" [339];
   ent "ofcir;" [10687]; ent "Ofr;" [120082]; ent "ofr;" [120108]; ent "ogon;" [731];
   ent "Ograve" [210]; ent "ograve" [242]; ent "Ograve;" [210]; ent "ograve;" [242];
   ent "ogt;" [10689]; ent "ohbar;" [10677]; ent "ohm;" [937]; ent "oint;" [8750];
   ent "olarr;" [8634]; ent "olcir;" [10686]; ent "olcross;" [10683];
   ent "oline;" [8254]; ent "olt;" [10688]; ent "Omacr;" [332]; ent "omacr;" [333];
   ent "Omega;" [937]; ent "omega;" [969]; ent "Omicron;" [927]; ent "omicron;" [959];
   ent "omid;" [10678]; ent "ominus;" [8854]; ent "Oopf;" [120134];
   ent "oopf;" [120160]; ent "opar;" [10679]; ent "OpenCurlyDoubleQuote;" [8220];
   ent "OpenCurlyQuote;" [8216]; ent "operp;" [10681]; ent "oplus;" [8853];
   ent "Or;" [10836]; ent "or;" [8744]; ent "orarr;" [8635]; ent "ord;" [10845];
   ent "order;" [8500]; ent "orderof;" [8500]; ent "ordf" [170]; ent "ordf;" [170];
   ent "ordm" [186]; ent "ordm;" [186]; ent "origof;" [8886]; ent "oror;" [10838];
   ent "orslope;" [10839]; ent "orv;" [10843]; ent "oS;" [9416]; ent "Oscr;" [119978];
   ent "oscr;" [8500]; ent "Oslash" [216]; ent "oslash" [248]; ent "Oslash;" [216];
   ent "oslash;" [248]; ent "osol;" [8856]; ent "Otilde" [213]; ent "otilde" [245];
   ent "Otilde;" [213]; ent "otilde;" [245]; ent "Otimes;" [10807];
   ent "otimes;" [8855]; ent "otimesas;" [10806]; ent "Ouml" [214]; ent "ouml" [246];
   ent "Ouml;" [214]; ent "ouml;" [246]; ent "ovbar;" [9021]; ent "OverBar;" [8254];
   ent "OverBrace;" [9182]; ent "OverBracket;" [9140]; ent "OverParenthesis;" [9180];
   ent "par;" [8741]; ent "para" [182]; ent "para;" [182]; ent "parallel;" [8741];
   ent "parsim;" [10995]; ent "parsl;" [11005]; ent "part;" [8706];
   ent "PartialD;" [8706]; ent "Pcy;" [1055]; ent "pcy;" [1087]; ent "percnt;" [37];
   ent "period;" [46]; ent "permil;" [8240]; ent "perp;" [8869]; ent "pertenk;" [8241];
   ent "Pfr;" [120083]; ent "pfr;" [120109]; ent "Phi;" [934]; ent "phi;" [966];
   ent "phiv;" [981]; ent "phmmat;" [8499]; ent "phone;" [9742]; ent "Pi;" [928];
   ent "pi;" [960]; ent "pitchfork;" [8916]; ent "piv;" [982]; ent "planck;" [8463];
   ent "planckh;" [8462]; ent "plankv;" [8463]; ent "plus;" [43];
   ent "plusacir;" [10787]; ent "plusb;" [8862]; ent "pluscir;" [10786];
   ent "plusdo;" [8724]; ent "plusdu;" [10789]; ent "pluse;" [10866];
   ent "PlusMinus;" [177]; ent "plusmn" [177]; ent "plusmn;" [177];
   ent "plussim;" [10790]; ent "plustwo;" [10791]; ent "pm;" [177];
   ent "Poincareplane;" [8460]; ent "pointint;" [10773]; ent "Popf;" [8473];
   ent "popf;" [120161]; ent "pound" [163]; ent "pound;" [163]; ent "Pr;" [10939];
   ent "pr;" [8826]; ent "prap;" [10935]; ent "prcue;" [8828]; ent "prE;" [10931];
   ent "pre;" [10927]; ent "prec;" [8826]; ent "precapprox;" [10935];
   ent "preccurlyeq;" [8828]; ent "Precedes;" [8826]; ent "PrecedesEqual;" [10927];
   ent "PrecedesSlantEqual;" [8828]; ent "PrecedesTilde;" [8830];
   ent "preceq;" [10927]; ent "precnapprox;" [10937]; ent "precneqq;" [10933];
   ent "precnsim;" [8936]; ent "precsim;" [8830]; ent "Prime;" [8243];
   ent "prime;" [8242]; ent "primes;" [8473]; ent "prnap;" [10937];
   ent "prnE;" [10933]; ent "prnsim;" [8936]; ent "prod;" [8719];
   ent "Product;" [8719]; ent "profalar;" [9006]; ent "profline;" [8978];
   ent "profsurf;" [8979]; ent "prop;" [8733]; ent "Proportion;" [8759];
   ent "Proportional;" [8733]; ent "propto;" [8733]; ent "prsim;" [8830];
   ent "prurel;" [8880]; ent "Pscr;" [119979]; ent "pscr;" [120005]; ent "Psi;" [936];
   ent "psi;" [968]; ent "puncsp;" [8200]; ent "Qfr;" [120084]; ent "qfr;" [120110];
   ent "qint;" [10764]; ent "Qopf;" [8474]; ent "qopf;" [120162]; ent "qprime;" [8279];
   ent "Qscr;" [119980]; ent "qscr;" [120006]; ent "quaternions;" [8461];
   ent "quatint;" [10774]; ent "quest;" [63]; ent "questeq;" [8799]; ent "QUOT" [34];
   ent "quot" [34]; ent "QUOT;" [34]; ent "quot;" [34]; ent "rAarr;" [8667];
   ent "race;" [8765; 817]; ent "Racute;" [340]; ent "racute;" [341];
   ent "radic;" [8730]; ent "raemptyv;" [10675]; ent "Rang;" [10219];
   ent "rang;" [10217]; ent "rangd;" [10642]; ent "range;" [10661];
   ent "rangle;" [10217]; ent "raquo" [187]; ent "raquo;" [187]; ent "Rarr;" [8608];
   ent "rArr;" [8658]; ent "rarr;" [8594]; ent "rarrap;" [10613]; ent "rarrb;" [8677];
   ent "rarrbfs;" [10528]; ent "rarrc;" [10547]; ent "rarrfs;" [10526];
   ent "rarrhk;" [8618]; ent "rarrlp;" [8620]; ent "rarrpl;" [10565];
   ent "rarrsim;" [10612]; ent "Rarrtl;" [10518]; ent "rarrtl;" [8611];
   ent "rarrw;" [8605]; ent "rAtail;" [10524]; ent "ratail;" [10522];
   ent "ratio;" [8758]; ent "rationals;" [8474]; ent "RBarr;" [10512];
   ent "rBarr;" [10511]; ent "rbarr;" [10509]; ent "rbbrk;" [10099];
   ent "rbrace;" [125]; ent "rbrack;" [93]; ent "rbrke;" [10636];
   ent "rbrksld;" [10638]; ent "rbrkslu;" [10640]; ent "Rcaron;" [344];
   ent "rcaron;" [345]; ent "Rcedil;" [342]; ent "rcedil;" [343]; ent "rceil;" [8969];
   ent "rcub;" [125]; ent "Rcy;" [1056]; ent "rcy;" [1088]; ent "rdca;" [10551];
   ent "rdldhar;" [10601]; ent "rdquo;" [8221]; ent "rdquor;" [8221];
   ent "rdsh;" [8627]; ent "Re;" [8476]; ent "real;" [8476]; ent "realine;" [8475];
   ent "realpart;" [8476]; ent "reals;" [8477]; ent "rect;" [9645]; ent "REG" [174];
   ent "reg" [174]; ent "REG;" [174]; ent "reg;" [174]; ent "ReverseElement;" [8715];
   ent "ReverseEquilibrium;" [8651]; ent "ReverseUpEquilibrium;" [10607];
   ent "rfisht;" [10621]; ent "rfloor;" [8971]; ent "Rfr;" [8476]; ent "rfr;" [120111];
   ent "rHar;" [10596]; ent "rhard;" [8641]; ent "rharu;" [8640];
   ent "rharul;" [10604]; ent "Rho;" [929]; ent "rho;" [961]; ent "rhov;" [1009];
   ent "RightAngleBracket;" [10217]; ent "RightArrow;" [8594];
   ent "Rightarrow;" [8658]; ent "rightarrow;" [8594]; ent "RightArrowBar;" [8677];
   ent "RightArrowLeftArrow;" [8644]; ent "rightarrowtail;" [8611];
   ent "RightCeiling;" [8969]; ent "RightDoubleBracket;" [10215];
   ent "RightDownTeeVector;" [10589]; ent "RightDownVector;" [8642];
   ent "RightDownVectorBar;" [10581]; ent "RightFloor;" [8971];
   ent "rightharpoondown;" [8641]; ent "rightharpoonup;" [8640];
   ent "rightleftarrows;" [8644]; ent "rightleftharpoons;" [8652];
   ent "rightrightarrows;" [8649]; ent "rightsquigarrow;" [8605];
   ent "RightTee;" [8866]; ent "RightTeeArrow;" [8614]; ent "RightTeeVector;" [10587];
   ent "rightthreetimes;" [8908]; ent "RightTriangle;" [8883];
   ent "RightTriangleBar;" [10704]; ent "RightTriangleEqual;" [8885];
   ent "RightUpDownVector;" [10575]; ent "RightUpTeeVector;" [10588];
   ent "RightUpVector;" [8638]; ent "RightUpVectorBar;" [10580];
   ent "RightVector;" [8640]; ent "RightVectorBar;" [10579]; ent "ring;" [730];
   ent "risingdotseq;" [8787]; ent "rlarr;" [8644]; ent "rlhar;" [8652];
   ent "rlm;" [8207]; ent "rmoust;" [9137]; ent "rmoustache;" [9137];
   ent "rnmid;" [10990]; ent "roang;" [10221]; ent "roarr;" [8702];
   ent "robrk;" [10215]; ent "ropar;" [10630]; ent "Ropf;" [8477];
   ent "ropf;" [120163]; ent "roplus;" [10798]; ent "rotimes;" [10805];
   ent "RoundImplies;" [10608]; ent "rpar;" [41]; ent "rpargt;" [10644];
   ent "rppolint;" [10770]; ent "rrarr;" [8649]; ent "Rrightarrow;" [8667];
   ent "rsaquo;" [8250]; ent "Rscr;" [8475]; ent "rscr;" [120007]; ent "Rsh;" [8625];
   ent "rsh;" [8625]; ent "rsqb;" [93]; ent "rsquo;" [8217]; ent "rsquor;" [8217];
   ent "rthree;" [8908]; ent "rtimes;" [8906]; ent "rtri;" [9657]; ent "rtrie;" [8885];
   ent "rtrif;" [9656]; ent "rtriltri;" [10702]; ent "RuleDelayed;" [10740];
   ent "ruluhar;" [10600]; ent "rx;" [8478]; ent "Sacute;" [346]; ent "sacute;" [347];
   ent "sbquo;" [8218]; ent "Sc;" [10940]; ent "sc;" [8827]; ent "scap;" [10936];
   ent "Scaron;" [352]; ent "scaron;" [353]; ent "sccue;" [8829]; ent "scE;" [10932];
   ent "sce;" [10928]; ent "Scedil;" [350]; ent "scedil;" [351]; ent "Scirc;" [348];
   ent "scirc;" [349]; ent "scnap;" [10938]; ent "scnE;" [10934]; ent "scnsim;" [8937];
   ent "scpolint;" [10771]; ent "scsim;" [8831]; ent "Scy;" [1057]; ent "scy;" [1089];
   ent "sdot;" [8901]; ent "sdotb;" [8865]; ent "sdote;" [10854];
   ent "searhk;" [10533]; ent "seArr;" [8664]; ent "searr;" [8600];
   ent "searrow;" [8600]; ent "sect" [167]; ent "sect;" [167]; ent "semi;" [59];
   ent "seswar;" [10537]; ent "setminus;" [8726]; ent "setmn;" [8726];
   ent "sext;" [10038]; ent "Sfr;" [120086]; ent "sfr;" [120112]; ent "sfrown;" [8994];
   ent "sharp;" [9839]; ent "SHCHcy;" [1065]; ent "shchcy;" [1097]; ent "SHcy;" [1064];
   ent "shcy;" [1096]; ent "ShortDownArrow;" [8595]; ent "ShortLeftArrow;" [8592];
   ent "shortmid;" [8739]; ent "shortparallel;" [8741]; ent "ShortRightArrow;" [8594];
   ent "ShortUpArrow;" [8593]; ent "shy" [173]; ent "shy;" [173]; ent "Sigma;" [931];
   ent "sigma;" [963]; ent "sigmaf;" [962]; ent "sigmav;" [962]; ent "sim;" [8764];
   ent "simdot;" [10858]; ent "sime;" [8771]; ent "simeq;" [8771]; ent "simg;" [10910];
   ent "simgE;" [10912]; ent "siml;" [10909]; ent "simlE;" [10911];
   ent "simne;" [8774]; ent "simplus;" [10788]; ent "simrarr;" [10610];
   ent "slarr;" [8592]; ent "SmallCircle;" [8728]; ent "smallsetminus;" [8726];
   ent "smashp;" [10803]; ent "smeparsl;" [10724]; ent "smid;" [8739];
   ent "smile;" [8995]; ent "smt;" [10922]; ent "smte;" [10924];
   ent "smtes;" [10924; 65024]; ent "SOFTcy;" [1068]; ent "softcy;" [1100];
   ent "sol;" [47]; ent "solb;" [10692]; ent "solbar;" [9023]; ent "Sopf;" [120138];
   ent "sopf;" [120164]; ent "spades;" [9824]; ent "spadesuit;" [9824];
   ent "spar;" [8741]; ent "sqcap;" [8851]; ent "sqcaps;" [8851; 65024];
   ent "sqcup;" [8852]; ent "sqcups;" [8852; 65024]; ent "Sqrt;" [8730];
   ent "sqsub;" [8847]; ent "sqsube;" [8849]; ent "sqsubset;" [8847];
   ent "sqsubseteq;" [8849]; ent "sqsup;" [8848]; ent "sqsupe;" [8850];
   ent "sqsupset;" [8848]; ent "sqsupseteq;" [8850]; ent "squ;" [9633];
   ent "Square;" [9633]; ent "square;" [9633]; ent "SquareIntersection;" [8851];
   ent "SquareSubset;" [8847]; ent "SquareSubsetEqual;" [8849];
   ent "SquareSuperset;" [8848]; ent "SquareSupersetEqual;" [8850];
   ent "SquareUnion;" [8852]; ent "squarf;" [9642]; ent "squf;" [9642];
   ent "srarr;" [8594]; ent "Sscr;" [119982]; ent "sscr;" [120008];
   ent "ssetmn;" [8726]; ent "ssmile;" [8995]; ent "sstarf;" [8902];
   ent "Star;" [8902]; ent "star;" [9734]; ent "starf;" [9733];
   ent "straightepsilon;" [1013]; ent "straightphi;" [981]; ent "strns;" [175];
   ent "Sub;" [8912]; ent "sub;" [8834]; ent "subdot;" [10941]; ent "subE;" [10949];
   ent "sube;" [8838]; ent "subedot;" [10947]; ent "submult;" [10945];
   ent "subnE;" [10955]; ent "subne;" [8842]; ent "subplus;" [10943];
   ent "subrarr;" [10617]; ent "Subset;" [8912]; ent "subset;" [8834];
   ent "subseteq;" [8838]; ent "subseteqq;" [10949]; ent "SubsetEqual;" [8838];
   ent "subsetneq;" [8842]; ent "subsetneqq;" [10955]; ent "subsim;" [10951];
   ent "subsub;" [10965]; ent "subsup;" [10963]; ent "succ;" [8827];
   ent "succapprox;" [10936]; ent "succcurlyeq;" [8829]; ent "Succeeds;" [8827];
   ent "SucceedsEqual;" [10928]; ent "SucceedsSlantEqual;" [8829];
   ent "SucceedsTilde;" [8831]; ent "succeq;" [10928]; ent "succnapprox;" [10938];
   ent "succneqq;" [10934]; ent "succnsim;" [8937]; ent "succsim;" [8831];
   ent "SuchThat;" [8715]; ent "Sum;" [8721]; ent "sum;" [8721]; ent "sung;" [9834];
   ent "sup1" [185]; ent "sup1;" [185]; ent "sup2" [178]; ent "sup2;" [178];
   ent "sup3" [179]; ent "sup3;" [179]; ent "Sup;" [8913]; ent "sup;" [8835];
   ent "supdot;" [10942]; ent "supdsub;" [10968]; ent "supE;" [10950];
   ent "supe;" [8839]; ent "supedot;" [10948]; ent "Superset;" [8835];
   ent "SupersetEqual;" [8839]; ent "suphsol;" [10185]; ent "suphsub;" [10967];
   ent "suplarr;" [10619]; ent "supmult;" [10946]; ent "supnE;" [10956];
   ent "supne;" [8843]; ent "supplus;" [10944]; ent "Supset;" [8913];
   ent "supset;" [8835]; ent "supseteq;" [8839]; ent "supseteqq;" [10950];
   ent "supsetneq;" [8843]; ent "supsetneqq;" [10956]; ent "supsim;" [10952];
   ent "supsub;" [10964]; ent "supsup;" [10966]; ent "swarhk;" [10534];
   ent "swArr;" [8665]; ent "swarr;" [8601]; ent "swarrow;" [8601];
   ent "swnwar;" [10538]; ent "szlig" [223]; ent "szlig;" [223]; ent "Tab;" [9];
   ent "target;" [8982]; ent "Tau;" [932]; ent "tau;" [964]; ent "tbrk;" [9140];
   ent "Tcaron;" [356]; ent "tcaron;" [357]; ent "Tcedil;" [354]; ent "tcedil;" [355];
   ent "Tcy;" [1058]; ent "tcy;" [1090]; ent "tdot;" [8411]; ent "telrec;" [8981];
   ent "Tfr;" [120087]; ent "tfr;" [120113]; ent "there4;" [8756];
   ent "Therefore;" [8756]; ent "therefore;" [8756]; ent "Theta;" [920];
   ent "theta;" [952]; ent "thetasym;" [977]; ent "thetav;" [977];
   ent "thickapprox;" [8776]; ent "thicksim;" [8764]; ent "ThickSpace;" [8287; 8202];
   ent "thinsp;" [8201]; ent "ThinSpace;" [8201]; ent "thkap;" [8776];
   ent "thksim;" [8764]; ent "THORN" [222]; ent "thorn" [254]; ent "THORN;" [222];
   ent "thorn;" [254]; ent "Tilde;" [8764]; ent "tilde;" [732];
   ent "TildeEqual;" [8771]; ent "TildeFullEqual;" [8773]; ent "TildeTilde;" [8776];
   ent "times" [215]; ent "times;" [215]; ent "timesb;" [8864];
   ent "timesbar;" [10801]; ent "timesd;" [10800]; ent "tint;" [8749];
   ent "toea;" [10536]; ent "top;" [8868]; ent "topbot;" [9014]; ent "topcir;" [10993];
   ent "Topf;" [120139]; ent "topf;" [120165]; ent "topfork;" [10970];
   ent "tosa;" [10537]; ent "tprime;" [8244]; ent "TRADE;" [8482]; ent "trade;" [8482];
   ent "triangle;" [9653]; ent "triangledown;" [9663]; ent "triangleleft;" [9667];
   ent "trianglelefteq;" [8884]; ent "triangleq;" [8796]; ent "triangleright;" [9657];
   ent "trianglerighteq;" [8885]; ent "tridot;" [9708]; ent "trie;" [8796];
   ent "triminus;" [10810]; ent "TripleDot;" [8411]; ent "triplus;" [10809];
   ent "trisb;" [10701]; ent "tritime;" [10811]; ent "trpezium;" [9186];
   ent "Tscr;" [119983]; ent "tscr;" [120009]; ent "TScy;" [1062]; ent "tscy;" [1094];
   ent "TSHcy;" [1035]; ent "tshcy;" [1115]; ent "Tstrok;" [358]; ent "tstrok;" [359];
   ent "twixt;" [8812]; ent "twoheadleftarrow;" [8606];
   ent "twoheadrightarrow;" [8608]; ent "Uacute" [218]; ent "uacute" [250];
   ent "Uacute;" [218]; ent "uacute;" [250]; ent "Uarr;" [8607]; ent "uArr;" [8657];
   ent "uarr;" [8593]; ent "Uarrocir;" [10569]; ent "Ubrcy;" [1038];
   ent "ubrcy;" [1118]; ent "Ubreve;" [364]; ent "ubreve;" [365]; ent "Ucirc" [219];
   ent "ucirc" [251]; ent "Ucirc;" [219]; ent "ucirc;" [251]; ent "Ucy;" [1059];
   ent "ucy;" [1091]; ent "udarr;" [8645]; ent "Udblac;" [368]; ent "udblac;" [369];
   ent "udhar;" [10606]; ent "ufisht;" [10622]; ent "Ufr;" [120088];
   ent "ufr;" [120114]; ent "Ugrave" [217]; ent "ugrave" [249]; ent "Ugrave;" [217];
   ent "ugrave;" [249]; ent "uHar;" [10595]; ent "uharl;" [8639]; ent "uharr;" [8638];
   ent "uhblk;" [9600]; ent "ulcorn;" [8988]; ent "ulcorner;" [8988];
   ent "ulcrop;" [8975]; ent "ultri;" [9720]; ent "Umacr;" [362]; ent "umacr;" [363];
   ent "uml" [168]; ent "uml;" [168]; ent "UnderBar;" [95]; ent "UnderBrace;" [9183];
   ent "UnderBracket;" [9141]; ent "UnderParenthesis;" [9181]; ent "Union;" [8899];
   ent "UnionPlus;" [8846]; ent "Uogon;" [370]; ent "uogon;" [371];
   ent "Uopf;" [120140]; ent "uopf;" [120166]; ent "UpArrow;" [8593];
   ent "Uparrow;" [8657]; ent "uparrow;" [8593]; ent "UpArrowBar;" [10514];
   ent "UpArrowDownArrow;" [8645]; ent "UpDownArrow;" [8597];
   ent "Updownarrow;" [8661]; ent "updownarrow;" [8597]; ent "UpEquilibrium;" [10606];
   ent "upharpoonleft;" [8639]; ent "upharpoonright;" [8638]; ent "uplus;" [8846];
   ent "UpperLeftArrow;" [8598]; ent "UpperRightArrow;" [8599]; ent "Upsi;" [978];
   ent "upsi;" [965]; ent "upsih;" [978]; ent "Upsilon;" [933]; ent "upsilon;" [965];
   ent "UpTee;" [8869]; ent "UpTeeArrow;" [8613]; ent "upuparrows;" [8648];
   ent "urcorn;" [8989]; ent "urcorner;" [8989]; ent "urcrop;" [8974];
   ent "Uring;" [366]; ent "uring;" [367]; ent "urtri;" [9721]; ent "Uscr;" [119984];
   ent "uscr;" [120010]; ent "utdot;" [8944]; ent "Utilde;" [360]; ent "utilde;" [361];
   ent "utri;" [9653]; ent "utrif;" [9652]; ent "uuarr;" [8648]; ent "Uuml" [220];
   ent "uuml" [252]; ent "Uuml;" [220]; ent "uuml;" [252]; ent "uwangle;" [10663];
   ent "vangrt;" [10652]; ent "varepsilon;" [1013]; ent "varkappa;" [1008];
   ent "varnothing;" [8709]; ent "varphi;" [981]; ent "varpi;" [982];
   ent "varpropto;" [8733]; ent "vArr;" [8661]; ent "varr;" [8597];
   ent "varrho;" [1009]; ent "varsigma;" [962]; ent "varsubsetneq;" [8842; 65024];
   ent "varsubsetneqq;" [10955; 65024]; ent "varsupsetneq;" [8843; 65024];
   ent "varsupsetneqq;" [10956; 65024]; ent "vartheta;" [977];
   ent "vartriangleleft;" [8882]; ent "vartriangleright;" [8883]; ent "Vbar;" [10987];
   ent "vBar;" [10984]; ent "vBarv;" [10985]; ent "Vcy;" [1042]; ent "vcy;" [1074];
   ent "VDash;" [8875]; ent "Vdash;" [8873]; ent "vDash;" [8872]; ent "vdash;" [8866];
   ent "Vdashl;" [10982]; ent "Vee;" [8897]; ent "vee;" [8744]; ent "veebar;" [8891];
   ent "veeeq;" [8794]; ent "vellip;" [8942]; ent "Verbar;" [8214];
   ent "verbar;" [124]; ent "Vert;" [8214]; ent "vert;" [124];
   ent "VerticalBar;" [8739]; ent "VerticalLine;" [124];
   ent "VerticalSeparator;" [10072]; ent "VerticalTilde;" [8768];
   ent "VeryThinSpace;" [8202]; ent "Vfr;" [120089]; ent "vfr;" [120115];
   ent "vltri;" [8882]; ent "vnsub;" [8834; 8402]; ent "vnsup;" [8835; 8402];
   ent "Vopf;" [120141]; ent "vopf;" [120167]; ent "vprop;" [8733];
   ent "vrtri;" [8883]; ent "Vscr;" [119985]; ent "vscr;" [120011];
   ent "vsubnE;" [10955; 65024]; ent "vsubne;" [8842; 65024];
   ent "vsupnE;" [10956; 65024]; ent "vsupne;" [8843; 65024]; ent "Vvdash;" [8874];
   ent "vzigzag;" [10650]; ent "Wcirc;" [372]; ent "wcirc;" [373];
   ent "wedbar;" [10847]; ent "Wedge;" [8896]; ent "wedge;" [8743];
   ent "wedgeq;" [8793]; ent "weierp;" [8472]; ent "Wfr;" [120090];
   ent "wfr;" [120116]; ent "Wopf;" [120142]; ent "wopf;" [120168]; ent "wp;" [8472];
   ent "wr;" [8768]; ent "wreath;" [8768]; ent "Wscr;" [119986]; ent "wscr;" [120012];
   ent "xcap;" [8898]; ent "xcirc;" [9711]; ent "xcup;" [8899]; ent "xdtri;" [9661];
   ent "Xfr;" [120091]; ent "xfr;" [120117]; ent "xhArr;" [10234];
   ent "xharr;" [10231]; ent "Xi;" [926]; ent "xi;" [958]; ent "xlArr;" [10232];
   ent "xlarr;" [10229]; ent "xmap;" [10236]; ent "xnis;" [8955]; ent "xodot;" [10752];
   ent "Xopf;" [120143]; ent "xopf;" [120169]; ent "xoplus;" [10753];
   ent "xotime;" [10754]; ent "xrArr;" [10233]; ent "xrarr;" [10230];
   ent "Xscr;" [119987]; ent "xscr;" [120013]; ent "xsqcup;" [10758];
   ent "xuplus;" [10756]; ent "xutri;" [9651]; ent "xvee;" [8897];
   ent "xwedge;" [8896]; ent "Yacute" [221]; ent "yacute" [253]; ent "Yacute;" [221];
   ent "yacute;" [253]; ent "YAcy;" [1071]; ent "yacy;" [1103]; ent "Ycirc;" [374];
   ent "ycirc;" [375]; ent "Ycy;" [1067]; ent "ycy;" [1099]; ent "yen" [165];
   ent "yen;" [165]; ent "Yfr;" [120092]; ent "yfr;" [120118]; ent "YIcy;" [1031];
   ent "yicy;" [1111]; ent "Yopf;" [120144]; ent "yopf;" [120170];
   ent "Yscr;" [119988]; ent "yscr;" [120014]; ent "YUcy;" [1070]; ent "yucy;" [1102];
   ent "yuml" [255]; ent "Yuml;" [376]; ent "yuml;" [255]; ent "Zacute;" [377];
   ent "zacute;" [378]; ent "Zcaron;" [381]; ent "zcaron;" [382]; ent "Zcy;" [1047];
   ent "zcy;" [1079]; ent "Zdot;" [379]; ent "zdot;" [380]; ent "zeetrf;" [8488];
   ent "ZeroWidthSpace;" [8203]; ent "Zeta;" [918]; ent "zeta;" [950];
   ent "Zfr;" [8488]; ent "zfr;" [120119]; ent "ZHcy;" [1046]; ent "zhcy;" [1078];
   ent "zigrarr;" [8669]; ent "Zopf;" [8484]; ent "zopf;" [120171];
   ent "Zscr;" [119989]; ent "zscr;" [120015]; ent "zwj;" [8205]; ent "zwnj;" [8204]].

(** [_html5.get(name)] *)
Definition html5_get (name : str) : option str :=
  match List.find (fun e : str * str => str_eqb e.1 name) html5 with
  | Some e => Some e.2
  | None => None
  end.

(** [html._charref]:
    [&(#[0-9]+;?|#[xX][0-9a-fA-F]+;?|[^\t\n\f <&#;]{1,32};?)] *)
Definition charref : regex :=
  let semicolon := RRep (CSet false [ch ";"]) 0 (Some 1%nat) true in
  RSeq (RLit (py "&"))
    (RGroup 1
       (RAlt (RSeq (RLit (py "#"))
                (RSeq (RRep (CSet false [(48, 57)]) 1 None true) semicolon))
       (RAlt (RSeq (RLit (py "#"))
                (RSeq (RSet (CSet false [ch "x"; ch "X"]))
                (RSeq (RRep (CSet false [(48, 57); (97, 102); (65, 70)]) 1 None true)
                      semicolon)))
             (RSeq (RRep (CSet true [(9, 9); (10, 10); (12, 12); ch " "; ch "<";
                                     ch "&"; ch "#"; ch ";"])
                      1 (Some 32%nat) true)
                   semicolon)))).

(** The value of a digit of [int(s, 16)]. *)
Definition digit_value (c : char) : N :=
  if (48 <=? c) && (c <=? 57) then c - 48
  else if (97 <=? c) && (c <=? 102) then c - 87
  else if (65 <=? c) && (c <=? 70) then c - 55
  else 0.

(** [int(s, base)] on digits: the number it returns, when it returns
    ([int_raises] below says when it raises). *)
Definition int_of (base : N) (s : str) : N :=
  fold_left (fun acc c => acc * base + digit_value c) s 0.

(** [s.rstrip(';')] *)
Definition rstrip_semicolon (s : str) : str :=
  rev (drop_while (fun c => c =? 59) (rev s)).

(** The loop [for x in range(len(s)-1, 1, -1)] of [_replace_charref]:
    the longest prefix of [s] that is a name. *)
Fixpoint longest_name (xs : list nat) (s : str) : option str :=
  match xs with
  | [] => None
  | x :: xs' =>
      match html5_get (take x s) with
      | Some v => Some (v ++ drop x s)
      | None => longest_name xs' s
      end
  end.

(** [html._replace_charref] *)
Definition replace_charref (m : rmatch) : str :=
  let s := group 1 m in
  match s with
  | 35 :: s1 =>
      let num :=
        match s1 with
        | c :: s2 =>
            if (c =? 120) || (c =? 88) then int_of 16 (rstrip_semicolon s2)
            else int_of 10 (rstrip_semicolon s1)
        | [] => 0
        end in
      match List.find (fun e : N * str => e.1 =? num) invalid_charrefs with
      | Some e => e.2
      | None =>
          if (55296 <=? num) && (num <=? 57343) || (1114111 <? num) then [65533]
          else if in_ranges num invalid_codepoints then []
          else [num]
      end
  | _ =>
      match html5_get s with
      | Some v => v
      | None =>
          match longest_name (rev (seq 2 (length s - 2))) s with
          | Some v => v
          | None => 38 :: s
          end
      end
  end.

(** [html.unescape(s)]: the string it returns, when it returns
    ([unescape_raises] below says when it raises). *)
Definition unescape (s : str) : str :=
  if contains (py "&") s then sub charref replace_charref s else s.

(** ** Where [html.unescape] raises

    [int] refuses a string of more than 4300 decimal digits
    ([sys.int_info.default_max_str_digits]; leading zeros count, and
    the conversion from base 16 has no limit) with [ValueError].
    [int_of] above is the number [int] returns when it returns;
    [int_raises] gives [str(e)] when it raises. *)
Definition max_str_digits : nat := 4300.

Definition int_raises (s : str) : option str :=
  if (max_str_digits <? length s)%nat
  then Some (py "Exceeds the limit (4300 digits) for integer string conversion: value has "
             ++ py (DecimalString.NilZero.string_of_uint (Nat.to_uint (length s)))
             ++ py " digits; use sys.set_int_max_str_digits() to increase the limit")
  else None.

(** The exception of [_replace_charref] on a match, if it raises one:
    that of the decimal conversion. *)
Definition replace_charref_raises (m : rmatch) : option str :=
  match group 1 m with
  | 35 :: c :: s2 =>
      if (c =? 120) || (c =? 88) then None else int_raises (rstrip_semicolon (c :: s2))
  | _ => None
  end.

(** The first exception of the calls [f x] made for the [x] of [l] in
    order, if one of them raises. *)
Fixpoint first_raised {A} (f : A -> option str) (l : list A) : option str :=
  match l with
  | [] => None
  | x :: l' =>
      match f x with
      | Some e => Some e
      | None => first_raised f l'
      end
  end.

(** [html.unescape(s)] raises what the first call of [_replace_charref]
    that raises does: [re.sub] calls it for the matches from left to
    right. [unescape] above is what is returned otherwise. *)
Definition unescape_raises (s : str) : option str :=
  if contains (py "&") s then first_raised replace_charref_raises (finditer charref s)
  else None.

End Html.

(** ** The request loop of the scraper
    ([imdb_parental_guide_scraper.py], lines 116-144) *)
Module Fetch.
Import Str.

(** What one call of [session.get] does: a response, or a
    [requests.RequestException] (timeouts and connection errors are
    among its subclasses). *)
Inductive attempt_outcome : Type :=
| Response (status_code : Z) (text : str)
| RequestException (msg : str).

(** [EvSleep k] is [time.sleep(self.retry_delay * k)]. *)
Inductive event : Type :=
| EvGet (attempt : nat)
| EvSleep (k : Z).

Section WithSession.

(** The outcome of the call made in iteration [attempt]. *)
Variable session_get : nat -> attempt_outcome.
Variable max_retries : Z.

(** The tail of an iteration that did not return (line 141). *)
Definition backoff (attempt : nat) : list event :=
  if Z.of_nat attempt <? max_retries - 1 then [EvSleep (Z.of_nat attempt + 1)] else [].

(** The body of [for attempt in range(self.max_retries)], over the
    attempts still to make. *)
Fixpoint request_loop (attempts : list nat) : option (Z * str) * list event :=
  match attempts with
  | [] => (None, [])
  | attempt :: rest =>
      match session_get attempt with
      | Response status_code text =>
          if status_code =? 200 then (Some (status_code, text), [EvGet attempt])
          else
            let waited :=
              if status_code =? 403 then []
              else if status_code =? 429 then [EvSleep (Z.of_nat attempt + 2)]
              else [] in
            let '(r, t) := request_loop rest in
            (r, EvGet attempt :: waited ++ backoff attempt ++ t)
      | RequestException _ =>
          let '(r, t) := request_loop rest in
          (r, EvGet attempt :: backoff attempt ++ t)
      end
  end.

(** [_make_request(url)]: the response, or [None]. *)
Definition _make_request : option (Z * str) * list event :=
  request_loop (seq 0 (Z.to_nat max_retries)).

End WithSession.

(** The number of calls of [session.get] in a trace. *)
(** A response that ends the loop. *)
Definition is_ok (o : attempt_outcome) : bool :=
  match o with
  | Response status_code _ => status_code =? 200
  | RequestException _ => false
  end.

(** The status code of the response of attempt [a], if there is one. *)
Definition session_status (session_get : nat -> attempt_outcome) (a : nat) : option Z :=
  match session_get a with
  | Response status_code _ => Some status_code
  | RequestException _ => None
  end.

Definition is_get (e : event) : bool :=
  match e with EvGet _ => true | EvSleep _ => false end.

Definition gets (t : list event) : nat := length (List.filter is_get t).

(** A response that says the server limits the rate. *)
Definition is_429 (o : attempt_outcome) : bool :=
  match o with
  | Response status_code _ => status_code =? 429
  | RequestException _ => false
  end.

(** The time slept in a trace, in units of [retry_delay]. *)
Definition waited (t : list event) : Z :=
  fold_right (fun e acc => match e with EvSleep k => k + acc | EvGet _ => acc end) 0 t.

(** The arguments [k] of the calls [time.sleep(self.retry_delay * k)] in
    a trace, in order. *)
Definition sleep_factors (t : list event) : list Z :=
  omap (fun e => match e with EvSleep k => Some k | EvGet _ => None end) t.

End Fetch.

(** ** The scraper ([imdb_parental_guide_scraper.py], lines 78-323) *)
Module Scraper.
Import Str Guide Re.

Notation "r1 +++ r2" := (RSeq r1 r2) (at level 60, right associativity).

Definition BASE_URL : str := py "https://www.imdb.com".

(** The keys of [CATEGORY_IDS] and the section ids they map to. *)
Inductive category : Type :=
| sex_nudity_key
| violence_gore_key
| profanity_key
| alcohol_drugs_smoking_key
| frightening_intense_key.

Definition CATEGORY_IDS (c : category) : str :=
  match c with
  | sex_nudity_key => py "nudity"
  | violence_gore_key => py "violence"
  | profanity_key => py "profanity"
  | alcohol_drugs_smoking_key => py "alcohol"
  | frightening_intense_key => py "frightening"
  end.

(** Pieces the patterns share: [.*?] under [re.DOTALL], [[^>]*] and
    [([^<]+)]. *)
Definition lazy_any : regex := RRep CAny 0 None false.
Definition not_gt : regex := RRep (CSet true [ch ">"]) 0 None true.
Definition text1 : regex := RGroup 1 (RRep (CSet true [ch "<"]) 1 None true).

(** [\s+] *)
Definition whitespace_run : regex := RRep CSpace 1 None true.

Definition _decode_html_entities (text : str) : str := Html.unescape text.

(** The replacement [' '] of every match. *)
Definition one_space : rmatch -> str := fun _ => py " ".

(** [_clean_text] (lines 150-156): the string it returns, when it returns
    ([_clean_text_raises] below says when [html.unescape] raises in it,
    and so for the extractors that follow). *)
Definition _clean_text (text : str) : str :=
  let text := _decode_html_entities text in
  let text := sub whitespace_run one_space text in
  strip text.

(** [data-testid="subtitle"[^>]*>([^<]+)] *)
Definition subtitle_pattern : regex :=
  RLit (py "data-testid=" ++ q "subtitle") +++ not_gt +++ RLit (py ">") +++ text1.

(** [<title>([^<]+)</title>] *)
Definition title_pattern : regex :=
  RLit (py "<title>") +++ text1 +++ RLit (py "</title>").

(** [^(.+?)\s*\(\d{4}\)] *)
Definition year_pattern : regex :=
  RBol +++ RGroup 1 (RRep CDot 1 None false) +++ RRep CSpace 0 None true +++
  RLit (py "(") +++ RRep CDigit 4 (Some 4%nat) true +++ RLit (py ")").

(** [_extract_title] (lines 158-172) *)
Definition _extract_title (html_content : str) : str :=
  match search subtitle_pattern html_content with
  | Some m => _clean_text (group 1 m)
  | None =>
      match search title_pattern html_content with
      | Some m =>
          let title_text := group 1 m in
          match search year_pattern title_text with
          | Some title_match => _clean_text (group 1 title_match)
          | None => []
          end
      | None => []
      end
  end.

(** [data-testid="content-rating".*?Motion Picture Rating.*?ipc-html-content-inner-div[^>]*>([^<]+)] *)
Definition content_rating_pattern : regex :=
  RLit (py "data-testid=" ++ q "content-rating") +++ lazy_any +++
  RLit (py "Motion Picture Rating") +++ lazy_any +++
  RLit (py "ipc-html-content-inner-div") +++ not_gt +++ RLit (py ">") +++ text1.

(** [_extract_content_rating] (lines 174-185) *)
Definition _extract_content_rating (html_content : str) : str :=
  match search content_rating_pattern html_content with
  | Some section_match => _clean_text (group 1 section_match)
  | None => []
  end.

(** The anchor [id="section_id"]. *)
Definition anchor (section_id : str) : str := py "id=" ++ dq ++ section_id ++ dq.

(** [id="{section_id}".*?(?=id="(?:nudity|violence|profanity|alcohol|frightening|certificates)"|$)],
    for a section id without special characters. *)
Definition section_pattern (section_id : str) : regex :=
  RLit (anchor section_id) +++ lazy_any +++
  RLook (RAlt (RLit (py "id=" ++ dq) +++
               RAlt (RLit (py "nudity"))
              (RAlt (RLit (py "violence"))
              (RAlt (RLit (py "profanity"))
              (RAlt (RLit (py "alcohol"))
              (RAlt (RLit (py "frightening")) (RLit (py "certificates")))))) +++
               RLit dq)
              REol).

(** [_find_section_content] (lines 187-194) *)
Definition _find_section_content (html_content section_id : str) : str :=
  match search (section_pattern section_id) html_content with
  | Some m => m_text m
  | None => []
  end.

(** [ipc-signpost__text[^>]*>([^<]+)] *)
Definition severity_pattern : regex :=
  RLit (py "ipc-signpost__text") +++ not_gt +++ RLit (py ">") +++ text1.

(** [_extract_category_severity] (lines 196-206) *)
Definition _extract_category_severity (html_content section_id : str) : str :=
  let section_content := _find_section_content html_content section_id in
  if str_eqb section_content [] then []
  else
    match search severity_pattern section_content with
    | Some m => _clean_text (group 1 m)
    | None => []
    end.

(** [data-testid="item-html".*?ipc-html-content-inner-div[^>]*>([^<]+)] *)
Definition item_pattern : regex :=
  RLit (py "data-testid=" ++ q "item-html") +++ lazy_any +++
  RLit (py "ipc-html-content-inner-div") +++ not_gt +++ RLit (py ">") +++ text1.

(** The loop of lines 219-222: [items] is the list being built. *)
Fixpoint collect_items (matches : list str) (items : list str) : list str :=
  match matches with
  | [] => items
  | m :: rest =>
      let text := _clean_text m in
      if negb (str_eqb text []) then collect_items rest (items ++ [text])
      else collect_items rest items
  end.

(** [_extract_category_items] (lines 208-224) *)
Definition _extract_category_items (html_content section_id : str) : list str :=
  let items := [] in
  let section_content := _find_section_content html_content section_id in
  if str_eqb section_content [] then items
  else collect_items (findall1 item_pattern section_content) items.

(** [_extract_category] (lines 226-231) *)
Definition _extract_category (html_content section_id : str) : CategoryInfo :=
  {| severity := _extract_category_severity html_content section_id;
     items := _extract_category_items html_content section_id |}.

(** [data-testid="certificates-container"(.*?)(?:</section>|<footer)] *)
Definition cert_section_pattern : regex :=
  RLit (py "data-testid=" ++ q "certificates-container") +++ RGroup 1 lazy_any +++
  RAlt (RLit (py "</section>")) (RLit (py "<footer")).

(** [(?=data-testid="certificates-item")] *)
Definition cert_item_boundary : regex :=
  RLook (RLit (py "data-testid=" ++ q "certificates-item")).

(** [ipc-metadata-list-item__label[^>]*>([^<]+)] *)
Definition country_pattern : regex :=
  RLit (py "ipc-metadata-list-item__label") +++ not_gt +++ RLit (py ">") +++ text1.

(** [ipc-metadata-list-item__list-content-item--link[^>]*>([^<]+)</a>]
    followed by the optional, non-capturing
    [<span class="ipc-metadata-list-item__list-content-item--subText">...</span>]
    whose content, zero or more characters other than [<], is group 2. *)
Definition rating_pattern : regex :=
  RLit (py "ipc-metadata-list-item__list-content-item--link") +++ not_gt +++
  RLit (py ">") +++ text1 +++ RLit (py "</a>") +++
  RAlt (RLit (py "<span class=" ++ q "ipc-metadata-list-item__list-content-item--subText"
              ++ py ">") +++
        RGroup 2 (RRep (CSet true [ch "<"]) 0 None true) +++ RLit (py "</span>"))
       REps.

(** The loop of lines 275-279: [ratings] is the list being built. *)
Fixpoint collect_ratings (rating_matches : list (str * str))
    (ratings : list CertificationRating) : list CertificationRating :=
  match rating_matches with
  | [] => ratings
  | rating_match :: rest =>
      let rating_text := _clean_text rating_match.1 in
      let note_text := _clean_text rating_match.2 in
      if negb (str_eqb rating_text [])
      then collect_ratings rest (ratings ++ [ {| rating := rating_text; note := note_text |} ])
      else collect_ratings rest ratings
  end.

(** The loop of lines 252-282 over the country blocks. *)
Fixpoint collect_certifications (country_blocks : list str)
    (certifications : list CertificationItem) : list CertificationItem :=
  match country_blocks with
  | [] => certifications
  | block :: rest =>
      if negb (contains (py "certificates-item") block)
      then collect_certifications rest certifications
      else
        let country :=
          match search country_pattern block with
          | Some country_match => _clean_text (group 1 country_match)
          | None => []
          end in
        if str_eqb country [] then collect_certifications rest certifications
        else
          let ratings := collect_ratings (findall2 rating_pattern block) [] in
          match ratings with
          | _ :: _ =>
              collect_certifications rest
                (certifications ++ [ {| country := country; ratings := ratings |} ])
          | [] => collect_certifications rest certifications
          end
  end.

(** [_extract_certifications] (lines 233-284) *)
Definition _extract_certifications (html_content : str) : list CertificationItem :=
  match search cert_section_pattern html_content with
  | None => []
  | Some cert_section_match =>
      let cert_section := m_text cert_section_match in
      let country_blocks := split cert_item_boundary cert_section in
      collect_certifications country_blocks []
  end.

(** Lines 310-321: the record built from the page, when no extractor
    raises ([build_guide_raises] below). *)
Definition build_guide (imdb_id url html_content : str) : ParentalGuide :=
  {| imdb_id := imdb_id;
     url := url;
     title := _extract_title html_content;
     content_rating := _extract_content_rating html_content;
     sex_nudity := _extract_category html_content (CATEGORY_IDS sex_nudity_key);
     violence_gore := _extract_category html_content (CATEGORY_IDS violence_gore_key);
     profanity := _extract_category html_content (CATEGORY_IDS profanity_key);
     alcohol_drugs_smoking :=
       _extract_category html_content (CATEGORY_IDS alcohol_drugs_smoking_key);
     frightening_intense :=
       _extract_category html_content (CATEGORY_IDS frightening_intense_key);
     certifications := _extract_certifications html_content |}.

(** Lines 297-300: the id with its [tt], and the address of its page. *)
Definition with_tt (imdb_id : str) : str :=
  if startswith (py "tt") imdb_id then imdb_id else py "tt" ++ imdb_id.

Definition guide_url (imdb_id : str) : str :=
  BASE_URL ++ py "/title/" ++ imdb_id ++ py "/parentalguide/".

(** [scrape(imdb_id)] (lines 286-323), [session_get url] being what the
    server does at each attempt: what it returns, when it returns
    ([scrape_raises] below). *)
Definition scrape (session_get : str -> nat -> Fetch.attempt_outcome) (max_retries : Z)
    (imdb_id : str) : option ParentalGuide :=
  let imdb_id := with_tt imdb_id in
  let url := guide_url imdb_id in
  match (Fetch._make_request (session_get url) max_retries).1 with
  | None => None
  | Some response => Some (build_guide imdb_id url response.2)
  end.

(** The field of a guide that holds a category. *)
Definition category_of (c : category) (g : ParentalGuide) : CategoryInfo :=
  match c with
  | sex_nudity_key => sex_nudity g
  | violence_gore_key => violence_gore g
  | profanity_key => profanity g
  | alcohol_drugs_smoking_key => alcohol_drugs_smoking g
  | frightening_intense_key => frightening_intense g
  end.

(** The claims' words for the certification blocks: the first country
    label of a block, normalized; its ratings in order, those whose text
    normalizes to the empty string left out; and the entry the block
    yields, if it is a country block with a label that is not empty and
    at least one rating. *)
Definition block_country (block : str) : option str :=
  match findall1 country_pattern block with
  | label :: _ => Some (_clean_text label)
  | [] => None
  end.

Definition block_ratings (block : str) : list CertificationRating :=
  List.filter (fun r => negb (str_eqb (rating r) []))
    (map (fun p : str * str => {| rating := _clean_text p.1; note := _clean_text p.2 |})
       (findall2 rating_pattern block)).

Definition block_entry (block : str) : option CertificationItem :=
  if contains (py "certificates-item") block then
    match block_country block with
    | Some c =>
        if str_eqb c [] then None
        else
          match block_ratings block with
          | [] => None
          | rs => Some {| country := c; ratings := rs |}
          end
    | None => None
    end
  else None.

(** The section ids the lookahead of [section_pattern] names. *)
Definition SECTION_IDS : list str :=
  [py "nudity"; py "violence"; py "profanity"; py "alcohol"; py "frightening";
   py "certificates"].

(** The places where that lookahead holds: before the anchor of one of
    these ids, and at the end of the text, a last newline apart ([$]). *)
Definition at_stop (s : str) : bool :=
  existsb (fun section_id => startswith (anchor section_id) s) SECTION_IDS
  || match s with
     | [] => true
     | [c] => (c =? 10)%N
     | _ => false
     end.

(** The lookahead of [section_pattern]. *)
Definition stop_lookahead : regex :=
  RAlt (RSeq (RLit (py "id=" ++ dq))
          (RSeq (RAlt (RLit (py "nudity"))
                (RAlt (RLit (py "violence"))
                (RAlt (RLit (py "profanity"))
                (RAlt (RLit (py "alcohol"))
                (RAlt (RLit (py "frightening")) (RLit (py "certificates")))))))
             (RLit dq)))
       REol.

(** [/title/(tt\d+)/] *)
Definition url_id_pattern : regex :=
  RLit (py "/title/") +++ RGroup 1 (RLit (py "tt") +++ RRep CDigit 1 None true) +++
  RLit (py "/").

(** [scrape_from_url] (lines 325-341) *)
Definition scrape_from_url (session_get : str -> nat -> Fetch.attempt_outcome)
    (max_retries : Z) (url : str) : option ParentalGuide :=
  match search url_id_pattern url with
  | None => None
  | Some m => scrape session_get max_retries (group 1 m)
  end.

(** The texts of a record that come from the page. *)
Definition category_texts (c : CategoryInfo) : list str := severity c :: items c.

Definition certification_texts (it : CertificationItem) : list str :=
  country it :: flat_map (fun r => [rating r; note r]) (ratings it).

Definition page_texts (g : ParentalGuide) : list str :=
  title g :: content_rating g ::
  category_texts (sex_nudity g) ++ category_texts (violence_gore g) ++
  category_texts (profanity g) ++ category_texts (alcohol_drugs_smoking g) ++
  category_texts (frightening_intense g) ++
  flat_map certification_texts (certifications g).

(** A text of the page as the extractors store it. *)
Definition cleaned (t : str) : Prop := t = [] \/ exists x, t = _clean_text x.

(** ** Where the extractors raise

    Every text goes through [_clean_text], whose [html.unescape] raises
    [ValueError] on a decimal reference of more than 4300 digits;
    nothing in the scraper catches it. The functions above give what the
    extractors return when they return; the functions below follow the
    same calls in the order of evaluation and give [str(e)] of the
    exception when one is raised, [None] when none is. *)
Definition or_else (e1 e2 : option str) : option str :=
  match e1 with
  | Some e => Some e
  | None => e2
  end.

Definition _decode_html_entities_raises (text : str) : option str :=
  Html.unescape_raises text.

(** [_clean_text]: [re.sub] and [strip] raise nothing. *)
Definition _clean_text_raises (text : str) : option str :=
  _decode_html_entities_raises text.

Definition _extract_title_raises (html_content : str) : option str :=
  match search subtitle_pattern html_content with
  | Some m => _clean_text_raises (group 1 m)
  | None =>
      match search title_pattern html_content with
      | Some m =>
          let title_text := group 1 m in
          match search year_pattern title_text with
          | Some title_match => _clean_text_raises (group 1 title_match)
          | None => None
          end
      | None => None
      end
  end.

Definition _extract_content_rating_raises (html_content : str) : option str :=
  match search content_rating_pattern html_content with
  | Some section_match => _clean_text_raises (group 1 section_match)
  | None => None
  end.

Definition _extract_category_severity_raises (html_content section_id : str) : option str :=
  let section_content := _find_section_content html_content section_id in
  if str_eqb section_content [] then None
  else
    match search severity_pattern section_content with
    | Some m => _clean_text_raises (group 1 m)
    | None => None
    end.

(** The loop of lines 219-222 cleans the matches one after the other. *)
Definition _extract_category_items_raises (html_content section_id : str) : option str :=
  let section_content := _find_section_content html_content section_id in
  if str_eqb section_content [] then None
  else Html.first_raised _clean_text_raises (findall1 item_pattern section_content).

(** The severity is extracted before the items. *)
Definition _extract_category_raises (html_content section_id : str) : option str :=
  or_else (_extract_category_severity_raises html_content section_id)
          (_extract_category_items_raises html_content section_id).

(** The loop of lines 275-279 cleans the rating and then the note of
    every match. *)
Definition collect_ratings_raises (rating_matches : list (str * str)) : option str :=
  Html.first_raised
    (fun rating_match : str * str =>
       or_else (_clean_text_raises rating_match.1) (_clean_text_raises rating_match.2))
    rating_matches.

(** One round of the loop of lines 252-282: the country is cleaned, and
    the ratings only if the country is not empty. *)
Definition country_block_raises (block : str) : option str :=
  if negb (contains (py "certificates-item") block) then None
  else
    match search country_pattern block with
    | Some country_match =>
        or_else (_clean_text_raises (group 1 country_match))
          (if str_eqb (_clean_text (group 1 country_match)) [] then None
           else collect_ratings_raises (findall2 rating_pattern block))
    | None => None
    end.

Definition _extract_certifications_raises (html_content : str) : option str :=
  match search cert_section_pattern html_content with
  | None => None
  | Some cert_section_match =>
      Html.first_raised country_block_raises
        (split cert_item_boundary (m_text cert_section_match))
  end.

(** Lines 310-321: the arguments of [ParentalGuide(...)] are evaluated
    in the order they are written in. *)
Definition build_guide_raises (html_content : str) : option str :=
  or_else (_extract_title_raises html_content)
 (or_else (_extract_content_rating_raises html_content)
 (or_else (_extract_category_raises html_content (CATEGORY_IDS sex_nudity_key))
 (or_else (_extract_category_raises html_content (CATEGORY_IDS violence_gore_key))
 (or_else (_extract_category_raises html_content (CATEGORY_IDS profanity_key))
 (or_else (_extract_category_raises html_content (CATEGORY_IDS alcohol_drugs_smoking_key))
 (or_else (_extract_category_raises html_content (CATEGORY_IDS frightening_intense_key))
          (_extract_certifications_raises html_content))))))).

(** [scrape(imdb_id)] raises if building the record does; [scrape]
    above is what it returns otherwise. *)
Definition scrape_raises (session_get : str -> nat -> Fetch.attempt_outcome)
    (max_retries : Z) (imdb_id : str) : option str :=
  let imdb_id := with_tt imdb_id in
  let url := guide_url imdb_id in
  match (Fetch._make_request (session_get url) max_retries).1 with
  | None => None
  | Some response => build_guide_raises response.2
  end.

(** [scrape_from_url(url)] raises if the [scrape] it calls does. *)
Definition scrape_from_url_raises (session_get : str -> nat -> Fetch.attempt_outcome)
    (max_retries : Z) (url : str) : option str :=
  match search url_id_pattern url with
  | None => None
  | Some m => scrape_raises session_get max_retries (group 1 m)
  end.

(** The parts of [cert_section_pattern]: the literal it begins with,
    and whether one of the two literals it may end with stands at the
    head of [s]. *)
Definition cert_marker : str := py "data-testid=" ++ q "certificates-container".

Definition section_end (s : str) : bool :=
  startswith (py "</section>") s || startswith (py "<footer") s.

End Scraper.

(** ** The batch driver ([batch_scrape_parental_guide.py]) *)
Module Batch.
Import Str Guide.

(** What a call evaluated inside a [try] block does. *)
Inductive outcome (A : Type) : Type :=
| Returns (a : A)
| Raises (msg : str).
Arguments Returns {A} a.
Arguments Raises {A} msg.

(** The dictionaries appended to [results] and [failed]. *)
Record result_entry := { r_imdb_id : str; r_status : str; r_title : str }.
Record failed_entry := { f_imdb_id : str; f_error : str }.

(** The content of [checkpoint.json] as [json.load] sees it: text that is
    not JSON ([NotJson]); JSON that is no object, that is a list, a
    string, a number, [true], [false] or [null] ([NotObject]); an object
    whose [last_index] is no integer, that is [null], a string, a list,
    an object or a number with a fraction or an exponent
    ([IllTypedIndex]); or an object whose [last_index], when present, is
    an integer ([true] and [false] being 1 and 0 for Python) and whose
    [results] and [failed], when present, are lists of entries as
    [batch_scrape] writes them ([JsonObject]). Objects with other values
    under [results] or [failed] are not in this model. *)
Inductive checkpoint_file : Type :=
| NotJson
| NotObject
| IllTypedIndex
| JsonObject (last_index : option Z)
             (ck_results : option (list result_entry))
             (ck_failed : option (list failed_entry)).

(** The dictionary dumped to [scrape_summary.json]. *)
Record summary := {
  total : nat;
  success : nat;
  failed_count : nat;
  s_failed : list failed_entry
}.

(** The output directory: the checkpoint file, the summary file and the
    per-id files that hold a guide, by id. *)
Record output_dir := {
  checkpoint : option checkpoint_file;
  scrape_summary : option summary;
  guides : list (str * ParentalGuide)
}.

(** What [save_to_json] does with the file of an id: it writes the
    guide, or it raises, either before the file is opened ([NotOpened]:
    a directory that does not exist, a permission refused), the file, if
    there is one, staying as it was, or while the guide is written
    ([Broken]: a disk that is full), the file holding no guide
    afterwards. [msg] is [str(e)]. *)
Inductive save_outcome : Type :=
| Saved
| NotOpened (msg : str)
| Broken (msg : str).

(** The disk under the output directory: what writing the guide of an
    id does. Every definition and theorem on [batch_scrape] is for any
    disk. Its answer depends on the id and the guide only, not on the
    moment of the run; the writes of the checkpoint and of the summary
    are taken to succeed. *)
Class Disk := save : str -> ParentalGuide -> save_outcome.

Inductive event : Type :=
| EvLoadCheckpoint
| EvScrape (id : str)
| EvSaveGuide (id : str)
| EvSaveCheckpoint (i : Z)
| EvSleep
| EvWriteSummary
| EvRemoveCheckpoint.

(** The variables of [batch_scrape] that the loop updates, with the
    directory and the operations performed so far. *)
Record run_state := {
  results : list result_entry;
  failed : list failed_entry;
  dir : output_dir;
  trace : list event
}.

Inductive run_result : Type :=
| Crashed (exc : str) (d : output_dir) (t : list event)
| Finished (st : run_state).

(** [l[start:]] for a Python [int] start, negative ones counting from
    the end. *)
Definition slice_from {A} (start : Z) (l : list A) : list A :=
  if start <? 0
  then drop (Z.to_nat (Z.max 0 (Z.of_nat (length l) + start))) l
  else drop (Z.to_nat start) l.

Section WithScraper.

(** [scraper.scrape], the network's answers fixed: a guide, [None], or an
    exception. *)
Variable scrape : str -> outcome (option ParentalGuide).
Context {disk : Disk}.

Definition set_checkpoint (c : option checkpoint_file) (d : output_dir) : output_dir :=
  {| checkpoint := c; scrape_summary := scrape_summary d; guides := guides d |}.

Definition set_summary (s : summary) (d : output_dir) : output_dir :=
  {| checkpoint := checkpoint d; scrape_summary := Some s; guides := guides d |}.

Definition set_guides (gs : list (str * ParentalGuide)) (d : output_dir) : output_dir :=
  {| checkpoint := checkpoint d; scrape_summary := scrape_summary d; guides := gs |}.

(** [save_to_json(guide, output_path)] for the file of [id]: the
    exception, if it raises one, and the directory afterwards. *)
Definition save_to_json (id : str) (g : ParentalGuide) (d : output_dir)
  : option str * output_dir :=
  match save id g with
  | Saved => (None, set_guides ((id, g) :: filter (fun e => e.1 <> id) (guides d)) d)
  | NotOpened e => (Some e, d)
  | Broken e => (Some e, set_guides (filter (fun e => e.1 <> id) (guides d)) d)
  end.

(** Lines 69-88: the [try] block for one id. An exception of
    [save_to_json] is caught like one of [scrape]. *)
Definition scrape_one (id : str) (st : run_state) : run_state :=
  match scrape id with
  | Returns (Some guide) =>
      match save_to_json id guide (dir st) with
      | (None, d) =>
          {| results := results st ++
               [ {| r_imdb_id := id; r_status := py "success"; r_title := title guide |} ];
             failed := failed st;
             dir := d;
             trace := trace st ++ [EvScrape id; EvSaveGuide id] |}
      | (Some e, d) =>
          {| results := results st;
             failed := failed st ++ [ {| f_imdb_id := id; f_error := e |} ];
             dir := d;
             trace := trace st ++ [EvScrape id; EvSaveGuide id] |}
      end
  | Returns None =>
      {| results := results st;
         failed := failed st ++
           [ {| f_imdb_id := id; f_error := py "scrape returned None" |} ];
         dir := dir st;
         trace := trace st ++ [EvScrape id] |}
  | Raises e =>
      {| results := results st;
         failed := failed st ++ [ {| f_imdb_id := id; f_error := e |} ];
         dir := dir st;
         trace := trace st ++ [EvScrape id] |}
  end.

(** Lines 90-98: the checkpoint written after every tenth index. *)
Definition save_checkpoint (i : Z) (st : run_state) : run_state :=
  if (i + 1) mod 10 =? 0
  then {| results := results st; failed := failed st;
          dir := set_checkpoint
                   (Some (JsonObject (Some i) (Some (results st)) (Some (failed st))))
                   (dir st);
          trace := trace st ++ [EvSaveCheckpoint i] |}
  else st.

(** Lines 100-103: the pause between two ids. *)
Definition pause (n : nat) (i : Z) (st : run_state) : run_state :=
  if i <? Z.of_nat n - 1
  then {| results := results st; failed := failed st; dir := dir st;
          trace := trace st ++ [EvSleep] |}
  else st.

(** One iteration of the [for] loop (lines 66-103). *)
Definition iteration (n : nat) (i : Z) (id : str) (st : run_state) : run_state :=
  pause n i (save_checkpoint i (scrape_one id st)).

(** The [for] loop over [enumerate(items, start=i)]. *)
Fixpoint loop (n : nat) (i : Z) (items : list str) (st : run_state) : run_state :=
  match items with
  | [] => st
  | id :: rest => loop n (i + 1) rest (iteration n i id st)
  end.

(** Lines 51-62: where the run starts, and with which lists.
    [json.load] raises on text that is not JSON, [checkpoint.get] on
    what is no object, and [+ 1], or for a number that is no integer the
    slice of line 66, on a [last_index] that is no integer: all of it
    before the loop. *)
Definition startup (d : output_dir) (start_index : Z) : outcome (Z * run_state) :=
  match checkpoint d with
  | Some c =>
      if start_index =? 0 then
        match c with
        | NotJson => Raises (py "JSONDecodeError")
        | NotObject => Raises (py "AttributeError")
        | IllTypedIndex => Raises (py "TypeError")
        | JsonObject li rs fs =>
            Returns (default 0 li + 1,
                     {| results := default [] rs; failed := default [] fs;
                        dir := d; trace := [EvLoadCheckpoint] |})
        end
      else Returns (start_index, {| results := []; failed := []; dir := d; trace := [] |})
  | None => Returns (start_index, {| results := []; failed := []; dir := d; trace := [] |})
  end.

(** Lines 105-117: the summary, and the checkpoint removed. *)
Definition finalize (n : nat) (st : run_state) : run_state :=
  let d := set_summary {| total := n; success := length (results st);
                          failed_count := length (failed st);
                          s_failed := failed st |} (dir st) in
  match checkpoint d with
  | Some _ =>
      {| results := results st; failed := failed st;
         dir := set_checkpoint None d;
         trace := trace st ++ [EvWriteSummary; EvRemoveCheckpoint] |}
  | None =>
      {| results := results st; failed := failed st; dir := d;
         trace := trace st ++ [EvWriteSummary] |}
  end.

(** [batch_scrape(imdb_ids, output_dir, delay, start_index)] *)
Definition batch_scrape (imdb_ids : list str) (d : output_dir) (start_index : Z) : run_result :=
  match startup d start_index with
  | Raises e => Crashed e d [EvLoadCheckpoint]
  | Returns (s, st) =>
      let n := length imdb_ids in
      Finished (finalize n (loop n s (slice_from s imdb_ids) st))
  end.

(** The process stopped after [m] iterations of the loop: the state it
    leaves behind, of which only the directory survives. *)
Definition interrupted (m : nat) (imdb_ids : list str) (d : output_dir) (start_index : Z)
  : option run_state :=
  match startup d start_index with
  | Raises _ => None
  | Returns (s, st) =>
      let n := length imdb_ids in
      Some (loop n s (take m (slice_from s imdb_ids)) st)
  end.

(** The entries one id contributes. *)
Definition result_of (id : str) : list result_entry :=
  match scrape id with
  | Returns (Some guide) =>
      match save id guide with
      | Saved => [ {| r_imdb_id := id; r_status := py "success"; r_title := title guide |} ]
      | NotOpened _ | Broken _ => []
      end
  | _ => []
  end.

Definition failure_of (id : str) : list failed_entry :=
  match scrape id with
  | Returns (Some guide) =>
      match save id guide with
      | Saved => []
      | NotOpened e | Broken e => [ {| f_imdb_id := id; f_error := e |} ]
      end
  | Returns None => [ {| f_imdb_id := id; f_error := py "scrape returned None" |} ]
  | Raises e => [ {| f_imdb_id := id; f_error := e |} ]
  end.

End WithScraper.

(** Line 49: the scraper of a batch run, with its three attempts for
    each page; its [scrape] returns, or raises the [ValueError] of
    [html.unescape]. *)
Definition scraper (session_get : str -> nat -> Fetch.attempt_outcome)
  : str -> outcome (option ParentalGuide) :=
  fun imdb_id =>
    match Scraper.scrape_raises session_get 3 imdb_id with
    | Some e => Raises e
    | None => Returns (Scraper.scrape session_get 3 imdb_id)
    end.

(** How many ids had been processed when the last checkpoint was written,
    in a run of [m] iterations from index 0. *)
Definition last_save (m : nat) : nat := (10 * (m / 10))%nat.

(** The ids of all entries, successes first. *)
Definition entry_ids (st : run_state) : list str :=
  map r_imdb_id (results st) ++ map f_imdb_id (failed st).

(** A directory just created by [os.makedirs]. *)
Definition empty_dir : output_dir :=
  {| checkpoint := None; scrape_summary := None; guides := [] |}.


(** What a trace shows: the ids scraped, the indices at which the
    checkpoint was written, the number of pauses. *)
Definition scraped_ids (t : list event) : list str :=
  omap (fun e => match e with EvScrape id => Some id | _ => None end) t.

Definition saved_indices (t : list event) : list Z :=
  omap (fun e => match e with EvSaveCheckpoint i => Some i | _ => None end) t.

Definition sleeps (t : list event) : nat :=
  length (List.filter (fun e => match e with EvSleep => true | _ => false end) t).

(** The guide in the file of an id, if the directory has one. *)
Definition guide_file (id : str) (d : output_dir) : option ParentalGuide :=
  option_map snd (List.find (fun e : str * ParentalGuide => str_eqb e.1 id) (guides d)).

(** What the [try] block for an id does to the file of that id: it
    writes a guide into it, it leaves it without a guide, or it does not
    touch it ([None]). *)
Definition file_after (scrape : str -> outcome (option ParentalGuide)) {disk : Disk}
    (id : str) : option (option ParentalGuide) :=
  match scrape id with
  | Returns (Some guide) =>
      match save id guide with
      | Saved => Some (Some guide)
      | NotOpened _ => None
      | Broken _ => Some None
      end
  | _ => None
  end.

(** ["imdbId":\s*"(tt\d+)"] *)
Definition imdb_id_pattern : Re.regex :=
  Re.RSeq (Re.RLit (q "imdbId" ++ py ":"))
    (Re.RSeq (Re.RRep Re.CSpace 0 None true)
       (Re.RSeq (Re.RLit dq)
          (Re.RSeq (Re.RGroup 1 (Re.RSeq (Re.RLit (py "tt")) (Re.RRep Re.CDigit 1 None true)))
             (Re.RLit dq)))).

(** [extract_imdb_ids_from_movies_ts] (lines 21-28), [content] being the
    text read from the file. *)
Definition extract_imdb_ids_from_movies_ts (content : str) : list str :=
  Re.findall1 imdb_id_pattern content.

End Batch.

(** ** The translation pass ([scripts/translate_parental_guides.py]) *)
Module Translate.
Import Str.

(** [sep.join(l)] *)
Fixpoint join (sep : str) (l : list str) : str :=
  match l with
  | [] => []
  | [x] => x
  | x :: l' => x ++ sep ++ join sep l'
  end.

(** [s.split(sep)] for a separator that is not empty: [skip] characters
    of a separator just found are still to pass, [cur] is the piece
    being read, last character first. *)
Fixpoint split_aux (sep : str) (skip : nat) (cur : str) (s : str) : list str :=
  match s with
  | [] => [rev cur]
  | c :: s' =>
      match skip with
      | S k => split_aux sep k cur s'
      | O =>
          if startswith sep s
          then rev cur :: split_aux sep (length sep - 1) [] s'
          else split_aux sep 0 (c :: cur) s'
      end
  end.

Definition split (sep s : str) : list str := split_aux sep 0 [] s.

(** [str(n)] for a length. *)
Definition decimal (n : nat) : str :=
  py (DecimalString.NilZero.string_of_uint (Nat.to_uint n)).

(** What one call of [client.chat.completions.create] followed by
    [response.choices[0].message.content] gives: the text, or an
    exception. *)
Inductive reply : Type :=
| Content (text : str)
| ApiError (msg : str).

Inductive event : Type :=
| EvCreate (attempt : nat)
| EvSleep (seconds : Z).

(** Lines 68-69: the user prompt. *)
Definition user_prompt (items : list str) : str :=
  let items_text := join ([10%N] ++ py "---" ++ [10%N]) items in
  [35831; 32763; 35793; 20197; 19979]%N ++ decimal (length items) ++
  [26465; 20869; 23481; 65292; 27599; 26465; 29992; 32; 45; 45; 45; 32;
   20998; 38548; 65306; 10; 10]%N ++ items_text.

(** Lines 82-85: the reply cut at the separator. *)
Definition parse_reply (content : str) : list str :=
  List.filter (fun item => negb (str_eqb item []))
    (map strip (split (py "---") (strip content))).

(** Lines 88-96: a count that differs is repaired. *)
Definition repair (items translated_items : list str) : list str :=
  if negb (length translated_items =? length items)%nat then
    if (length translated_items <? length items)%nat
    then translated_items ++ drop (length translated_items) items
    else take (length items) translated_items
  else translated_items.

Section WithClient.

(** The service: what attempt number [attempt] gives for a prompt. *)
Variable create : str -> nat -> reply.
Variable max_retries : Z.

Fixpoint attempt_loop (items : list str) (attempts : list nat)
  : option (list str) * list event :=
  match attempts with
  | [] => (None, [])
  | attempt :: rest =>
      match create (user_prompt items) attempt with
      | Content text => (Some (repair items (parse_reply text)), [EvCreate attempt])
      | ApiError _ =>
          let slept :=
            if Z.of_nat attempt <? max_retries - 1
            then [EvSleep (2 ^ (Z.of_nat attempt + 1))] else [] in
          let '(r, t) := attempt_loop items rest in
          (r, EvCreate attempt :: slept ++ t)
      end
  end.

(** [translate_items(client, items, model, max_retries)] *)
Definition translate_items (items : list str) : option (list str) * list event :=
  match items with
  | [] => (Some [], [])
  | _ :: _ => attempt_loop items (seq 0 (Z.to_nat max_retries))
  end.

End WithClient.

(** The attempts made and the seconds slept in a trace. *)
Definition calls (t : list event) : list nat :=
  omap (fun e => match e with EvCreate attempt => Some attempt | EvSleep _ => None end) t.

Definition slept (t : list event) : Z :=
  fold_right (fun e acc => match e with EvSleep seconds => seconds + acc | EvCreate _ => acc end)
    0 t.

(** [CATEGORIES], by the keys of [Scraper.CATEGORY_IDS]. *)
Definition CATEGORIES : list Scraper.category :=
  [Scraper.sex_nudity_key; Scraper.violence_gore_key; Scraper.profanity_key;
   Scraper.alcohol_drugs_smoking_key; Scraper.frightening_intense_key].

#[global] Instance category_eq_dec : EqDecision Scraper.category.
Proof. solve_decision. Defined.

(** The two keys of a category dictionary that [translate_file] reads or
    writes, each present or not, with the lists of strings that
    [save_to_json] and [translate_file] put under them. *)
Record cat_data := { cd_items : option (list str); cd_items_zh : option (list str) }.

(** The loaded file: the category dictionaries by key, [None] for a key
    that is absent. The other keys of the file are not touched. *)
Definition file_data : Type := Scraper.category -> option cat_data.

(** [data[category] = cd], the other keys unchanged. *)
Definition set_category (c : Scraper.category) (cd : cat_data) (data : file_data)
  : file_data :=
  fun c' => if decide (c' = c) then Some cd else data c'.

(** ["items_zh" in cat_data and cat_data["items_zh"]] *)
Definition has_items_zh (cd : cat_data) : bool :=
  match cd_items_zh cd with
  | Some (_ :: _) => true
  | _ => false
  end.

(** What [translate_file] does besides reading and writing the file: a
    call of [translate_items] for a category, with what that call did,
    and the [time.sleep(delay)] after a translation. *)
Inductive file_event : Type :=
| EvTranslate (c : Scraper.category) (t : list event)
| EvDelay.

Section WithFile.

(** The service, by the category it is asked for; [force]. *)
Variable client : Scraper.category -> str -> nat -> reply.
Variable force : bool.

(** One round of the loop of lines 133-155: the state is [data],
    [modified] and the events so far. *)
Definition translate_category (st : file_data * bool * list file_event)
    (category : Scraper.category) : file_data * bool * list file_event :=
  let '(data, modified, t) := st in
  match data category with
  | None => st
  | Some cat_data =>
      let items := default [] (cd_items cat_data) in
      match items with
      | [] =>
          (set_category category
             {| cd_items := cd_items cat_data; cd_items_zh := Some [] |} data,
           modified, t)
      | _ :: _ =>
          if negb force && has_items_zh cat_data then st
          else
            let '(translated, calls) := translate_items (client category) 3 items in
            match translated with
            | Some translated =>
                (set_category category
                   {| cd_items := cd_items cat_data; cd_items_zh := Some translated |} data,
                 true, t ++ [EvTranslate category calls; EvDelay])
            | None => (data, modified, t ++ [EvTranslate category calls])
            end
      end
  end.

(** [translate_file] (lines 108-167). [file] is what [json.load] gives,
    [None] when opening or loading raises; [write_ok] says whether
    writing the file back succeeds. The result is the value returned,
    the data dumped to the file if it was written, and the events. *)
Definition translate_file (file : option file_data) (write_ok : bool)
  : bool * option file_data * list file_event :=
  match file with
  | None => (false, None, [])
  | Some data =>
      if negb force &&
         existsb (fun cat => match data cat with
                             | Some cat_data => has_items_zh cat_data
                             | None => false
                             end) CATEGORIES
      then (true, None, [])
      else
        let '(data, modified, t) :=
          fold_left translate_category CATEGORIES (data, false, []) in
        if modified then
          if write_ok then (true, Some data, t) else (false, None, t)
        else (true, None, t)
  end.

End WithFile.

(** The categories [translate_items] was called for, and the number of
    delays. *)
Definition asked (t : list file_event) : list Scraper.category :=
  omap (fun e => match e with EvTranslate c _ => Some c | EvDelay => None end) t.

Definition delays (t : list file_event) : nat :=
  length (List.filter (fun e => match e with EvDelay => true | EvTranslate _ _ => false end) t).

End Translate.

(** ** Inputs for the examples *)
Module Examples.
Import Str.

(** The disk of the examples: every guide is written. *)
#[global] Instance writable_disk : Batch.Disk := fun _ _ => Batch.Saved.

(** A scraper that gets [None] for every id. *)
Definition scrape_none : str -> Batch.outcome (option Guide.ParentalGuide) :=
  fun _ => Batch.Returns None.

(** A server that answers 204 to every request, and one that answers 200
    at the third attempt. *)
Definition always_204 : nat -> Fetch.attempt_outcome :=
  fun _ => Fetch.Response 204 (py "ok").

Definition third_time_lucky : nat -> Fetch.attempt_outcome :=
  fun a => if (a =? 2)%nat then Fetch.Response 200 (py "<html>")
           else Fetch.RequestException (py "timeout").

(** A translation service that fails once and then answers with a single
    item. *)
Definition one_item_service : str -> nat -> Translate.reply :=
  fun _ a => if (a =? 0)%nat then Translate.ApiError (py "rate limit")
             else Translate.Content (py " uno --- ").

(** A server that fails twice and then sends the page below, whatever
    the address. *)
Definition movie_server (page : str) : str -> nat -> Fetch.attempt_outcome :=
  fun _ a => if (a <? 2)%nat then Fetch.Response 429 [] else Fetch.Response 200 page.

(** One item of a category section, and one country of the
    certificates list with its ratings. *)
Definition guide_item (text : string) : str :=
  py "<div data-testid=" ++ q "item-html" ++ py "><div class=" ++
  q "ipc-html-content-inner-div" ++ py ">" ++ py text ++ py "</div></div>".

Definition rating_link (text : string) : str :=
  py "<a class=" ++ q "ipc-metadata-list-item__list-content-item--link" ++
  py " href=" ++ q "#" ++ py ">" ++ py text ++ py "</a>".

Definition country_item (name : string) (ratings : list string) : str :=
  py "<li data-testid=" ++ q "certificates-item" ++ py "><span class=" ++
  q "ipc-metadata-list-item__label" ++ py ">" ++ py name ++ py "</span>" ++
  concat (map rating_link ratings) ++ py "</li>".

Definition signpost (text : string) : str :=
  py "<span class=" ++ q "ipc-signpost__text" ++ py ">" ++ py text ++ py "</span>".

(** A page with the anchors of two categories, two severity labels and a
    blank item in the first, and three countries, the second without
    ratings. *)
Definition two_category_page : str :=
  py "<html><head><title>The Movie (1999) - Parents guide</title></head>" ++
  py "<section id=" ++ q "nudity" ++ py ">" ++ signpost "Mild" ++ signpost "Severe" ++
  guide_item "A  kiss" ++ guide_item "   " ++ guide_item "More &amp; more" ++
  py "</section><section id=" ++ q "violence" ++ py ">" ++ signpost "Moderate" ++
  guide_item "A fight" ++
  py "</section><section id=" ++ q "certificates" ++ py "><div data-testid=" ++
  q "certificates-container" ++ py "><ul>" ++
  country_item "Argentina" ["16"; "13"]%string ++
  country_item "Brazil" [] ++
  country_item "Canada" ["18A"]%string ++
  py "</ul></div></section><footer></footer></html>".

(** A guide file with one item under the first category, an empty list
    under the second and two items under the third; a service that
    answers for the first category only. *)
Definition sample_file : Translate.file_data :=
  fun c =>
    match c with
    | Scraper.sex_nudity_key =>
        Some {| Translate.cd_items := Some [py "A kiss"]; Translate.cd_items_zh := None |}
    | Scraper.violence_gore_key =>
        Some {| Translate.cd_items := Some []; Translate.cd_items_zh := None |}
    | Scraper.profanity_key =>
        Some {| Translate.cd_items := Some [py "One word"; py "Two words"];
                Translate.cd_items_zh := None |}
    | _ => None
    end.

Definition first_category_service : Scraper.category -> str -> nat -> Translate.reply :=
  fun c _ _ =>
    match c with
    | Scraper.sex_nudity_key => Translate.Content (py "Un beso")
    | _ => Translate.ApiError (py "unavailable")
    end.

Definition no_service : Scraper.category -> str -> nat -> Translate.reply :=
  fun _ _ _ => Translate.ApiError (py "unavailable").

(** A page without any category anchor whose title holds a decimal
    reference of 4301 digits. *)
Definition overlong_reference_page : str :=
  py "<html><h1 data-testid=" ++ q "subtitle" ++ py ">The Movie &#" ++
  replicate 4301 49%N ++ py ";</h1></html>".

(** A page whose certificates container, with one rated country, is
    followed neither by [</section>] nor by [<footer]. *)
Definition unclosed_certificates_page : str :=
  py "<html><div data-testid=" ++ q "certificates-container" ++ py "><ul>" ++
  country_item "Argentina" ["16"]%string ++ py "</ul></div></html>".

End Examples.

(* ===================================================================== *)
(** * Part II. Theorems                                                   *)
(* ===================================================================== *)

Section BatchFacts.
Import Str Guide Batch.
Variable scrape : str -> outcome (option ParentalGuide).
Context {disk : Disk}.

Lemma scrape_one_results id st :
  results (scrape_one scrape id st) = results st ++ result_of scrape id.
Proof.
  unfold scrape_one, save_to_json, result_of.
  destruct (scrape id) as [[g|]|e]; [destruct (save id g)| |]; simpl; by rewrite ?app_nil_r.
Qed.

Lemma scrape_one_failed id st :
  failed (scrape_one scrape id st) = failed st ++ failure_of scrape id.
Proof.
  unfold scrape_one, save_to_json, failure_of.
  destruct (scrape id) as [[g|]|e]; [destruct (save id g)| |]; simpl; by rewrite ?app_nil_r.
Qed.

Lemma scrape_one_checkpoint id st :
  checkpoint (dir (scrape_one scrape id st)) = checkpoint (dir st).
Proof.
  unfold scrape_one, save_to_json.
  by destruct (scrape id) as [[g|]|e]; [destruct (save id g)| |].
Qed.

Lemma iteration_results n i id st :
  results (iteration scrape n i id st) = results st ++ result_of scrape id.
Proof.
  unfold iteration, pause, save_checkpoint.
  repeat case_match; simpl; apply scrape_one_results.
Qed.

Lemma iteration_failed n i id st :
  failed (iteration scrape n i id st) = failed st ++ failure_of scrape id.
Proof.
  unfold iteration, pause, save_checkpoint.
  repeat case_match; simpl; apply scrape_one_failed.
Qed.

(** The checkpoint after one iteration: rewritten at every tenth index,
    untouched otherwise. *)
Lemma iteration_checkpoint n i id st :
  checkpoint (dir (iteration scrape n i id st)) =
  if (i + 1) mod 10 =? 0
  then Some (JsonObject (Some i)
               (Some (results st ++ result_of scrape id))
               (Some (failed st ++ failure_of scrape id)))
  else checkpoint (dir st).
Proof.
  unfold iteration, pause, save_checkpoint.
  rewrite <- scrape_one_results, <- scrape_one_failed.
  destruct ((i + 1) mod 10 =? 0); case_match; simpl;
    auto using scrape_one_checkpoint.
Qed.

Lemma loop_app n i l1 l2 st :
  loop scrape n i (l1 ++ l2) st
  = loop scrape n (i + Z.of_nat (length l1)) l2 (loop scrape n i l1 st).
Proof.
  revert i st. induction l1 as [|x l1 IH]; intros i st; simpl.
  - by rewrite Z.add_0_r.
  - rewrite IH. f_equal. lia.
Qed.

Lemma loop_results n i l st :
  results (loop scrape n i l st) = results st ++ flat_map (result_of scrape) l.
Proof.
  revert i st. induction l as [|x l IH]; intros i st; simpl.
  - by rewrite app_nil_r.
  - by rewrite IH, iteration_results, <- app_assoc.
Qed.

Lemma loop_failed n i l st :
  failed (loop scrape n i l st) = failed st ++ flat_map (failure_of scrape) l.
Proof.
  revert i st. induction l as [|x l IH]; intros i st; simpl.
  - by rewrite app_nil_r.
  - by rewrite IH, iteration_failed, <- app_assoc.
Qed.

Lemma finalize_results n st : results (finalize n st) = results st.
Proof. unfold finalize. by case_match. Qed.

Lemma finalize_failed n st : failed (finalize n st) = failed st.
Proof. unfold finalize. by case_match. Qed.

Lemma finalize_summary n st :
  scrape_summary (dir (finalize n st)) =
  Some {| total := n; success := length (results st);
          failed_count := length (failed st); s_failed := failed st |}.
Proof. unfold finalize. by case_match. Qed.

Lemma finalize_checkpoint n st : checkpoint (dir (finalize n st)) = None.
Proof. unfold finalize. by case_match. Qed.

(** Every id yields one entry, in [results] or in [failed]. *)
Lemma result_ids_sublist l :
  map r_imdb_id (flat_map (result_of scrape) l) `sublist_of` l.
Proof.
  induction l as [|x l IH]; simpl; [constructor|].
  rewrite map_app. unfold result_of at 1.
  destruct (scrape x) as [[g|]|e]; [destruct (save x g)| |]; simpl; by constructor.
Qed.

Lemma failed_ids_sublist l :
  map f_imdb_id (flat_map (failure_of scrape) l) `sublist_of` l.
Proof.
  induction l as [|x l IH]; simpl; [constructor|].
  rewrite map_app. unfold failure_of at 1.
  destruct (scrape x) as [[g|]|e]; [destruct (save x g)| |]; simpl; by constructor.
Qed.

Lemma entries_permutation l :
  map r_imdb_id (flat_map (result_of scrape) l) ++
  map f_imdb_id (flat_map (failure_of scrape) l) ≡ₚ l.
Proof.
  induction l as [|x l IH]; simpl; [done|].
  rewrite !map_app. unfold result_of at 1, failure_of at 1.
  destruct (scrape x) as [[g|]|e]; [destruct (save x g)| |]; simpl;
    first [by constructor|by rewrite <- Permutation_middle, IH].
Qed.

Lemma slice_from_nonneg {A} (s : Z) (l : list A) :
  0 <= s -> slice_from s l = drop (Z.to_nat s) l.
Proof. intros Hs. unfold slice_from. case_match; [lia | done]. Qed.

Lemma loop_trace_no_load n i l st :
  EvLoadCheckpoint ∈ trace (loop scrape n i l st) -> EvLoadCheckpoint ∈ trace st.
Proof.
  revert i st. induction l as [|x l IH]; intros i st; simpl; [done|].
  intros H. apply IH in H. revert H.
  unfold iteration, pause, save_checkpoint, scrape_one, save_to_json.
  destruct (i <? Z.of_nat n - 1), ((i + 1) mod 10 =? 0), (scrape x) as [[g|]|e];
    try destruct (save x g); simpl; rewrite ?elem_of_app, ?elem_of_cons, ?elem_of_nil; intuition discriminate.
Qed.

Lemma finalize_trace_no_load n st :
  EvLoadCheckpoint ∈ trace (finalize n st) -> EvLoadCheckpoint ∈ trace st.
Proof.
  unfold finalize. case_match; simpl;
    rewrite ?elem_of_app, ?elem_of_cons, ?elem_of_nil; intuition discriminate.
Qed.

Lemma loop_single n i x st :
  loop scrape n i [x] st = iteration scrape n i x st.
Proof. done. Qed.

Ltac divmod10 m :=
  pose proof (Nat.div_mod_eq m 10); pose proof (Nat.mod_upper_bound m 10).

Lemma last_save_hit (m : nat) :
  (0 + Z.of_nat m + 1) mod 10 = 0 -> last_save (m + 1) = (m + 1)%nat.
Proof.
  unfold last_save. intros. divmod10 (m + 1)%nat. Z.div_mod_to_equations. lia.
Qed.

Lemma last_save_miss (m : nat) :
  (0 + Z.of_nat m + 1) mod 10 <> 0 -> last_save (m + 1) = last_save m.
Proof.
  unfold last_save. intros. divmod10 (m + 1)%nat. divmod10 m.
  Z.div_mod_to_equations. lia.
Qed.

Lemma last_save_le (m : nat) : (last_save m <= m)%nat.
Proof. unfold last_save. divmod10 m. lia. Qed.

Lemma last_save_decimal (k j : nat) :
  (j < 10)%nat -> last_save (10 * k + j) = (10 * k)%nat.
Proof. intros Hj. unfold last_save. divmod10 (10 * k + j)%nat. lia. Qed.

(** In a run that began with no checkpoint, the file on disk after [l]
    was processed is the one written at the last multiple of ten. *)
Lemma loop_checkpoint_fresh n l st0 :
  checkpoint (dir st0) = None -> results st0 = [] -> failed st0 = [] ->
  checkpoint (dir (loop scrape n 0 l st0)) =
  if (last_save (length l) =? 0)%nat then None
  else Some (JsonObject (Some (Z.of_nat (last_save (length l)) - 1))
               (Some (flat_map (result_of scrape) (take (last_save (length l)) l)))
               (Some (flat_map (failure_of scrape) (take (last_save (length l)) l)))).
Proof.
  intros Hc Hr Hf. induction l as [|x l IH] using rev_ind; [done|].
  rewrite loop_app, loop_single, iteration_checkpoint, loop_results, loop_failed, Hr, Hf.
  rewrite length_app. cbn [length app].
  destruct ((0 + Z.of_nat (length l) + 1) mod 10 =? 0) eqn:E.
  - apply Z.eqb_eq in E. rewrite (last_save_hit _ E).
    replace (length l + 1 =? 0)%nat with false by (symmetry; apply Nat.eqb_neq; lia).
    rewrite firstn_all2 by (rewrite length_app; simpl; lia).
    rewrite !flat_map_app. cbn [flat_map]. rewrite !app_nil_r.
    do 3 f_equal. lia.
  - apply Z.eqb_neq in E. rewrite (last_save_miss _ E), IH.
    case_match; [done|].
    rewrite take_app_le; [done|]. apply last_save_le.
Qed.

(** A run from index 0 over a directory without checkpoint. *)
Lemma fresh_run ids d :
  checkpoint d = None ->
  exists st, batch_scrape scrape ids d 0 = Finished st
    /\ results st = flat_map (result_of scrape) ids
    /\ failed st = flat_map (failure_of scrape) ids
    /\ scrape_summary (dir st) =
       Some {| total := length ids;
               success := length (flat_map (result_of scrape) ids);
               failed_count := length (flat_map (failure_of scrape) ids);
               s_failed := flat_map (failure_of scrape) ids |}.
Proof.
  intros Hc. eexists. unfold batch_scrape, startup. rewrite Hc.
  split; [reflexivity|].
  rewrite finalize_results, finalize_failed, finalize_summary.
  rewrite loop_results, loop_failed. done.
Qed.

(** C1, as the code has it: a run from the start over a directory without
    checkpoint ends with a summary whose counts add up to [total]; the ids
    of [results] and of [failed] are each a subsequence of the input, and
    together a permutation of it, so every input position has exactly one
    entry; no id is in two entries when the input ids are pairwise
    distinct. *)
Theorem batch_accounts_for_every_position ids d :
  checkpoint d = None ->
  exists st, batch_scrape scrape ids d 0 = Finished st
    /\ scrape_summary (dir st) =
       Some {| total := length ids; success := length (results st);
               failed_count := length (failed st); s_failed := failed st |}
    /\ (length (results st) + length (failed st) = length ids)%nat
    /\ (forall id, id ∈ entry_ids st -> id ∈ ids)
    /\ map r_imdb_id (results st) `sublist_of` ids
    /\ map f_imdb_id (failed st) `sublist_of` ids
    /\ entry_ids st ≡ₚ ids
    /\ (NoDup ids -> NoDup (entry_ids st)).
Proof.
  intros Hc. destruct (fresh_run ids d Hc) as (st & Hrun & Hr & Hf & Hs).
  exists st. split; [done|].
  assert (entry_ids st ≡ₚ ids) as Hp.
  { unfold entry_ids. rewrite Hr, Hf. apply entries_permutation. }
  repeat split.
  - by rewrite Hr, Hf.
  - apply Permutation_length in Hp. unfold entry_ids in Hp.
    by rewrite length_app, !length_map in Hp.
  - intros id. by rewrite Hp.
  - rewrite Hr. apply result_ids_sublist.
  - rewrite Hf. apply failed_ids_sublist.
  - done.
  - intros Hn. by rewrite Hp.
Qed.

(** C3: a run from the start stopped after [10k+j] iterations and started
    again with [start_index = 0] over the directory it left ends with the
    summary, the [results] and the [failed] of the uninterrupted run; the
    second run begins at index [10k] with the lists of the checkpoint when
    the first one got as far as [10k+j]. *)
Theorem resume_matches_uninterrupted_run ids d (k j : nat) :
  checkpoint d = None -> (j < 10)%nat ->
  exists st_killed st_resumed st_full,
    interrupted scrape (10 * k + j) ids d 0 = Some st_killed
    /\ batch_scrape scrape ids (dir st_killed) 0 = Finished st_resumed
    /\ batch_scrape scrape ids d 0 = Finished st_full
    /\ is_Some (scrape_summary (dir st_full))
    /\ scrape_summary (dir st_resumed) = scrape_summary (dir st_full)
    /\ results st_resumed = results st_full
    /\ failed st_resumed = failed st_full
    /\ ((10 * k + j <= length ids)%nat ->
        exists st0, startup (dir st_killed) 0 = Returns (Z.of_nat (10 * k), st0)
          /\ results st0 = flat_map (result_of scrape) (take (10 * k) ids)
          /\ failed st0 = flat_map (failure_of scrape) (take (10 * k) ids)).
Proof.
  intros Hc Hj. destruct (fresh_run ids d Hc) as (st_full & Hrun & Hr & Hf & Hs).
  set (m := (10 * k + j)%nat).
  set (st_killed := loop scrape (length ids) 0 (take m ids)
                      {| results := []; failed := []; dir := d; trace := [] |}).
  assert (interrupted scrape m ids d 0 = Some st_killed) as Hk.
  { unfold interrupted, startup. by rewrite Hc. }
  pose proof (loop_checkpoint_fresh (length ids) (take m ids)
    {| results := []; failed := []; dir := d; trace := [] |} Hc eq_refl eq_refl) as Hck.
  fold st_killed in Hck.
  set (K := last_save (length (take m ids))) in *.
  assert (K <= m)%nat as HKm.
  { unfold K. pose proof (last_save_le (length (take m ids))).
    rewrite length_take in *. lia. }
  assert (take K (take m ids) = take K ids) as Ht by (by rewrite take_take, Nat.min_l).
  rewrite Ht in Hck.
  assert (exists st0, startup (dir st_killed) 0 = Returns (Z.of_nat K, st0)
            /\ results st0 = flat_map (result_of scrape) (take K ids)
            /\ failed st0 = flat_map (failure_of scrape) (take K ids)) as (st0 & Hst & Hr0 & Hf0).
  { unfold startup. rewrite Hck. destruct (K =? 0)%nat eqn:EK.
    - apply Nat.eqb_eq in EK. rewrite EK. eexists. split; [reflexivity|]. done.
    - eexists. simpl. split; [f_equal; f_equal; lia|]. done. }
  exists st_killed, (finalize (length ids)
    (loop scrape (length ids) (Z.of_nat K) (drop K ids) st0)), st_full.
  assert (flat_map (result_of scrape) (take K ids) ++ flat_map (result_of scrape) (drop K ids)
          = flat_map (result_of scrape) ids) as HR
    by (by rewrite <- flat_map_app, take_drop).
  assert (flat_map (failure_of scrape) (take K ids) ++ flat_map (failure_of scrape) (drop K ids)
          = flat_map (failure_of scrape) ids) as HF
    by (by rewrite <- flat_map_app, take_drop).
  split; [done|]. split.
  { unfold batch_scrape. rewrite Hst.
    rewrite slice_from_nonneg by lia. by rewrite Nat2Z.id. }
  split; [done|]. split; [by rewrite Hs|].
  rewrite finalize_summary, finalize_results, finalize_failed.
  rewrite loop_results, loop_failed, Hr0, Hf0, HR, HF, Hs, Hr, Hf.
  repeat split.
  intros Hm. exists st0.
  assert (K = (10 * k)%nat) as <-; [|done].
  unfold K. rewrite length_take, Nat.min_l by done. by apply last_save_decimal.
Qed.

(** C10, as the code has it: with an explicit [start_index] above 0 the
    checkpoint file is never loaded, whatever it holds; the lists start
    empty; the summary's [total] is the length of the whole input while the
    entries are those of the ids from [start_index] on, so an id at an
    earlier index is in an entry only if it occurs again from
    [start_index] on. *)
Theorem explicit_start_skips_checkpoint ids d (s : Z) :
  0 < s ->
  exists st,
    startup d s = Returns (s, {| results := []; failed := []; dir := d; trace := [] |})
    /\ batch_scrape scrape ids d s = Finished st
    /\ (EvLoadCheckpoint ∉ trace st)
    /\ results st = flat_map (result_of scrape) (drop (Z.to_nat s) ids)
    /\ failed st = flat_map (failure_of scrape) (drop (Z.to_nat s) ids)
    /\ scrape_summary (dir st) =
       Some {| total := length ids; success := length (results st);
               failed_count := length (failed st); s_failed := failed st |}
    /\ entry_ids st ≡ₚ drop (Z.to_nat s) ids
    /\ (forall (i : nat) id, (i < Z.to_nat s)%nat -> ids !! i = Some id ->
          id ∈ entry_ids st -> id ∈ drop (Z.to_nat s) ids).
Proof.
  intros Hs.
  assert (startup d s
          = Returns (s, {| results := []; failed := []; dir := d; trace := [] |})) as Hst.
  { unfold startup. replace (s =? 0) with false by lia. by destruct (checkpoint d). }
  eexists. split; [done|]. unfold batch_scrape. rewrite Hst.
  split; [reflexivity|].
  rewrite finalize_results, finalize_failed, finalize_summary.
  rewrite slice_from_nonneg by lia.
  rewrite loop_results, loop_failed. simpl.
  assert (entry_ids (finalize (length ids) (loop scrape (length ids) s (drop (Z.to_nat s) ids)
            {| results := []; failed := []; dir := d; trace := [] |}))
          ≡ₚ drop (Z.to_nat s) ids) as Hp.
  { unfold entry_ids. rewrite finalize_results, finalize_failed, loop_results, loop_failed.
    apply entries_permutation. }
  repeat split; try done.
  - intros H. apply finalize_trace_no_load, loop_trace_no_load in H.
    by apply elem_of_nil in H.
  - intros i id _ _. by rewrite Hp.
Qed.

End BatchFacts.

Lemma batch_accounts_for_every_position_witness :
  exists st,
    Batch.batch_scrape Examples.scrape_none [Str.py "tt1"; Str.py "tt2"] Batch.empty_dir 0
    = Batch.Finished st
    /\ (length (Batch.results st) + length (Batch.failed st) = 2)%nat.
Proof.
  destruct (batch_accounts_for_every_position Examples.scrape_none
              [Str.py "tt1"; Str.py "tt2"] Batch.empty_dir eq_refl)
    as (st & H1 & _ & H2 & _).
  exists st. split; [exact H1 | exact H2].
Defined.

(** C1, refuted as stated: an input that repeats an id yields two entries
    with that id. *)
Lemma repeated_id_has_two_entries :
  exists st,
    Batch.batch_scrape Examples.scrape_none [Str.py "tt1"; Str.py "tt1"] Batch.empty_dir 0
    = Batch.Finished st
    /\ map Batch.f_imdb_id (Batch.failed st) = [Str.py "tt1"; Str.py "tt1"]
    /\ (~ NoDup (Batch.entry_ids st)).
Proof.
  eexists. split; [reflexivity|]. split; [reflexivity|].
  intros H. vm_compute in H. apply NoDup_cons in H as [H _].
  apply H. left.
Qed.

Lemma resume_matches_uninterrupted_run_witness :
  exists st_killed st_resumed st_full,
    Batch.interrupted Examples.scrape_none (10 * 1 + 2) (replicate 15 (Str.py "tt1")) Batch.empty_dir 0
    = Some st_killed
    /\ Batch.batch_scrape Examples.scrape_none (replicate 15 (Str.py "tt1")) (Batch.dir st_killed) 0
       = Batch.Finished st_resumed
    /\ Batch.batch_scrape Examples.scrape_none (replicate 15 (Str.py "tt1")) Batch.empty_dir 0
       = Batch.Finished st_full
    /\ Batch.scrape_summary (Batch.dir st_resumed) = Batch.scrape_summary (Batch.dir st_full).
Proof.
  destruct (resume_matches_uninterrupted_run Examples.scrape_none (replicate 15 (Str.py "tt1"))
              Batch.empty_dir 1 2 eq_refl ltac:(lia))
    as (a & b & c & H1 & H2 & H3 & _ & H4 & _).
  exists a, b, c. repeat split; assumption.
Defined.

Lemma explicit_start_skips_checkpoint_witness :
  exists st,
    Batch.batch_scrape Examples.scrape_none [Str.py "tt1"; Str.py "tt2"; Str.py "tt3"]
      (Batch.set_checkpoint (Some Batch.NotJson) Batch.empty_dir) 2
    = Batch.Finished st
    /\ (Batch.EvLoadCheckpoint ∉ Batch.trace st).
Proof.
  destruct (explicit_start_skips_checkpoint Examples.scrape_none
              [Str.py "tt1"; Str.py "tt2"; Str.py "tt3"]
              (Batch.set_checkpoint (Some Batch.NotJson) Batch.empty_dir) 2 ltac:(lia))
    as (st & _ & H1 & H2 & _).
  exists st. split; assumption.
Defined.

(** C10, refuted as stated: the id at index 0, skipped by
    [start_index = 1], is in a summary entry all the same, because the
    input holds it again at index 1. *)
Lemma skipped_id_still_in_summary :
  exists st sm,
    Batch.batch_scrape Examples.scrape_none [Str.py "tt1"; Str.py "tt1"] Batch.empty_dir 1
    = Batch.Finished st
    /\ Batch.scrape_summary (Batch.dir st) = Some sm
    /\ [Str.py "tt1"; Str.py "tt1"] !! 0%nat = Some (Str.py "tt1")
    /\ Str.py "tt1" ∈ map Batch.f_imdb_id (Batch.s_failed sm).
Proof.
  eexists. eexists. split; [reflexivity|]. split; [reflexivity|].
  split; [reflexivity|]. vm_compute. left.
Qed.

(** A checkpoint file that holds the JSON object without keys is
    well-formed JSON: [dict.get] supplies its defaults, and the run goes
    on from index 1 with empty lists. *)
Example checkpoint_without_keys :
  Batch.startup (Batch.set_checkpoint (Some (Batch.JsonObject None None None))
                   Batch.empty_dir) 0
  = Batch.Returns
      (1, {| Batch.results := []; Batch.failed := [];
             Batch.dir := Batch.set_checkpoint (Some (Batch.JsonObject None None None))
                            Batch.empty_dir;
             Batch.trace := [Batch.EvLoadCheckpoint] |}).
Proof. reflexivity. Qed.

(** The whole chain on one id: two refused requests, the page, the
    record, its entry in [results] and the summary. *)
Example batch_over_one_page :
  exists st,
    Batch.batch_scrape (Batch.scraper (Examples.movie_server Examples.two_category_page))
      [Str.py "0111161"] Batch.empty_dir 0 = Batch.Finished st
    /\ Batch.results st
       = [ {| Batch.r_imdb_id := Str.py "0111161"; Batch.r_status := Str.py "success";
              Batch.r_title := Str.py "The Movie" |} ]
    /\ map (fun e => Guide.imdb_id e.2) (Batch.guides (Batch.dir st))
       = [Str.py "tt0111161"]
    /\ Batch.scrape_summary (Batch.dir st)
       = Some {| Batch.total := 1; Batch.success := 1; Batch.failed_count := 0;
                 Batch.s_failed := [] |}.
Proof. eexists. vm_compute. repeat split. Qed.

Section FetchFacts.
Import Str Fetch.
Variable session_get : nat -> attempt_outcome.
Variable max_retries : Z.

Lemma gets_cons_get a t : gets (EvGet a :: t) = S (gets t).
Proof. done. Qed.

Lemma gets_app t1 t2 : gets (t1 ++ t2) = (gets t1 + gets t2)%nat.
Proof. unfold gets. by rewrite List.filter_app, length_app. Qed.

Lemma gets_backoff a : gets (backoff max_retries a) = 0%nat.
Proof. unfold backoff. by case_match. Qed.

(** An iteration that does not return makes one call and goes on. *)
Lemma request_loop_retry a rest :
  is_ok (session_get a) = false ->
  (request_loop session_get max_retries (a :: rest)).1
  = (request_loop session_get max_retries rest).1
  /\ gets (request_loop session_get max_retries (a :: rest)).2
     = S (gets (request_loop session_get max_retries rest).2).
Proof.
  intros H. simpl. destruct (session_get a) as [c text|msg]; simpl in H.
  - rewrite H. destruct (request_loop session_get max_retries rest) as [r t]. simpl.
    split; [done|]. rewrite gets_cons_get, !gets_app, gets_backoff.
    by repeat case_match.
  - destruct (request_loop session_get max_retries rest) as [r t]. simpl.
    split; [done|]. by rewrite gets_cons_get, gets_app, gets_backoff.
Qed.

Lemma request_loop_gets_le l :
  (gets (request_loop session_get max_retries l).2 <= length l)%nat.
Proof.
  induction l as [|a l IH]; [done|].
  destruct (is_ok (session_get a)) eqn:E.
  - simpl. destruct (session_get a) as [c text|msg]; [|done].
    unfold is_ok in E. rewrite E. unfold gets. simpl. lia.
  - destruct (request_loop_retry a l E) as [_ ->]. simpl. lia.
Qed.

Lemma request_loop_first_ok b n a text :
  (b <= a < b + n)%nat ->
  session_get a = Response 200 text ->
  (forall k, (b <= k < a)%nat -> is_ok (session_get k) = false) ->
  (request_loop session_get max_retries (seq b n)).1 = Some (200, text)
  /\ gets (request_loop session_get max_retries (seq b n)).2 = S (a - b).
Proof.
  revert b. induction n as [|n IH]; intros b Hb Ha Hbefore; [lia|].
  cbn [seq]. destruct (decide (a = b)) as [->|Hne].
  - simpl. rewrite Ha. simpl. split; [done|]. unfold gets. simpl. lia.
  - destruct (request_loop_retry b (seq (S b) n)) as [-> ->].
    { apply Hbefore. lia. }
    destruct (IH (S b)) as [-> ->]; [lia|done|intros; apply Hbefore; lia|].
    split; [done|]. lia.
Qed.

Lemma request_loop_none l :
  (forall a, a ∈ l -> is_ok (session_get a) = false) ->
  (request_loop session_get max_retries l).1 = None
  /\ gets (request_loop session_get max_retries l).2 = length l.
Proof.
  induction l as [|a l IH]; intros H; [done|].
  destruct (request_loop_retry a l) as [-> ->]; [apply H; left|].
  destruct IH as [-> ->]; [intros; apply H; by right|]. done.
Qed.

(** C5, as the code has it: [_make_request] calls [session.get] at most
    [max_retries] times; the first response with status exactly 200 ends
    the loop and is returned; when no attempt gives a 200 (any other
    status, a timeout, a connection error), every attempt is made and the
    value is [None], never an exception. *)
Theorem make_request_bounded_retries :
  (gets (_make_request session_get max_retries).2 <= Z.to_nat max_retries)%nat
  /\ (forall a text,
        (a < Z.to_nat max_retries)%nat ->
        session_get a = Response 200 text ->
        (forall b, (b < a)%nat -> is_ok (session_get b) = false) ->
        (_make_request session_get max_retries).1 = Some (200, text)
        /\ gets (_make_request session_get max_retries).2 = S a)
  /\ ((forall a, (a < Z.to_nat max_retries)%nat -> is_ok (session_get a) = false) ->
        (_make_request session_get max_retries).1 = None
        /\ gets (_make_request session_get max_retries).2 = Z.to_nat max_retries).
Proof.
  unfold _make_request. split; [|split].
  - pose proof (request_loop_gets_le (seq 0 (Z.to_nat max_retries))) as H.
    by rewrite length_seq in H.
  - intros a text Ha Hok Hbefore.
    destruct (request_loop_first_ok 0 (Z.to_nat max_retries) a text) as [-> ->];
      [lia|done|intros; apply Hbefore; lia|].
    split; [done|]. f_equal. lia.
  - intros Hall.
    destruct (request_loop_none (seq 0 (Z.to_nat max_retries))) as [-> ->].
    + intros a Ha. apply Hall. apply elem_of_seq in Ha. lia.
    + by rewrite length_seq.
Qed.

End FetchFacts.

Lemma make_request_bounded_retries_witness :
  (Fetch._make_request Examples.third_time_lucky 3).1 = Some (200, Str.py "<html>")
  /\ Fetch.gets (Fetch._make_request Examples.third_time_lucky 3).2 = 3%nat.
Proof.
  apply (make_request_bounded_retries Examples.third_time_lucky 3).
  - simpl. lia.
  - reflexivity.
  - intros b Hb. destruct b as [|[|b]]; [reflexivity|reflexivity|lia].
Defined.

(** C5, refuted as stated: three responses with status 204, a 2xx code,
    and the loop goes through all its attempts and returns [None]. *)
Lemma status_204_is_retried :
  Fetch.session_status Examples.always_204 0 = Some 204
  /\ (Fetch._make_request Examples.always_204 3).1 = None
  /\ Fetch.gets (Fetch._make_request Examples.always_204 3).2 = 3%nat.
Proof. vm_compute. repeat split. Qed.

Section TranslateFacts.
Import Str Translate.
Variable create : str -> nat -> reply.
Variable max_retries : Z.

Lemma repair_length items tr : length (repair items tr) = length items.
Proof.
  unfold repair.
  destruct (length tr =? length items)%nat eqn:E; simpl.
  - by apply Nat.eqb_eq in E.
  - apply Nat.eqb_neq in E.
    destruct (length tr <? length items)%nat eqn:E'.
    + apply Nat.ltb_lt in E'. rewrite length_app, length_drop. lia.
    + apply Nat.ltb_ge in E'. rewrite length_take. lia.
Qed.

Lemma repair_short items tr :
  (length tr < length items)%nat -> repair items tr = tr ++ drop (length tr) items.
Proof.
  intros H. unfold repair.
  replace (length tr =? length items)%nat with false
    by (symmetry; apply Nat.eqb_neq; lia).
  replace (length tr <? length items)%nat with true
    by (symmetry; apply Nat.ltb_lt; lia).
  done.
Qed.

Lemma repair_long items tr :
  (length items < length tr)%nat -> repair items tr = take (length items) tr.
Proof.
  intros H. unfold repair.
  replace (length tr =? length items)%nat with false
    by (symmetry; apply Nat.eqb_neq; lia).
  replace (length tr <? length items)%nat with false
    by (symmetry; apply Nat.ltb_ge; lia).
  done.
Qed.

Lemma repair_same items tr : length tr = length items -> repair items tr = tr.
Proof.
  intros H. unfold repair.
  by replace (length tr =? length items)%nat with true
    by (symmetry; apply Nat.eqb_eq; lia).
Qed.

(** The loop returns at the first attempt that does not raise. *)
Lemma attempt_loop_first_reply items b n a text :
  (b <= a < b + n)%nat ->
  create (user_prompt items) a = Content text ->
  (forall k, (b <= k < a)%nat -> exists e, create (user_prompt items) k = ApiError e) ->
  (attempt_loop create max_retries items (seq b n)).1
  = Some (repair items (parse_reply text)).
Proof.
  revert b. induction n as [|n IH]; intros b Hb Ha Hbefore; [lia|].
  cbn [seq attempt_loop]. destruct (decide (a = b)) as [->|Hne].
  - by rewrite Ha.
  - destruct (Hbefore b) as [e ->]; [lia|].
    specialize (IH (S b)).
    destruct (attempt_loop create max_retries items (seq (S b) n)) as [r t].
    simpl. apply IH; [lia|done|intros; apply Hbefore; lia].
Qed.

(** C8: an empty item list gives the empty list and no call of the
    service; when the service answers, at the first attempt that does not
    raise, with a text that holds [m] items, the list returned has the
    length of the input: the answer followed by the original items from
    position [m] on when [m] is smaller, its first [n] items when [m] is
    larger. *)
Theorem translate_items_keeps_length :
  translate_items create max_retries [] = (Some [], [])
  /\ (forall items a text,
        items <> [] ->
        (a < Z.to_nat max_retries)%nat ->
        (forall b, (b < a)%nat -> exists e, create (user_prompt items) b = ApiError e) ->
        create (user_prompt items) a = Content text ->
        exists out,
          (translate_items create max_retries items).1 = Some out
          /\ length out = length items
          /\ ((length (parse_reply text) < length items)%nat ->
              out = parse_reply text ++ drop (length (parse_reply text)) items)
          /\ ((length items < length (parse_reply text))%nat ->
              out = take (length items) (parse_reply text))
          /\ (length (parse_reply text) = length items -> out = parse_reply text)).
Proof.
  split; [done|].
  intros items a text Hne Ha Hbefore Hreply.
  exists (repair items (parse_reply text)). split.
  - destruct items as [|x items]; [done|]. unfold translate_items.
    apply (attempt_loop_first_reply _ 0 (Z.to_nat max_retries) a); [lia|done|].
    intros k Hk. apply Hbefore. lia.
  - split; [apply repair_length|].
    split; [apply repair_short|]. split; [apply repair_long|apply repair_same].
Qed.

End TranslateFacts.

Lemma translate_items_keeps_length_witness :
  (Translate.translate_items Examples.one_item_service 3 [Str.py "one"; Str.py "two"]).1
  = Some [Str.py "uno"; Str.py "two"].
Proof.
  destruct (proj2 (translate_items_keeps_length Examples.one_item_service 3)
              [Str.py "one"; Str.py "two"] 1%nat (Str.py " uno --- "))
    as (out & Hout & _ & Hshort & _).
  - discriminate.
  - simpl. lia.
  - intros b Hb. destruct b; [by eexists | lia].
  - reflexivity.
  - rewrite Hout. f_equal. apply Hshort. vm_compute. lia.
Defined.

(** ** Strings and the matcher *)
Section StrFacts.
Import Str.

Lemma startswith_spec p s :
  startswith p s = true <-> exists post, s = p ++ post.
Proof.
  revert s. induction p as [|a p IH]; intros s; simpl.
  - split; [intros _; by exists s | done].
  - destruct s as [|b s]; simpl.
    + split; [done | intros [post H]; discriminate].
    + rewrite andb_true_iff, N.eqb_eq, IH. split.
      * intros [-> [post ->]]. by exists post.
      * intros [post H]. injection H as -> ->. split; [done | by exists post].
Qed.

(** [p in s]: [s] has [p] somewhere. *)
Lemma contains_spec p s :
  contains p s = true <-> exists pre post, s = pre ++ p ++ post.
Proof.
  induction s as [|c s IH]; simpl.
  - rewrite orb_false_r, startswith_spec. split.
    + intros [post H]. by exists [], post.
    + intros (pre & post & H). destruct pre; [by exists post|discriminate].
  - rewrite orb_true_iff, startswith_spec, IH. split.
    + intros [[post H]|(pre & post & H)].
      * by exists [], post.
      * exists (c :: pre), post. by rewrite H.
    + intros (pre & post & H). destruct pre as [|c' pre].
      * left. by exists post.
      * right. injection H as -> ->. by exists pre, post.
Qed.

Lemma contains_false p s :
  contains p s = false <-> forall pre post, s <> pre ++ p ++ post.
Proof.
  rewrite <- not_true_iff_false, contains_spec. split.
  - intros H pre post E. apply H. by exists pre, post.
  - intros H (pre & post & E). by apply (H pre post).
Qed.

Lemma contains_cons_false p c s :
  contains p (c :: s) = false -> startswith p (c :: s) = false /\ contains p s = false.
Proof. cbn [contains]. by rewrite orb_false_iff. Qed.

End StrFacts.

Section MatcherFacts.
Import Str Re.

Lemma strip_prefix_Some l s s' : strip_prefix l s = Some s' <-> s = l ++ s'.
Proof.
  revert s. induction l as [|a l IH]; intros s; simpl.
  - split; [by intros [= ->] | by intros ->].
  - destruct s as [|b s]; [done|].
    destruct (a =? b)%N eqn:E.
    + apply N.eqb_eq in E as ->. rewrite IH. split; [by intros -> | by intros [= ->]].
    + apply N.eqb_neq in E. split; [done | intros [= -> _]; done].
Qed.

Lemma strip_prefix_startswith l s :
  startswith l s = false -> strip_prefix l s = None.
Proof.
  intros H. destruct (strip_prefix l s) as [s'|] eqn:E; [|done].
  apply strip_prefix_Some in E. rewrite <- not_true_iff_false in H.
  destruct H. apply startswith_spec. by exists s'.
Qed.

(** A pattern that begins with a literal matches only where the
    literal is. *)
Lemma match_at_literal_absent l r ma i s :
  startswith l s = false -> match_at (RSeq (RLit l) r) ma i s = None.
Proof.
  intros H. unfold match_at. cbn [run]. by rewrite (strip_prefix_startswith _ _ H).
Qed.

Lemma search_from_literal_absent l r i s :
  contains l s = false -> search_from (RSeq (RLit l) r) i s = None.
Proof.
  revert i. induction s as [|c s IH]; intros i H.
  - cbn [search_from]. rewrite match_at_literal_absent; [done|].
    cbn [contains] in H. by rewrite orb_false_r in H.
  - apply contains_cons_false in H as [H1 H2].
    cbn [search_from]. rewrite match_at_literal_absent by done. by apply IH.
Qed.

Lemma span_le_length cs s : (span cs s <= length s)%nat.
Proof. induction s as [|c s IH]; simpl; [done|]. case_match; simpl; lia. Qed.

Lemma counts_le cs lo hi greedy s k :
  k ∈ counts cs lo hi greedy s -> (k <= span cs s)%nat.
Proof.
  unfold counts.
  set (m := match hi with Some h => Nat.min h (span cs s) | None => span cs s end).
  assert (m <= span cs s)%nat by (unfold m; destruct hi; lia).
  destruct (m <? lo)%nat eqn:E; [by intros ?%elem_of_nil|].
  apply Nat.ltb_ge in E. destruct greedy.
  - rewrite list_elem_of_In, <- in_rev, in_seq. lia.
  - rewrite elem_of_seq. lia.
Qed.

Lemma way_ok_trans i s w1 w2 :
  way_ok i s w1 -> way_ok w1.1.1 w1.1.2 w2 -> way_ok i s w2.
Proof.
  intros (H1 & H2 & H3) (H4 & H5 & H6). rewrite H3 in H5, H6.
  rewrite length_drop in H5. rewrite drop_drop in H6.
  repeat split; [lia|lia|]. rewrite H6. f_equal. lia.
Qed.

Lemma Forall_flat_map {A B} (P : B -> Prop) (f : A -> list B) l :
  Forall (fun x => Forall P (f x)) l -> Forall P (flat_map f l).
Proof.
  induction 1 as [|x l Hx Hl IH]; simpl; [constructor|]. by apply Forall_app.
Qed.

Lemma way_ok_here i s g : way_ok i s (i, s, g).
Proof. unfold way_ok. simpl. rewrite Nat.sub_diag. split; [lia|split; [lia|done]]. Qed.

Lemma run_sound r : forall i s g, Forall (way_ok i s) (run r i s g).
Proof.
  induction r as [|l|cs|cs lo hi greedy|r1 IH1 r2 IH2|r1 IH1 r2 IH2|n r1 IH1|r1 IH1| |];
    intros i s g; cbn [run].
  - apply Forall_singleton, way_ok_here.
  - destruct (strip_prefix l s) as [s'|] eqn:E; [|constructor].
    apply strip_prefix_Some in E as ->. apply Forall_singleton.
    unfold way_ok. simpl. replace (i + length l - i)%nat with (length l) by lia.
    rewrite length_app, drop_app_length. split; [lia|split; [lia|done]].
  - destruct s as [|c s]; [constructor|]. case_match; [|constructor].
    apply Forall_singleton. unfold way_ok. simpl.
    replace (S i - i)%nat with 1%nat by lia. split; [lia|split; [lia|done]].
  - apply Forall_forall. intros w Hw.
    apply list_elem_of_In, in_map_iff in Hw as (k & <- & Hk).
    apply list_elem_of_In, counts_le in Hk. pose proof (span_le_length cs s).
    unfold way_ok. simpl. replace (i + k - i)%nat with k by lia.
    split; [lia|split; [lia|done]].
  - apply Forall_flat_map. eapply Forall_impl; [apply IH1|].
    intros w1 Hw1. eapply Forall_impl; [apply IH2|].
    intros w2 Hw2. by eapply way_ok_trans.
  - apply Forall_app. split; [apply IH1|apply IH2].
  - apply Forall_forall. intros w Hw.
    apply list_elem_of_In, in_map_iff in Hw as (w1 & <- & Hw1).
    pose proof (IH1 i s g) as H. rewrite Forall_forall in H.
    apply (H w1). by apply list_elem_of_In.
  - destruct (run r1 i s g); [constructor|]. apply Forall_singleton, way_ok_here.
  - case_match; [|constructor]. apply Forall_singleton, way_ok_here.
  - destruct s as [|c [|c' s']].
    + apply Forall_singleton, way_ok_here.
    + case_match; [apply Forall_singleton, way_ok_here|constructor].
    + constructor.
Qed.

(** A match found at [i] begins there and does not end before. *)
Lemma match_at_sound r ma i s m :
  match_at r ma i s = Some m ->
  m_start m = i /\ (i <= m_end m)%nat /\ (m_end m - i <= length s)%nat
  /\ m_text m = take (m_end m - i) s.
Proof.
  unfold match_at. destruct (List.find _ _) as [w|] eqn:E; [|done].
  intros [= <-]. simpl. apply find_some in E as [Hw _].
  pose proof (run_sound r i s []) as H. rewrite Forall_forall in H.
  apply list_elem_of_In, H in Hw as (H1 & H2 & _). done.
Qed.

(** The matches of a scan begin at or after the position it starts
    from, and end where they begin or later. *)
Lemma finditer_from_bounds r s :
  forall i k,
    Forall (fun m => (i + k <= m_start m)%nat /\ (m_start m <= m_end m)%nat)
      (finditer_from r i k s).
Proof.
  assert (forall i j (l : list rmatch),
    Forall (fun m => (S i + j <= m_start m)%nat /\ (m_start m <= m_end m)%nat) l ->
    Forall (fun m => (i + 0 <= m_start m)%nat /\ (m_start m <= m_end m)%nat) l) as Hweak.
  { intros i j l H. eapply Forall_impl; [exact H|]. intros m [? ?]. split; lia. }
  assert (forall i m ma t, match_at r ma i t = Some m ->
    (i + 0 <= m_start m)%nat /\ (m_start m <= m_end m)%nat) as Hm.
  { intros i m ma t H. apply match_at_sound in H as (-> & ? & _). split; lia. }
  induction s as [|c s IH]; intros i k; cbn [finditer_from].
  - destruct k; [|constructor].
    destruct (match_at r false i []) as [m|] eqn:E; [|constructor].
    destruct (m_end m =? i)%nat.
    + constructor; [by eapply Hm|].
      destruct (match_at r true i []) as [m'|] eqn:E'; [|constructor].
      constructor; [by eapply Hm|constructor].
    + constructor; [by eapply Hm|constructor].
  - destruct k as [|k].
    + destruct (match_at r false i (c :: s)) as [m|] eqn:E.
      * destruct (m_end m =? i)%nat.
        -- constructor; [by eapply Hm|].
           destruct (match_at r true i (c :: s)) as [m'|] eqn:E'.
           ++ constructor; [by eapply Hm|]. eapply Hweak, IH.
           ++ eapply Hweak, IH.
        -- constructor; [by eapply Hm|]. eapply Hweak, IH.
      * eapply Hweak, IH.
    + eapply Forall_impl; [apply (IH (S i) k)|]. intros m [? ?]. split; lia.
Qed.

(** Passing the characters of a match is starting again after it. *)
Lemma finditer_from_skip r k :
  forall i s, (k <= length s)%nat ->
    finditer_from r i k s = finditer_from r (i + k) 0 (drop k s).
Proof.
  induction k as [|k IH]; intros i s Hk.
  - by rewrite Nat.add_0_r.
  - destruct s as [|c s]; [simpl in Hk; lia|].
    cbn [finditer_from drop]. rewrite IH by (simpl in Hk; lia).
    f_equal. lia.
Qed.

(** A character before the first match stays where it is. *)
Lemma sub_matches_cons repl ms i c s :
  Forall (fun m => (S i + 0 <= m_start m)%nat /\ (m_start m <= m_end m)%nat) ms ->
  sub_matches repl ms i (c :: s) = c :: sub_matches repl ms (S i) s.
Proof.
  destruct ms as [|m ms]; [done|]. intros H.
  apply Forall_cons in H as [[H1 H2] _]. cbn [sub_matches].
  replace (m_start m - i)%nat with (S (m_start m - S i)) by lia.
  replace (m_end m - i)%nat with (S (m_end m - S i)) by lia.
  done.
Qed.

(** [re.search] is the first match of the scan of [findall]. *)
Lemma finditer_from_head r i s :
  head (finditer_from r i 0 s) = search_from r i s.
Proof.
  revert i. induction s as [|c s IH]; intros i; cbn [finditer_from search_from].
  - destruct (match_at r false i []) as [m|]; [|done]. by case_match.
  - destruct (match_at r false i (c :: s)) as [m|]; [by case_match|]. apply IH.
Qed.

Lemma search_head_finditer r s : search r s = head (finditer r s).
Proof. symmetry. apply finditer_from_head. Qed.

Lemma match_at_advances r i s m : match_at r true i s = Some m -> (i < m_end m)%nat.
Proof.
  unfold match_at. destruct (List.find _ _) as [w|] eqn:E; [|done].
  intros [= <-]. simpl. apply find_some in E as [_ Hw].
  simpl in Hw. by apply Nat.ltb_lt in Hw.
Qed.

Lemma in_order_weaken from from' ms :
  (from' <= from)%nat -> in_order from ms -> in_order from' ms.
Proof. destruct ms as [|m ms]; [done|]. simpl. intros ? (? & ? & ?). repeat split; [lia|done..]. Qed.

(** The matches of a scan come in the order of their positions and do
    not overlap. *)
Lemma finditer_from_in_order r s :
  forall i k, in_order (i + k) (finditer_from r i k s).
Proof.
  induction s as [|c s IH]; intros i k; cbn [finditer_from].
  - destruct k; [|done]. rewrite Nat.add_0_r.
    destruct (match_at r false i []) as [m|] eqn:E; [|done].
    destruct (match_at_sound _ _ _ _ _ E) as (Hs & He & _).
    destruct (m_end m =? i)%nat eqn:Ee.
    + apply Nat.eqb_eq in Ee. cbn [in_order]. split; [lia|split; [lia|]].
      destruct (match_at r true i []) as [m'|] eqn:E'; [|done].
      destruct (match_at_sound _ _ _ _ _ E') as (Hs' & He' & _).
      cbn [in_order]. split; [lia|split; [lia|done]].
    + cbn [in_order]. split; [lia|split; [lia|done]].
  - destruct k as [|k].
    + rewrite Nat.add_0_r.
      destruct (match_at r false i (c :: s)) as [m|] eqn:E.
      * destruct (match_at_sound _ _ _ _ _ E) as (Hs & He & _).
        destruct (m_end m =? i)%nat eqn:Ee.
        -- apply Nat.eqb_eq in Ee. cbn [in_order]. split; [lia|split; [lia|]].
           destruct (match_at r true i (c :: s)) as [m'|] eqn:E'.
           ++ destruct (match_at_sound _ _ _ _ _ E') as (Hs' & He' & _).
              apply match_at_advances in E'.
              cbn [in_order]. split; [lia|split; [lia|]].
              eapply in_order_weaken; [|apply IH]. lia.
           ++ eapply in_order_weaken; [|apply IH]. lia.
        -- apply Nat.eqb_neq in Ee. cbn [in_order]. split; [lia|split; [lia|]].
           eapply in_order_weaken; [|apply IH]. lia.
      * eapply in_order_weaken; [|apply IH]. lia.
    + eapply in_order_weaken; [|apply (IH (S i) k)]. lia.
Qed.

(** [re.search] finds the match at the leftmost position that has one. *)
Lemma search_from_leftmost r pre :
  forall i t m,
    (forall j, (j < length pre)%nat ->
       match_at r false (i + j) (drop j (pre ++ t)) = None) ->
    match_at r false (i + length pre) t = Some m ->
    search_from r i (pre ++ t) = Some m.
Proof.
  induction pre as [|c pre IH]; intros i t m Hnone Hm.
  - simpl in Hm. rewrite Nat.add_0_r in Hm. destruct t; simpl; by rewrite Hm.
  - cbn [app search_from].
    pose proof (Hnone 0%nat) as H0. rewrite Nat.add_0_r in H0.
    change (drop 0 ((c :: pre) ++ t)) with (c :: pre ++ t) in H0.
    rewrite H0 by (simpl; lia). apply IH.
    + intros j Hj. specialize (Hnone (S j)).
      replace (i + S j)%nat with (S i + j)%nat in Hnone by lia.
      change (drop (S j) ((c :: pre) ++ t)) with (drop j (pre ++ t)) in Hnone.
      apply Hnone. simpl. lia.
    + by replace (S i + length pre)%nat with (i + length (c :: pre))%nat by (simpl; lia).
Qed.

Lemma span_app_stop cs a c r :
  Forall (fun x => cmatch cs x = true) a -> cmatch cs c = false ->
  span cs (a ++ c :: r) = length a.
Proof.
  intros Ha Hc. induction Ha as [|x a Hx Ha IH]; simpl; [by rewrite Hc|].
  by rewrite Hx, IH.
Qed.

Lemma span_app_end cs a :
  Forall (fun x => cmatch cs x = true) a -> span cs a = length a.
Proof. induction 1 as [|x a Hx Ha IH]; simpl; [done|]. by rewrite Hx, IH. Qed.

Lemma cmatch_not c x : cmatch (CSet true [(c, c)]) x = negb (x =? c)%N.
Proof.
  unfold cmatch, in_ranges. cbn [existsb fst snd]. rewrite orb_false_r.
  destruct (N.eqb_spec x c) as [->|Hne].
  - by rewrite N.leb_refl.
  - destruct (N.leb_spec c x), (N.leb_spec x c); simpl; try done. lia.
Qed.

Lemma Forall_cmatch_not c a :
  c ∉ a -> Forall (fun x => cmatch (CSet true [(c, c)]) x = true) a.
Proof.
  intros H. apply Forall_forall. intros x Hx. rewrite cmatch_not.
  apply negb_true_iff, N.eqb_neq. by intros ->.
Qed.

Lemma flat_map_nil {A B} (f : A -> list B) l :
  (forall x, x ∈ l -> f x = []) -> flat_map f l = [].
Proof.
  induction l as [|x l IH]; intros H; simpl; [done|].
  rewrite H by left. apply IH. intros y Hy. apply H. by right.
Qed.

(** [[^c]*c] takes the text up to the first [c] and the [c]. *)
Lemma run_until_char (c : char) (r : regex) i a rest g :
  c ∉ a ->
  run (RSeq (RRep (CSet true [(c, c)]) 0 None true) (RSeq (RLit [c]) r)) i (a ++ c :: rest) g
  = run r (i + length a + 1) rest g.
Proof.
  intros Ha. cbn [run]. unfold counts.
  rewrite (span_app_stop _ a c rest (Forall_cmatch_not _ _ Ha))
    by (by rewrite cmatch_not, N.eqb_refl).
  cbn [Nat.ltb Nat.leb]. rewrite Nat.sub_0_r, Nat.add_1_r, seq_S, rev_app_distr.
  cbn [rev app map flat_map fst snd].
  rewrite !Nat.add_0_l, drop_app_length. cbn [strip_prefix]. rewrite N.eqb_refl.
  cbn [flat_map fst snd length]. rewrite app_nil_r, flat_map_nil.
  - by rewrite app_nil_r.
  - intros w Hw. apply list_elem_of_In, in_map_iff in Hw as (k & <- & Hk).
    apply in_rev, in_seq in Hk. cbn [fst snd].
    destruct (lookup_lt_is_Some_2 a k) as [x Hx]; [lia|].
    rewrite (drop_S (a ++ c :: rest) x k) by (by rewrite lookup_app_l by lia).
    cbn [strip_prefix].
    destruct (c =? x)%N eqn:E; [|done].
    apply N.eqb_eq in E as ->. destruct Ha. by eapply list_elem_of_lookup_2.
Qed.

(** [([^c]+)] takes all the text up to the next [c], or to the end. *)
Lemma run_text_until (c : char) n i txt rest g :
  txt <> [] -> c ∉ txt -> (rest = [] \/ exists rest', rest = c :: rest') ->
  head (run (RGroup n (RRep (CSet true [(c, c)]) 1 None true)) i (txt ++ rest) g)
  = Some ((i + length txt)%nat, rest, (n, txt) :: g).
Proof.
  intros Hne Hc Hrest. cbn [run]. unfold counts.
  assert (span (CSet true [(c, c)]) (txt ++ rest) = length txt) as ->.
  { destruct Hrest as [->|[rest' ->]].
    - rewrite app_nil_r. by apply span_app_end, Forall_cmatch_not.
    - apply span_app_stop; [by apply Forall_cmatch_not|].
      by rewrite cmatch_not, N.eqb_refl. }
  destruct (length txt) as [|k] eqn:El; [by destruct txt|].
  replace (S k <? 1)%nat with false by (symmetry; apply Nat.ltb_ge; lia).
  replace (S k - 1 + 1)%nat with (S k) by lia.
  rewrite seq_S, rev_app_distr. cbn [rev app map head fst snd].
  replace (i + (1 + k) - i)%nat with (length txt) by lia.
  replace (1 + k)%nat with (length txt) by lia.
  by rewrite drop_app_length, take_app_length, El.
Qed.

Lemma run_seq r1 r2 i s g :
  run (RSeq r1 r2) i s g = flat_map (fun w : way => run r2 w.1.1 w.1.2 w.2) (run r1 i s g).
Proof. done. Qed.

Lemma run_lit_app l rest i g :
  run (RLit l) i (l ++ rest) g = [((i + length l)%nat, rest, g)].
Proof.
  cbn [run].
  by assert (strip_prefix l (l ++ rest) = Some rest) as -> by (by apply strip_prefix_Some).
Qed.

(** A tag with a text, [mark[^>]*>([^<]+)], matches where the mark is
    followed by characters other than [>], a [>] and a text that is not
    empty; group 1 is the text up to the next [<]. *)
Lemma match_at_tag_text mark i attrs txt rest :
  62%N ∉ attrs -> txt <> [] -> 60%N ∉ txt ->
  (rest = [] \/ exists rest', rest = 60%N :: rest') ->
  exists m,
    match_at
      (RSeq (RLit mark)
         (RSeq (RRep (CSet true [(62, 62)%N]) 0 None true)
            (RSeq (RLit [62%N]) (RGroup 1 (RRep (CSet true [(60, 60)%N]) 1 None true)))))
      false i (mark ++ attrs ++ 62%N :: txt ++ rest) = Some m
    /\ m_start m = i /\ group 1 m = txt.
Proof.
  intros Ha Hne Ht Hrest. unfold match_at.
  rewrite run_seq, run_lit_app. cbn [flat_map fst snd]. rewrite app_nil_r.
  rewrite (run_until_char 62%N _ _ attrs (txt ++ rest) [] Ha).
  pose proof (run_text_until 60%N 1 (i + length mark + length attrs + 1) txt rest []
                Hne Ht Hrest) as Hh.
  destruct (run _ _ (txt ++ rest) []) as [|w ws]; [done|].
  injection Hh as ->. cbn [List.find negb orb]. eexists. split; [reflexivity|]. done.
Qed.

End MatcherFacts.

Section ScraperFacts.
Import Str Guide Re Scraper.

Lemma str_eqb_nil_true : str_eqb [] [] = true.
Proof. done. Qed.

Lemma str_eqb_nil s : str_eqb s [] = true <-> s = [].
Proof. unfold str_eqb. by rewrite bool_decide_eq_true. Qed.

Lemma find_section_absent doc sid :
  contains (anchor sid) doc = false -> _find_section_content doc sid = [].
Proof.
  intros H. unfold _find_section_content, search, section_pattern.
  by rewrite search_from_literal_absent.
Qed.

Lemma extract_category_absent doc sid :
  contains (anchor sid) doc = false ->
  _extract_category doc sid = {| severity := []; items := [] |}.
Proof.
  intros H. unfold _extract_category, _extract_category_severity, _extract_category_items.
  by rewrite (find_section_absent _ _ H), str_eqb_nil_true.
Qed.

Lemma category_of_build_guide c imdb_id url doc :
  category_of c (build_guide imdb_id url doc) = _extract_category doc (CATEGORY_IDS c).
Proof. by destruct c. Qed.

Lemma extract_category_raises_absent doc sid :
  contains (anchor sid) doc = false -> _extract_category_raises doc sid = None.
Proof.
  intros H. unfold _extract_category_raises, _extract_category_severity_raises,
    _extract_category_items_raises.
  by rewrite (find_section_absent _ _ H), str_eqb_nil_true.
Qed.

Lemma or_else_None e1 e2 : or_else e1 e2 = None <-> e1 = None /\ e2 = None.
Proof. destruct e1; cbn; intuition congruence. Qed.

(** The record is built if and only if no extractor raises. *)
Lemma build_guide_raises_None doc :
  build_guide_raises doc = None
  <-> _extract_title_raises doc = None
      /\ _extract_content_rating_raises doc = None
      /\ (forall c, _extract_category_raises doc (CATEGORY_IDS c) = None)
      /\ _extract_certifications_raises doc = None.
Proof.
  unfold build_guide_raises. rewrite !or_else_None. split.
  - intros (? & ? & ? & ? & ? & ? & ? & ?). repeat split; try done. by intros [].
  - intros (? & ? & Hc & ?).
    repeat split; try done; apply Hc.
Qed.

(** C2, as the code has it: in a page in which the anchor of a category
    does not occur, the extraction of that category raises nothing and
    gives the empty severity and no items. The record is built unless
    the extraction of another field raises; when it is built, the other
    fields are what their own extractors find in the page, and [scrape],
    once it has the page, returns this record, never [None]. *)
Theorem missing_anchor_gives_empty_category (c : category) (imdb_id url doc : str) :
  (forall pre post, doc <> pre ++ anchor (CATEGORY_IDS c) ++ post) ->
  _extract_category doc (CATEGORY_IDS c) = {| severity := []; items := [] |}
  /\ _extract_category_raises doc (CATEGORY_IDS c) = None
  /\ (build_guide_raises doc = None
      <-> _extract_title_raises doc = None
          /\ _extract_content_rating_raises doc = None
          /\ (forall c', c' <> c -> _extract_category_raises doc (CATEGORY_IDS c') = None)
          /\ _extract_certifications_raises doc = None)
  /\ category_of c (build_guide imdb_id url doc) = {| severity := []; items := [] |}
  /\ title (build_guide imdb_id url doc) = _extract_title doc
  /\ content_rating (build_guide imdb_id url doc) = _extract_content_rating doc
  /\ certifications (build_guide imdb_id url doc) = _extract_certifications doc
  /\ (forall c', c' <> c ->
        category_of c' (build_guide imdb_id url doc)
        = _extract_category doc (CATEGORY_IDS c'))
  /\ (forall session_get max_retries status,
        (Fetch._make_request (session_get (guide_url (with_tt imdb_id))) max_retries).1
        = Some (status, doc) ->
        scrape_raises session_get max_retries imdb_id = build_guide_raises doc
        /\ (build_guide_raises doc = None ->
            exists g, scrape session_get max_retries imdb_id = Some g
              /\ category_of c g = {| severity := []; items := [] |})
        /\ (max_retries = 3 ->
            match Batch.scraper session_get imdb_id with
            | Batch.Returns (Some g) =>
                build_guide_raises doc = None
                /\ category_of c g = {| severity := []; items := [] |}
            | Batch.Returns None => False
            | Batch.Raises e => build_guide_raises doc = Some e
            end)).
Proof.
  intros Habsent. apply contains_false in Habsent.
  assert (forall i u, category_of c (build_guide i u doc)
                      = {| severity := []; items := [] |}) as Hc.
  { intros i u. rewrite category_of_build_guide. by apply extract_category_absent. }
  pose proof (extract_category_raises_absent _ _ Habsent) as Hr.
  split; [by apply extract_category_absent|]. split; [exact Hr|]. split.
  { rewrite build_guide_raises_None. split.
    - intros (? & ? & Hall & ?). split; [done|]. split; [done|]. split; [|done].
      intros c' _. apply Hall.
    - intros (? & ? & Hall & ?). split; [done|]. split; [done|]. split; [|done].
      intros c'. destruct (decide (c' = c)) as [->|Hne]; [exact Hr|by apply Hall]. }
  split; [apply Hc|]. do 3 (split; [done|]). split.
  - intros c' _. apply category_of_build_guide.
  - intros session_get max_retries status Hreq.
    assert (scrape_raises session_get max_retries imdb_id = build_guide_raises doc) as Hsr
      by (unfold scrape_raises; by rewrite Hreq).
    assert (exists g, scrape session_get max_retries imdb_id = Some g
              /\ category_of c g = {| severity := []; items := [] |}) as (g & Hg & Hcg).
    { unfold scrape. rewrite Hreq. eexists. split; [reflexivity|]. apply Hc. }
    split; [exact Hsr|]. split; [intros _; by exists g|].
    intros ->. unfold Batch.scraper. rewrite Hsr, Hg.
    by destruct (build_guide_raises doc).
Qed.

Lemma collect_items_filter ms acc :
  collect_items ms acc
  = acc ++ List.filter (fun t => negb (str_eqb t [])) (map _clean_text ms).
Proof.
  revert acc. induction ms as [|m ms IH]; intros acc; cbn [collect_items map List.filter].
  - by rewrite app_nil_r.
  - destruct (negb (str_eqb (_clean_text m) [])); rewrite IH; [|done].
    by rewrite <- app_assoc.
Qed.

Lemma findall1_head r s :
  head (findall1 r s) = option_map (group 1) (search r s).
Proof.
  rewrite search_head_finditer. unfold findall1. by destruct (finditer r s).
Qed.

Lemma findall1_nil r l : findall1 (RSeq (RLit l) r) [] = [] \/ l = [].
Proof.
  destruct l as [|a l]; [by right|left].
  unfold findall1, finditer. cbn [finditer_from].
  by rewrite match_at_literal_absent.
Qed.

(** [re.search] for a tag with a text finds the first place where the
    mark stands, when the tag is complete there. *)
Lemma search_tag_text mark pre attrs txt rest :
  (forall j, (j < length pre)%nat ->
     startswith mark (drop j (pre ++ mark ++ attrs ++ 62%N :: txt ++ rest)) = false) ->
  62%N ∉ attrs -> txt <> [] -> 60%N ∉ txt ->
  (rest = [] \/ exists rest', rest = 60%N :: rest') ->
  exists m,
    search (RLit mark +++ not_gt +++ RLit (py ">") +++ text1)
      (pre ++ mark ++ attrs ++ 62%N :: txt ++ rest) = Some m
    /\ m_start m = length pre /\ group 1 m = txt.
Proof.
  intros Hpre Ha Hne Ht Hrest.
  destruct (match_at_tag_text mark (0 + length pre) attrs txt rest Ha Hne Ht Hrest)
    as (m & Hm & Hs & Hg).
  exists m. split; [|done]. unfold search. apply search_from_leftmost; [|exact Hm].
  intros j Hj. apply match_at_literal_absent. by apply Hpre.
Qed.

(** C6: in the span of a category, the severity is the text of the first
    of the severity-label matches, normalized, whatever matches follow
    it (the empty string when there is none), and the items are the texts
    of all the item matches, normalized, in their order, without those
    that normalize to the empty string. *)
Theorem category_first_severity_all_items (doc section_id : str) :
  _extract_category_severity doc section_id
  = match findall1 severity_pattern (_find_section_content doc section_id) with
    | first :: _ => _clean_text first
    | [] => []
    end
  /\ _extract_category_items doc section_id
     = List.filter (fun t => negb (str_eqb t []))
         (map _clean_text (findall1 item_pattern (_find_section_content doc section_id)))
  /\ (forall t, t ∈ _extract_category_items doc section_id -> t <> [])
  /\ in_order 0 (finditer item_pattern (_find_section_content doc section_id))
  /\ (forall pre attrs txt rest,
        _find_section_content doc section_id
        = pre ++ py "ipc-signpost__text" ++ attrs ++ 62%N :: txt ++ rest ->
        (forall j, (j < length pre)%nat ->
           startswith (py "ipc-signpost__text")
             (drop j (_find_section_content doc section_id)) = false) ->
        62%N ∉ attrs -> txt <> [] -> 60%N ∉ txt ->
        (rest = [] \/ exists rest', rest = 60%N :: rest') ->
        _extract_category_severity doc section_id = _clean_text txt).
Proof.
  assert (_extract_category_items doc section_id
     = List.filter (fun t => negb (str_eqb t []))
         (map _clean_text (findall1 item_pattern (_find_section_content doc section_id))))
    as Hitems.
  { unfold _extract_category_items.
    destruct (str_eqb (_find_section_content doc section_id) []) eqn:E.
    - apply str_eqb_nil in E. rewrite E.
      destruct (findall1_nil
        (lazy_any +++ RLit (py "ipc-html-content-inner-div") +++ not_gt +++
         RLit (py ">") +++ text1) (py "data-testid=" ++ q "item-html")) as [H|H];
        [|discriminate].
      unfold item_pattern. by rewrite H.
    - by rewrite collect_items_filter. }
  split; [|split; [exact Hitems|split; [|split]]].
  - unfold _extract_category_severity.
    pose proof (findall1_head severity_pattern (_find_section_content doc section_id)) as Hh.
    destruct (str_eqb (_find_section_content doc section_id) []) eqn:E.
    + apply str_eqb_nil in E. rewrite E.
      destruct (findall1_nil (not_gt +++ RLit (py ">") +++ text1)
                  (py "ipc-signpost__text")) as [H|H]; [|discriminate].
      unfold severity_pattern. by rewrite H.
    + destruct (search severity_pattern (_find_section_content doc section_id)) as [m|];
        destruct (findall1 severity_pattern (_find_section_content doc section_id));
        simpl in Hh; by simplify_eq.
  - intros t Ht. rewrite Hitems in Ht.
    apply list_elem_of_In, filter_In in Ht as [_ Ht].
    intros ->. by rewrite str_eqb_nil_true in Ht.
  - apply (finditer_from_in_order item_pattern _ 0 0).
  - intros pre attrs txt rest Hspan Hpre Ha Hne Ht Hrest.
    unfold _extract_category_severity. rewrite Hspan in Hpre |- *.
    destruct (search_tag_text _ pre attrs txt rest Hpre Ha Hne Ht Hrest)
      as (m & Hm & _ & Hg).
    replace (str_eqb (pre ++ py "ipc-signpost__text" ++ attrs ++ 62%N :: txt ++ rest) [])
      with false by (symmetry; apply bool_decide_eq_false; by destruct pre).
    assert (search severity_pattern
              (pre ++ py "ipc-signpost__text" ++ attrs ++ 62%N :: txt ++ rest) = Some m)
      as -> by exact Hm.
    by rewrite Hg.
Qed.

Lemma collect_ratings_filter ms acc :
  collect_ratings ms acc
  = acc ++ List.filter (fun r => negb (str_eqb (rating r) []))
             (map (fun p : str * str =>
                     {| rating := _clean_text p.1; note := _clean_text p.2 |}) ms).
Proof.
  revert acc. induction ms as [|m ms IH]; intros acc;
    cbn [collect_ratings map List.filter rating].
  - by rewrite app_nil_r.
  - destruct (negb (str_eqb (_clean_text m.1) [])); rewrite IH; [|done].
    by rewrite <- app_assoc.
Qed.

Lemma block_country_search block :
  block_country block
  = option_map (fun m => _clean_text (group 1 m)) (search country_pattern block).
Proof.
  unfold block_country.
  pose proof (findall1_head country_pattern block) as H.
  destruct (findall1 country_pattern block), (search country_pattern block);
    simpl in H; by simplify_eq.
Qed.

(** The loop over the blocks keeps the blocks that yield an entry. *)
Lemma collect_certifications_omap blocks acc :
  collect_certifications blocks acc = acc ++ omap block_entry blocks.
Proof.
  revert acc. induction blocks as [|b blocks IH]; intros acc;
    cbn [collect_certifications omap list_omap].
  - by rewrite app_nil_r.
  - unfold block_entry. rewrite block_country_search.
    unfold block_ratings. rewrite <- (app_nil_l (List.filter _ _)), <- collect_ratings_filter.
    destruct (contains (py "certificates-item") b); cbn [negb]; [|apply IH].
    destruct (search country_pattern b) as [m|]; cbn [option_map].
    + destruct (str_eqb (_clean_text (group 1 m)) []); [apply IH|].
      destruct (collect_ratings (findall2 rating_pattern b) []); [apply IH|].
      rewrite IH. by rewrite <- app_assoc.
    + rewrite str_eqb_nil_true. apply IH.
Qed.

Lemma block_entry_Some block it :
  block_entry block = Some it ->
  contains (py "certificates-item") block = true
  /\ block_country block = Some (country it)
  /\ country it <> []
  /\ ratings it = block_ratings block
  /\ ratings it <> [].
Proof.
  unfold block_entry. intros H.
  destruct (contains (py "certificates-item") block); [|done].
  destruct (block_country block) as [c|]; [|done].
  destruct (str_eqb c []) eqn:E; [done|].
  destruct (block_ratings block) as [|r rs] eqn:Er; [done|].
  injection H as <-. simpl. repeat split; try done.
  intros ->. by rewrite str_eqb_nil_true in E.
Qed.

End ScraperFacts.

Lemma missing_anchor_gives_empty_category_witness :
  Scraper.category_of Scraper.profanity_key
    (Scraper.build_guide (Str.py "tt0111161") (Scraper.guide_url (Str.py "tt0111161"))
       Examples.two_category_page)
  = {| Guide.severity := []; Guide.items := [] |}.
Proof.
  refine (proj1 (proj2 (proj2 (proj2
            (missing_anchor_gives_empty_category Scraper.profanity_key _ _ _ _))))).
  apply contains_false. vm_compute. reflexivity.
Defined.

(** C2, refuted as stated: a page without the anchor of a category for
    which [scrape] returns no record: the title holds a decimal reference
    of 4301 digits, on which [html.unescape] raises [ValueError]. *)
Lemma page_without_anchor_can_raise :
  Str.contains (Scraper.anchor (Scraper.CATEGORY_IDS Scraper.sex_nudity_key))
    Examples.overlong_reference_page = false
  /\ Batch.scraper (Examples.movie_server Examples.overlong_reference_page) (Str.py "tt1")
     = Batch.Raises
         (Str.py ("Exceeds the limit (4300 digits) for integer string conversion: "
                  ++ "value has 4301 digits; use sys.set_int_max_str_digits() "
                  ++ "to increase the limit")).
Proof. split; vm_compute; reflexivity. Qed.

Lemma category_first_severity_all_items_witness :
  Scraper._extract_category Examples.two_category_page (Str.py "nudity")
  = {| Guide.severity := Str.py "Mild";
       Guide.items := [Str.py "A kiss"; Str.py "More & more"] |}.
Proof.
  unfold Scraper._extract_category.
  destruct (category_first_severity_all_items Examples.two_category_page (Str.py "nudity"))
    as (-> & -> & _).
  vm_compute. reflexivity.
Defined.

(** ** Text normalization *)
Section CleanTextFacts.
Import Str Guide Re Scraper.

Lemma match_at_whitespace i s :
  match_at whitespace_run false i s =
  match span CSpace s with
  | O => None
  | S n => Some {| m_start := i; m_end := i + S n;
                   m_text := take (i + S n - i) s; m_groups := [] |}
  end.
Proof.
  unfold match_at, whitespace_run. cbn [run]. unfold counts.
  destruct (span CSpace s) as [|n]; [done|].
  replace (S n <? 1)%nat with false by (symmetry; apply Nat.ltb_ge; lia).
  replace (S n - 1 + 1)%nat with (S n) by lia.
  rewrite seq_S, rev_app_distr. cbn [rev app map List.find negb orb fst snd].
  by replace (1 + n)%nat with (S n) by lia.
Qed.

Lemma squeeze_true_span s :
  squeeze true s = squeeze false (drop (span CSpace s) s).
Proof.
  induction s as [|c s IH]; [done|]. cbn [squeeze span cmatch].
  destruct (isspace c) eqn:E; [exact IH|]. cbn [drop squeeze]. by rewrite E.
Qed.

(** The scan for [\s+] with every match replaced by a space squeezes the
    runs of whitespace. *)
Lemma sub_whitespace_from n :
  forall s i, (length s <= n)%nat ->
    sub_matches one_space (finditer_from whitespace_run i 0 s) i s = squeeze false s.
Proof.
  induction n as [|n IH]; intros s i Hn.
  - destruct s; [|simpl in Hn; lia]. cbn [finditer_from]. by rewrite match_at_whitespace.
  - destruct s as [|c s]; [cbn [finditer_from]; by rewrite match_at_whitespace|].
    simpl in Hn. cbn [finditer_from]. rewrite match_at_whitespace.
    cbn [span cmatch squeeze]. destruct (isspace c) eqn:E.
    + cbn [m_end]. replace (i + S (span CSpace s) =? i)%nat with false
        by (symmetry; apply Nat.eqb_neq; lia).
      replace (i + S (span CSpace s) - i - 1)%nat with (span CSpace s) by lia.
      pose proof (span_le_length CSpace s) as Hs.
      rewrite finditer_from_skip by done.
      cbn [sub_matches m_start m_end]. rewrite Nat.sub_diag.
      replace (i + S (span CSpace s) - i)%nat with (S (span CSpace s)) by lia.
      replace (i + S (span CSpace s))%nat with (S i + span CSpace s)%nat by lia.
      cbn [take drop app]. rewrite IH by (rewrite length_drop; lia).
      by rewrite squeeze_true_span.
    + rewrite sub_matches_cons by apply finditer_from_bounds.
      f_equal. apply IH. lia.
Qed.

Lemma sub_whitespace_run s :
  sub whitespace_run one_space s = squeeze false s.
Proof. apply (sub_whitespace_from (length s)). done. Qed.

Lemma drop_while_snoc p l c :
  drop_while p (l ++ [c]) =
  match drop_while p l with
  | [] => if p c then [] else [c]
  | r => r ++ [c]
  end.
Proof.
  induction l as [|a l IH]; [done|]. cbn [app drop_while].
  destruct (p a); [exact IH|done].
Qed.

Lemma rstrip_direct_eq s : rstrip s = rstrip_direct s.
Proof.
  unfold rstrip, lstrip. induction s as [|c s IH]; [done|].
  cbn [rev rstrip_direct]. rewrite drop_while_snoc, <- IH.
  destruct (drop_while isspace (rev s)) as [|a r]; [by destruct (isspace c)|].
  rewrite rev_app_distr. cbn [rev app].
  destruct (rev r ++ [a]) eqn:E; [by destruct (rev r)|done].
Qed.

Lemma single_spaced_squeeze p t : single_spaced p (squeeze p t) = true.
Proof.
  revert p. induction t as [|c t IH]; intros p; [done|]. cbn [squeeze].
  destruct (isspace c) eqn:E.
  - destruct p; [apply IH|]. cbn [single_spaced]. by rewrite IH.
  - cbn [single_spaced]. rewrite E. apply IH.
Qed.

Lemma squeeze_single_spaced p s : single_spaced p s = true -> squeeze p s = s.
Proof.
  revert p. induction s as [|c s IH]; intros p; [done|]. cbn [single_spaced squeeze].
  destruct (isspace c).
  - rewrite !andb_true_iff, N.eqb_eq, negb_true_iff. intros [[-> ->] H].
    by rewrite (IH _ H).
  - intros H. by rewrite (IH _ H).
Qed.

Lemma single_spaced_weaken s : single_spaced true s = true -> single_spaced false s = true.
Proof.
  destruct s as [|c s]; [done|]. cbn [single_spaced].
  destruct (isspace c); [|done]. by rewrite andb_false_r.
Qed.

Lemma lstrip_single_spaced s :
  single_spaced false s = true -> single_spaced false (lstrip s) = true.
Proof.
  unfold lstrip. induction s as [|c s IH]; [done|]. cbn [drop_while].
  destruct (isspace c) eqn:E; [|done]. cbn [single_spaced]. rewrite E.
  rewrite !andb_true_iff. intros [_ H]. by apply IH, single_spaced_weaken.
Qed.

Lemma rstrip_direct_single_spaced p s :
  single_spaced p s = true -> single_spaced p (rstrip_direct s) = true.
Proof.
  revert p. induction s as [|c s IH]; intros p; [done|].
  cbn [single_spaced rstrip_direct]. destruct (isspace c) eqn:E.
  - rewrite !andb_true_iff. intros [[H1 H2] H3]. apply IH in H3.
    destruct (rstrip_direct s) as [|a r]; [done|].
    cbn [single_spaced]. rewrite E, H1, H2. simpl. exact H3.
  - intros H. apply IH in H.
    destruct (rstrip_direct s) as [|a r]; cbn [single_spaced]; by rewrite E.
Qed.

Lemma lstrip_no_lead s : no_lead (lstrip s).
Proof.
  unfold lstrip. induction s as [|c s IH]; [done|]. cbn [drop_while].
  by destruct (isspace c) eqn:E.
Qed.

Lemma no_lead_lstrip s : no_lead s -> lstrip s = s.
Proof. destruct s as [|c s]; [done|]. unfold lstrip. simpl. by intros ->. Qed.

Lemma rstrip_direct_no_lead s : no_lead s -> no_lead (rstrip_direct s).
Proof.
  destruct s as [|c s]; [done|]. cbn [rstrip_direct no_lead]. intros E.
  destruct (rstrip_direct s); [by rewrite E|done].
Qed.

Lemma rstrip_direct_idem s : rstrip_direct (rstrip_direct s) = rstrip_direct s.
Proof.
  induction s as [|c s IH]; [done|]. cbn [rstrip_direct].
  destruct (rstrip_direct s) as [|a r] eqn:E.
  - destruct (isspace c) eqn:Ec; [done|]. cbn [rstrip_direct]. by rewrite Ec.
  - cbn [rstrip_direct] in *. by rewrite IH.
Qed.

(** Collapsing and trimming what was collapsed and trimmed changes
    nothing. *)
Lemma collapse_strip_idem t :
  strip (squeeze false (strip (squeeze false t))) = strip (squeeze false t).
Proof.
  set (u := strip (squeeze false t)).
  assert (single_spaced false u = true) as H1.
  { unfold u, strip. rewrite rstrip_direct_eq.
    apply rstrip_direct_single_spaced, lstrip_single_spaced, single_spaced_squeeze. }
  assert (no_lead u) as H2.
  { unfold u, strip. rewrite rstrip_direct_eq.
    apply rstrip_direct_no_lead, lstrip_no_lead. }
  assert (rstrip u = u) as H3.
  { unfold u, strip. rewrite !rstrip_direct_eq. apply rstrip_direct_idem. }
  rewrite (squeeze_single_spaced _ _ H1). unfold strip.
  by rewrite (no_lead_lstrip _ H2).
Qed.

Lemma contains_char c s : contains [c] s = true <-> c ∈ s.
Proof.
  rewrite contains_spec. split.
  - intros (pre & post & ->). rewrite elem_of_app. right. left.
  - intros H. apply list_elem_of_split in H as (pre & post & ->). by exists pre, post.
Qed.

Lemma unescape_without_ampersand s : 38%N ∉ s -> Html.unescape s = s.
Proof.
  intros H. unfold Html.unescape.
  destruct (contains (py "&") s) eqn:E; [|done].
  by apply contains_char in E.
Qed.

(** C4, as the code has it: collapsing the whitespace and trimming is
    idempotent, and so is the whole normalization on every string whose
    normalized form holds no ampersand or, more generally, is left as it
    is by the entity decoding. *)
Theorem clean_text_idempotent_after_decoding :
  (forall t,
     strip (sub whitespace_run one_space (strip (sub whitespace_run one_space t)))
     = strip (sub whitespace_run one_space t))
  /\ (forall s,
        Html.unescape (_clean_text s) = _clean_text s ->
        _clean_text (_clean_text s) = _clean_text s)
  /\ (forall s, 38%N ∉ _clean_text s -> _clean_text (_clean_text s) = _clean_text s).
Proof.
  assert (forall s, Html.unescape (_clean_text s) = _clean_text s ->
                    _clean_text (_clean_text s) = _clean_text s) as H.
  { intros s Hs. unfold _clean_text at 1. unfold _decode_html_entities. rewrite Hs.
    unfold _clean_text, _decode_html_entities.
    rewrite !sub_whitespace_run. apply collapse_strip_idem. }
  split; [|split; [exact H|]].
  - intros t. rewrite !sub_whitespace_run. apply collapse_strip_idem.
  - intros s Hs. by apply H, unescape_without_ampersand.
Qed.

End CleanTextFacts.

Lemma clean_text_idempotent_after_decoding_witness :
  Scraper._clean_text (Scraper._clean_text [32; 65; 9; 10; 66; 160]%N)
  = Scraper._clean_text [32; 65; 9; 10; 66; 160]%N.
Proof.
  apply (proj2 (proj2 clean_text_idempotent_after_decoding)).
  vm_compute. intros H.
  repeat (apply elem_of_cons in H as [H|H]; [discriminate|]).
  by apply elem_of_nil in H.
Defined.

(** C4, refuted as stated: an escaped ampersand is decoded once more at
    each pass, so the normal form of [&amp;amp;] is not left unchanged. *)
Lemma clean_text_decodes_again :
  Scraper._clean_text (Str.py "&amp;amp;") = Str.py "&amp;"
  /\ Scraper._clean_text (Scraper._clean_text (Str.py "&amp;amp;")) = Str.py "&"
  /\ Scraper._clean_text (Scraper._clean_text (Str.py "&amp;amp;"))
     <> Scraper._clean_text (Str.py "&amp;amp;").
Proof. vm_compute. repeat split. discriminate. Qed.

(* ===================================================================== *)
(** * Part III. Further properties of the code                            *)
(* ===================================================================== *)

(** ** The batch driver *)
Section BatchMore.
Import Str Guide Batch.
Variable scrape : str -> outcome (option ParentalGuide).
Context {disk : Disk}.

Lemma scraped_ids_app t1 t2 : scraped_ids (t1 ++ t2) = scraped_ids t1 ++ scraped_ids t2.
Proof. apply omap_app. Qed.

Lemma saved_indices_app t1 t2 :
  saved_indices (t1 ++ t2) = saved_indices t1 ++ saved_indices t2.
Proof. apply omap_app. Qed.

Lemma sleeps_app t1 t2 : sleeps (t1 ++ t2) = (sleeps t1 + sleeps t2)%nat.
Proof. unfold sleeps. by rewrite List.filter_app, length_app. Qed.

(** What one iteration adds to the trace. *)
Lemma iteration_trace n i id st :
  exists t,
    trace (iteration scrape n i id st) = trace st ++ t
    /\ scraped_ids t = [id]
    /\ saved_indices t = (if (i + 1) mod 10 =? 0 then [i] else [])
    /\ sleeps t = (if i <? Z.of_nat n - 1 then 1%nat else 0%nat).
Proof.
  unfold iteration, pause, save_checkpoint, scrape_one, save_to_json.
  destruct (scrape id) as [[g|]|e], ((i + 1) mod 10 =? 0), (i <? Z.of_nat n - 1);
    try destruct (save id g); cbn [trace]; rewrite <- ?app_assoc; eexists; (split; [reflexivity|]); done.
Qed.

Lemma loop_trace n l :
  forall i st,
    exists t,
      trace (loop scrape n i l st) = trace st ++ t
      /\ scraped_ids t = l
      /\ saved_indices t
         = List.filter (fun j => (j + 1) mod 10 =? 0)
             (map (fun k => i + Z.of_nat k) (seq 0 (length l)))
      /\ sleeps t
         = length (List.filter (fun j => j <? Z.of_nat n - 1)
                     (map (fun k => i + Z.of_nat k) (seq 0 (length l)))).
Proof.
  induction l as [|id l IH]; intros i st.
  - exists []. by rewrite app_nil_r.
  - cbn [loop]. destruct (iteration_trace n i id st) as (t1 & Ht1 & Hs1 & Hc1 & Hp1).
    destruct (IH (i + 1) (iteration scrape n i id st)) as (t2 & Ht2 & Hs2 & Hc2 & Hp2).
    exists (t1 ++ t2). rewrite Ht2, Ht1, <- app_assoc. split; [done|].
    rewrite scraped_ids_app, saved_indices_app, sleeps_app, Hs1, Hs2, Hc1, Hc2, Hp1, Hp2.
    cbn [length seq map List.filter]. rewrite <- seq_shift, map_map.
    rewrite Z.add_0_r.
    assert (map (fun k => i + 1 + Z.of_nat k) (seq 0 (length l))
            = map (fun k => i + Z.of_nat (S k)) (seq 0 (length l))) as ->.
    { apply map_ext. intros k. lia. }
    split; [done|].
    split; [by destruct ((i + 1) mod 10 =? 0)|by destruct (i <? Z.of_nat n - 1)].
Qed.

Lemma startup_shape d s s0 st0 :
  startup d s = Returns (s0, st0) ->
  dir st0 = d /\ scraped_ids (trace st0) = [] /\ saved_indices (trace st0) = []
  /\ sleeps (trace st0) = 0%nat.
Proof.
  unfold startup. destruct (checkpoint d) as [[| | |li rs fs]|]; destruct (s =? 0);
    intros H; simplify_eq; done.
Qed.

Lemma finalize_trace n st :
  exists t, trace (finalize n st) = trace st ++ t
    /\ scraped_ids t = [] /\ saved_indices t = [] /\ sleeps t = 0%nat.
Proof. unfold finalize. case_match; eexists; (split; [reflexivity|]); done. Qed.

(** X1. From the index a run starts at, every id is scraped exactly
    once, in the order of the input, whatever the outcomes: no failure
    stops the run, and each id scraped adds one entry to [results] or to
    [failed]. *)
Theorem every_id_scraped_once_in_order ids d s s0 st0 :
  startup d s = Returns (s0, st0) ->
  exists st,
    batch_scrape scrape ids d s = Finished st
    /\ scraped_ids (trace st) = slice_from s0 ids
    /\ (length (results st) + length (failed st)
        = length (results st0) + length (failed st0) + length (slice_from s0 ids))%nat.
Proof.
  intros Hst. destruct (startup_shape _ _ _ _ Hst) as (_ & Hs0 & _).
  unfold batch_scrape. rewrite Hst. eexists. split; [reflexivity|].
  destruct (finalize_trace (length ids)
              (loop scrape (length ids) s0 (slice_from s0 ids) st0)) as (t2 & -> & H2 & _).
  destruct (loop_trace (length ids) (slice_from s0 ids) s0 st0) as (t1 & -> & H1 & _).
  rewrite !scraped_ids_app, Hs0, H1, H2, app_nil_r. split; [done|].
  rewrite finalize_results, finalize_failed, loop_results, loop_failed, !length_app.
  pose proof (entries_permutation scrape (slice_from s0 ids)) as Hp.
  apply Permutation_length in Hp. rewrite length_app, !length_map in Hp. lia.
Qed.


Lemma find_filter_implied {A} (p q : A -> bool) (l : list A) :
  (forall x, p x = true -> q x = true) ->
  List.find p (List.filter q l) = List.find p l.
Proof.
  intros H. induction l as [|x l IH]; [done|]. cbn [List.filter List.find].
  destruct (p x) eqn:Ep.
  - rewrite (H x Ep). cbn [List.find]. by rewrite Ep.
  - destruct (q x); [cbn [List.find]; by rewrite Ep|done].
Qed.

Lemma stdpp_filter_bool {A} (P : A -> Prop) `{!forall x, Decision (P x)} (l : list A) :
  filter P l = List.filter (fun x => bool_decide (P x)) l.
Proof.
  induction l as [|x l IH]; [done|]. cbn [List.filter]. rewrite filter_cons, IH.
  destruct (decide (P x)); [by rewrite bool_decide_eq_true_2|by rewrite bool_decide_eq_false_2].
Qed.

(** Saving a guide changes the file of its id and no other. *)
Lemma guide_file_save id id' g d :
  guide_file id' (save_to_json id g d).2
  = if decide (id' = id)
    then match save id g with
         | Saved => Some g
         | NotOpened _ => guide_file id' d
         | Broken _ => None
         end
    else guide_file id' d.
Proof.
  assert (forall gs, guide_file id' (set_guides gs d)
                     = option_map snd (List.find (fun e : str * ParentalGuide => str_eqb e.1 id') gs))
    as Hset by done.
  assert (id' <> id ->
          List.find (fun e : str * ParentalGuide => str_eqb e.1 id')
            (filter (fun e : str * ParentalGuide => e.1 <> id) (guides d))
          = List.find (fun e : str * ParentalGuide => str_eqb e.1 id') (guides d)) as Hother.
  { intros Hne. rewrite stdpp_filter_bool, find_filter_implied; [done|].
    intros x Hx. apply bool_decide_eq_true in Hx. apply bool_decide_eq_true_2. congruence. }
  assert (List.find (fun e : str * ParentalGuide => str_eqb e.1 id)
            (filter (fun e : str * ParentalGuide => e.1 <> id) (guides d)) = None) as Hgone.
  { destruct (List.find (fun e : str * ParentalGuide => str_eqb e.1 id)
                (filter (fun e : str * ParentalGuide => e.1 <> id) (guides d)))
      as [x|] eqn:E; [|done].
    apply find_some in E as [Hin Hx].
    apply list_elem_of_In, list_elem_of_filter in Hin as [Hne _].
    apply bool_decide_eq_true in Hx. done. }
  unfold save_to_json. destruct (decide (id' = id)) as [->|Hne].
  - destruct (save id g); cbn [snd]; rewrite ?Hset; [|done|by rewrite Hgone].
    cbn [List.find fst]. unfold str_eqb. by rewrite bool_decide_eq_true_2.
  - destruct (save id g); cbn [snd]; rewrite ?Hset; [|done|by rewrite Hother].
    cbn [List.find fst].
    assert (str_eqb id id' = false) as ->
      by (unfold str_eqb; apply bool_decide_eq_false_2; congruence).
    by rewrite Hother.
Qed.

Lemma guide_file_iteration n i id id' st :
  guide_file id' (dir (iteration scrape n i id st))
  = if decide (id' = id)
    then match file_after scrape id with
         | Some f => f
         | None => guide_file id' (dir st)
         end
    else guide_file id' (dir st).
Proof.
  assert (guide_file id' (dir (scrape_one scrape id st))
          = if decide (id' = id)
            then match file_after scrape id with
                 | Some f => f
                 | None => guide_file id' (dir st)
                 end
            else guide_file id' (dir st)) as H.
  { unfold scrape_one, file_after. destruct (scrape id) as [[g|]|e].
    - pose proof (guide_file_save id id' g (dir st)) as Hsave.
      unfold save_to_json in Hsave |- *.
      destruct (save id g); cbn [dir snd] in Hsave |- *; rewrite Hsave;
        by destruct (decide (id' = id)).
    - by destruct (decide (id' = id)).
    - by destruct (decide (id' = id)). }
  unfold iteration, pause, save_checkpoint.
  destruct (i <? Z.of_nat n - 1), ((i + 1) mod 10 =? 0); exact H.
Qed.

(** After the loop the file of an id in the list is as its [try] block
    leaves it; the file of any other id is as before. *)
Lemma guide_file_loop n l :
  forall i st id',
    guide_file id' (dir (loop scrape n i l st))
    = if bool_decide (id' ∈ l)
      then match file_after scrape id' with
           | Some f => f
           | None => guide_file id' (dir st)
           end
      else guide_file id' (dir st).
Proof.
  induction l as [|id l IH]; intros i st id'; cbn [loop]; [done|].
  rewrite IH, guide_file_iteration.
  destruct (decide (id' = id)) as [->|Hne].
  - rewrite (bool_decide_eq_true_2 (id ∈ id :: l)) by left.
    destruct (file_after scrape id); by case_bool_decide.
  - destruct (bool_decide (id' ∈ l)) eqn:E.
    + apply bool_decide_eq_true in E.
      by rewrite (bool_decide_eq_true_2 (id' ∈ id :: l)) by (by right).
    + apply bool_decide_eq_false in E.
      rewrite (bool_decide_eq_false_2 (id' ∈ id :: l)); [done|].
      intros [?|?]%elem_of_cons; done.
Qed.

Lemma finalize_guides n st : guides (dir (finalize n st)) = guides (dir st).
Proof. unfold finalize. by case_match. Qed.

(** X3. The guide files when a run is over. An id of the run whose
    guide came back and was written has its file, which holds that
    guide, so that every new entry of [results] has a file with its
    title. If [save_to_json] raised for it, the id has an entry in
    [failed] with the text of the exception and no entry in [results];
    its file is as the run found it when it could not be opened, and
    holds no guide when the writing broke off. The file of any other id
    is as the run found it. *)
Theorem one_file_per_scraped_guide ids d s s0 st0 :
  startup d s = Returns (s0, st0) ->
  exists st,
    batch_scrape scrape ids d s = Finished st
    /\ (forall id g,
          id ∈ slice_from s0 ids -> scrape id = Returns (Some g) -> save id g = Saved ->
          guide_file id (dir st) = Some g)
    /\ (forall id g e,
          id ∈ slice_from s0 ids -> scrape id = Returns (Some g) ->
          save id g = NotOpened e \/ save id g = Broken e ->
          {| f_imdb_id := id; f_error := e |} ∈ failed st
          /\ (forall entry, entry ∈ flat_map (result_of scrape) (slice_from s0 ids) ->
                r_imdb_id entry <> id)
          /\ guide_file id (dir st)
             = match save id g with
               | Broken _ => None
               | _ => guide_file id d
               end)
    /\ (forall id,
          id ∉ slice_from s0 ids \/ file_after scrape id = None ->
          guide_file id (dir st) = guide_file id d)
    /\ (forall entry,
          entry ∈ flat_map (result_of scrape) (slice_from s0 ids) ->
          exists g, guide_file (r_imdb_id entry) (dir st) = Some g /\ title g = r_title entry).
Proof.
  intros Hst. destruct (startup_shape _ _ _ _ Hst) as (Hd & _).
  unfold batch_scrape. rewrite Hst. eexists. split; [reflexivity|].
  assert (forall id,
    guide_file id (dir (finalize (length ids)
                          (loop scrape (length ids) s0 (slice_from s0 ids) st0)))
    = if bool_decide (id ∈ slice_from s0 ids)
      then match file_after scrape id with
           | Some f => f
           | None => guide_file id d
           end
      else guide_file id d) as Hfile.
  { intros id. unfold guide_file at 1. rewrite finalize_guides.
    fold (guide_file id (dir (loop scrape (length ids) s0 (slice_from s0 ids) st0))).
    by rewrite guide_file_loop, Hd. }
  assert (forall id g, id ∈ slice_from s0 ids -> scrape id = Returns (Some g) ->
    save id g = Saved ->
    guide_file id (dir (finalize (length ids)
                          (loop scrape (length ids) s0 (slice_from s0 ids) st0))) = Some g)
    as Hgood.
  { intros id g Hin Hg Hs. rewrite Hfile, bool_decide_eq_true_2 by done.
    unfold file_after. by rewrite Hg, Hs. }
  assert (forall entry id,
            entry ∈ result_of scrape id ->
            exists g, scrape id = Returns (Some g) /\ save id g = Saved
                      /\ r_imdb_id entry = id /\ r_title entry = title g) as Hentry.
  { intros entry id He. unfold result_of in He.
    destruct (scrape id) as [[g|]|msg]; [|by apply elem_of_nil in He..].
    destruct (save id g) eqn:Es; [|by apply elem_of_nil in He..].
    apply list_elem_of_singleton in He as ->. by exists g. }
  split; [exact Hgood|]. split; [|split].
  - intros id g e Hin Hg Hs. split; [|split].
    + rewrite finalize_failed, loop_failed. apply elem_of_app. right.
      apply list_elem_of_In, in_flat_map. exists id. split; [by apply list_elem_of_In|].
      unfold failure_of. rewrite Hg. destruct Hs as [-> | ->]; by left.
    + intros entry He Hid. apply list_elem_of_In, in_flat_map in He as (id' & _ & He).
      apply list_elem_of_In, Hentry in He as (g' & Hg' & Hs' & Hid' & _).
      assert (id' = id) as -> by congruence. rewrite Hg in Hg'. injection Hg' as <-.
      destruct Hs as [Hs|Hs]; congruence.
    + rewrite Hfile, bool_decide_eq_true_2 by done. unfold file_after. rewrite Hg.
      by destruct Hs as [-> | ->].
  - intros id [Hin|Hnone]; rewrite Hfile.
    + by rewrite bool_decide_eq_false_2.
    + rewrite Hnone. by case_bool_decide.
  - intros entry He. apply list_elem_of_In, in_flat_map in He as (id & Hin & He).
    apply list_elem_of_In, Hentry in He as (g & Hg & Hs & <- & ->).
    exists g. split; [|done]. apply Hgood; [by apply list_elem_of_In|done|done].
Qed.

Lemma seq_filter_below (m : nat) (len : nat) :
  length (List.filter (fun j => j <? Z.of_nat m)
            (map (fun k => 0 + Z.of_nat k) (seq 0 len)))
  = Nat.min len m.
Proof.
  induction len as [|len IH]; [done|].
  rewrite seq_S, map_app, List.filter_app, length_app, IH. cbn [map List.filter].
  destruct (Z.ltb_spec (0 + Z.of_nat (0 + len)) (Z.of_nat m)); cbn [length]; lia.
Qed.

(** X4. A run from index 0 pauses between two ids and not after the
    last: it sleeps once less than there are ids, and not at all when
    there is one id or none. *)
Theorem one_pause_between_ids ids d :
  checkpoint d = None ->
  exists st,
    batch_scrape scrape ids d 0 = Finished st
    /\ sleeps (trace st) = Nat.pred (length ids).
Proof.
  intros Hc. unfold batch_scrape, startup. rewrite Hc. eexists. split; [reflexivity|].
  destruct (finalize_trace (length ids)
              (loop scrape (length ids) 0 (slice_from 0 ids)
                 {| results := []; failed := []; dir := d; trace := [] |}))
    as (t2 & -> & _ & _ & H2).
  destruct (loop_trace (length ids) (slice_from 0 ids) 0
              {| results := []; failed := []; dir := d; trace := [] |})
    as (t1 & -> & _ & _ & H1).
  rewrite !sleeps_app, H1, H2. cbn [trace sleeps List.filter length].
  change (slice_from 0 ids) with ids.
  destruct ids as [|x ids]; [done|].
  replace (Z.of_nat (length (x :: ids)) - 1) with (Z.of_nat (length ids))
    by (cbn [length]; lia).
  rewrite seq_filter_below. cbn [length Nat.pred]. lia.
Qed.

End BatchMore.

Lemma every_id_scraped_once_in_order_witness :
  exists st,
    Batch.batch_scrape Examples.scrape_none [Str.py "tt1"; Str.py "tt2"; Str.py "tt3"]
      Batch.empty_dir 1 = Batch.Finished st
    /\ Batch.scraped_ids (Batch.trace st) = [Str.py "tt2"; Str.py "tt3"].
Proof.
  destruct (every_id_scraped_once_in_order Examples.scrape_none
              [Str.py "tt1"; Str.py "tt2"; Str.py "tt3"] Batch.empty_dir 1 _ _ eq_refl)
    as (st & H1 & H2 & _).
  exists st. split; [exact H1|exact H2].
Defined.


Lemma one_file_per_scraped_guide_witness :
  exists st,
    Batch.batch_scrape (Batch.scraper (Examples.movie_server Examples.two_category_page))
      [Str.py "tt0111161"] Batch.empty_dir 0 = Batch.Finished st
    /\ option_map Guide.title (Batch.guide_file (Str.py "tt0111161") (Batch.dir st))
       = Some (Str.py "The Movie").
Proof.
  destruct (one_file_per_scraped_guide
              (Batch.scraper (Examples.movie_server Examples.two_category_page))
              [Str.py "tt0111161"] Batch.empty_dir 0 _ _ eq_refl)
    as (st & H1 & H2 & _).
  exists st. split; [exact H1|].
  rewrite (H2 (Str.py "tt0111161") _ ltac:(left) eq_refl eq_refl).
  vm_compute. reflexivity.
Defined.

Lemma one_pause_between_ids_witness :
  exists st,
    Batch.batch_scrape Examples.scrape_none [Str.py "tt1"; Str.py "tt2"; Str.py "tt3"]
      Batch.empty_dir 0 = Batch.Finished st
    /\ Batch.sleeps (Batch.trace st) = 2%nat.
Proof.
  apply (one_pause_between_ids Examples.scrape_none
           [Str.py "tt1"; Str.py "tt2"; Str.py "tt3"] Batch.empty_dir).
  reflexivity.
Defined.

Section BatchEdges.
Import Str Guide Batch.
Variable scrape : str -> outcome (option ParentalGuide).
Context {disk : Disk}.

Lemma finished_run ids d s st :
  batch_scrape scrape ids d s = Finished st ->
  exists s0 st0,
    startup d s = Returns (s0, st0)
    /\ st = finalize (length ids) (loop scrape (length ids) s0 (slice_from s0 ids) st0).
Proof.
  unfold batch_scrape. destruct (startup d s) as [[s0 st0]|e]; [|done].
  intros [= <-]. by exists s0, st0.
Qed.

(** X5. A finished run leaves no checkpoint behind, so the next run
    with [start_index = 0] does not go on from it: it scrapes every id
    again from index 0; after a run that itself began from scratch it
    ends with the same lists and the same summary. *)
Theorem finished_run_is_not_remembered ids d s st1 :
  batch_scrape scrape ids d s = Finished st1 ->
  checkpoint (dir st1) = None
  /\ exists st2,
       batch_scrape scrape ids (dir st1) 0 = Finished st2
       /\ scraped_ids (trace st2) = ids
       /\ results st2 = flat_map (result_of scrape) ids
       /\ failed st2 = flat_map (failure_of scrape) ids
       /\ (checkpoint d = None -> s = 0 ->
           results st2 = results st1 /\ failed st2 = failed st1
           /\ scrape_summary (dir st2) = scrape_summary (dir st1)).
Proof.
  intros H1. destruct (finished_run _ _ _ _ H1) as (s0 & st0 & Hst & ->).
  assert (checkpoint (dir (finalize (length ids)
            (loop scrape (length ids) s0 (slice_from s0 ids) st0))) = None) as Hc
    by apply finalize_checkpoint.
  split; [exact Hc|].
  destruct (fresh_run scrape ids _ Hc) as (st2 & H2 & Hr & Hf & Hs).
  exists st2. split; [exact H2|]. split; [|split; [exact Hr|split; [exact Hf|]]].
  - apply finished_run in H2 as (s2 & st2' & Hst2 & ->).
    unfold startup in Hst2. rewrite Hc in Hst2. injection Hst2 as <- <-.
    destruct (finalize_trace (length ids)
                (loop scrape (length ids) 0 (slice_from 0 ids)
                   {| results := []; failed := [];
                      dir := dir (finalize (length ids)
                               (loop scrape (length ids) s0 (slice_from s0 ids) st0));
                      trace := [] |})) as (t2 & -> & Ht2 & _).
    destruct (loop_trace scrape (length ids) (slice_from 0 ids) 0
                {| results := []; failed := [];
                   dir := dir (finalize (length ids)
                            (loop scrape (length ids) s0 (slice_from s0 ids) st0));
                   trace := [] |}) as (t1 & -> & Ht1 & _).
    by rewrite !scraped_ids_app, Ht1, Ht2, app_nil_r.
  - intros Hd ->. unfold startup in Hst. rewrite Hd in Hst. injection Hst as <- <-.
    rewrite Hr, Hf, Hs, finalize_results, finalize_failed, finalize_summary.
    by rewrite loop_results, loop_failed.
Qed.

(** X6. A start index outside the list: at or past the end nothing is
    scraped and the summary counts no entry but still gives the whole
    length as [total]; below zero the slice counts from the end, so the
    last [-start_index] ids are scraped (all of them when there are
    fewer). *)
Theorem start_index_outside_the_list ids d s :
  (0 < s -> Z.of_nat (length ids) <= s ->
   exists st,
     batch_scrape scrape ids d s = Finished st
     /\ scraped_ids (trace st) = []
     /\ scrape_summary (dir st)
        = Some {| total := length ids; success := 0; failed_count := 0; s_failed := [] |})
  /\ (s < 0 ->
      exists st,
        batch_scrape scrape ids d s = Finished st
        /\ scraped_ids (trace st) = drop (length ids - Z.to_nat (- s)) ids
        /\ results st = flat_map (result_of scrape) (drop (length ids - Z.to_nat (- s)) ids)
        /\ failed st = flat_map (failure_of scrape) (drop (length ids - Z.to_nat (- s)) ids)).
Proof.
  assert (s <> 0 ->
          startup d s = Returns (s, {| results := []; failed := []; dir := d; trace := [] |}))
    as Hst.
  { intros Hs. unfold startup. replace (s =? 0) with false by lia. by destruct (checkpoint d). }
  assert (forall l,
    scraped_ids (trace (finalize (length ids)
       (loop scrape (length ids) s l
          {| results := []; failed := []; dir := d; trace := [] |}))) = l) as Htr.
  { intros l.
    destruct (finalize_trace (length ids)
                (loop scrape (length ids) s l
                   {| results := []; failed := []; dir := d; trace := [] |}))
      as (t2 & -> & Ht2 & _).
    destruct (loop_trace scrape (length ids) l s
                {| results := []; failed := []; dir := d; trace := [] |})
      as (t1 & -> & Ht1 & _).
    by rewrite !scraped_ids_app, Ht1, Ht2, app_nil_r. }
  split.
  - intros Hpos Hge. unfold batch_scrape. rewrite Hst by lia.
    eexists. split; [reflexivity|].
    assert (slice_from s ids = []) as ->.
    { rewrite slice_from_nonneg by lia. apply drop_ge. lia. }
    rewrite Htr. split; [done|]. by rewrite finalize_summary.
  - intros Hneg. unfold batch_scrape. rewrite Hst by lia.
    eexists. split; [reflexivity|].
    assert (slice_from s ids = drop (length ids - Z.to_nat (- s)) ids) as ->.
    { unfold slice_from. replace (s <? 0) with true by lia. f_equal. lia. }
    rewrite Htr, finalize_results, finalize_failed, loop_results, loop_failed. done.
Qed.

Ltac by_tens m :=
  pose proof (Nat.div_mod_eq m 10); pose proof (Nat.mod_upper_bound m 10).

Lemma tenth_indices (n : nat) :
  List.filter (fun j => (j + 1) mod 10 =? 0) (map (fun k => 0 + Z.of_nat k) (seq 0 n))
  = map (fun k => 10 * Z.of_nat k + 9) (seq 0 (n / 10)).
Proof.
  induction n as [|n IH]; [done|].
  rewrite seq_S, map_app, List.filter_app, IH. cbn [map List.filter].
  destruct (Z.eqb_spec ((0 + Z.of_nat (0 + n) + 1) mod 10) 0) as [E|E].
  - assert (S n / 10 = S (n / 10))%nat as ->.
    { by_tens (S n). by_tens n. Z.div_mod_to_equations. lia. }
    rewrite seq_S, map_app. cbn [map]. do 2 f_equal.
    by_tens (S n). by_tens n. Z.div_mod_to_equations. lia.
  - assert (S n / 10 = n / 10)%nat as ->.
    { by_tens (S n). by_tens n. Z.div_mod_to_equations. lia. }
    by rewrite app_nil_r.
Qed.

(** X7. A run from index 0 writes the checkpoint after every tenth id
    and at no other time: at the indices 9, 19, 29, ..., once for every
    full ten of the input. *)
Theorem checkpoint_after_every_tenth_id ids d :
  checkpoint d = None ->
  exists st,
    batch_scrape scrape ids d 0 = Finished st
    /\ saved_indices (trace st)
       = map (fun k => 10 * Z.of_nat k + 9) (seq 0 (length ids / 10)).
Proof.
  intros Hc. unfold batch_scrape, startup. rewrite Hc. eexists. split; [reflexivity|].
  destruct (finalize_trace (length ids)
              (loop scrape (length ids) 0 (slice_from 0 ids)
                 {| results := []; failed := []; dir := d; trace := [] |}))
    as (t2 & -> & _ & H2 & _).
  destruct (loop_trace scrape (length ids) (slice_from 0 ids) 0
              {| results := []; failed := []; dir := d; trace := [] |})
    as (t1 & -> & _ & H1 & _).
  rewrite !saved_indices_app, H1, H2, app_nil_r. change (slice_from 0 ids) with ids.
  apply tenth_indices.
Qed.


End BatchEdges.



Lemma finished_run_is_not_remembered_witness :
  exists st2,
    Batch.batch_scrape Examples.scrape_none [Str.py "tt1"; Str.py "tt2"]
      (Batch.dir (Batch.finalize 2
         (Batch.loop Examples.scrape_none 2 0 [Str.py "tt1"; Str.py "tt2"]
            {| Batch.results := []; Batch.failed := []; Batch.dir := Batch.empty_dir;
               Batch.trace := [] |}))) 0 = Batch.Finished st2
    /\ Batch.scraped_ids (Batch.trace st2) = [Str.py "tt1"; Str.py "tt2"].
Proof.
  destruct (finished_run_is_not_remembered Examples.scrape_none
              [Str.py "tt1"; Str.py "tt2"] Batch.empty_dir 0 _ eq_refl)
    as (_ & st2 & H1 & H2 & _).
  exists st2. split; [exact H1|exact H2].
Defined.

Lemma start_index_outside_the_list_witness :
  exists st,
    Batch.batch_scrape Examples.scrape_none [Str.py "tt1"; Str.py "tt2"; Str.py "tt3"]
      Batch.empty_dir (-2) = Batch.Finished st
    /\ Batch.scraped_ids (Batch.trace st) = [Str.py "tt2"; Str.py "tt3"].
Proof.
  destruct (proj2 (start_index_outside_the_list Examples.scrape_none
                     [Str.py "tt1"; Str.py "tt2"; Str.py "tt3"] Batch.empty_dir (-2))
              ltac:(lia))
    as (st & H1 & H2 & _).
  exists st. split; [exact H1|exact H2].
Defined.

Lemma checkpoint_after_every_tenth_id_witness :
  exists st,
    Batch.batch_scrape Examples.scrape_none (replicate 25 (Str.py "tt1")) Batch.empty_dir 0
    = Batch.Finished st
    /\ Batch.saved_indices (Batch.trace st) = [9; 19].
Proof.
  apply (checkpoint_after_every_tenth_id Examples.scrape_none
           (replicate 25 (Str.py "tt1")) Batch.empty_dir).
  reflexivity.
Defined.

(** ** The request loop *)
Section FetchMore.
Import Str Fetch.
Variable session_get : nat -> attempt_outcome.
Variable max_retries : Z.

Lemma waited_app t1 t2 : waited (t1 ++ t2) = waited t1 + waited t2.
Proof.
  induction t1 as [|e t1 IH]; [done|]. cbn [app waited fold_right] in *.
  fold (waited (t1 ++ t2)). fold (waited t1). rewrite IH. destruct e; lia.
Qed.

Lemma waited_backoff a :
  waited (backoff max_retries a)
  = if Z.of_nat a <? max_retries - 1 then Z.of_nat a + 1 else 0.
Proof. unfold backoff. case_match; simpl; lia. Qed.

(** What an attempt that does not return adds to the waiting. *)
Lemma request_loop_waited a rest :
  is_ok (session_get a) = false ->
  waited (request_loop session_get max_retries (a :: rest)).2
  = (if is_429 (session_get a) then Z.of_nat a + 2 else 0)
    + (if Z.of_nat a <? max_retries - 1 then Z.of_nat a + 1 else 0)
    + waited (request_loop session_get max_retries rest).2.
Proof.
  intros H. cbn [request_loop]. destruct (session_get a) as [c text|msg]; cbn [is_ok is_429] in *.
  - rewrite H. destruct (request_loop session_get max_retries rest) as [r t]. cbn [snd].
    change (EvGet a :: ?l) with ([EvGet a] ++ l). rewrite !waited_app, waited_backoff.
    destruct (Z.eqb_spec c 403) as [->|?]; [simpl; lia|].
    destruct (c =? 429); simpl; lia.
  - destruct (request_loop session_get max_retries rest) as [r t]. cbn [snd].
    change (EvGet a :: ?l) with ([EvGet a] ++ l). rewrite !waited_app, waited_backoff.
    simpl. lia.
Qed.

Lemma waited_all_fail (extra : bool) n :
  forall b,
    Z.of_nat b + Z.of_nat (S n) = max_retries ->
    (forall a, (b <= a < b + S n)%nat ->
       is_ok (session_get a) = false /\ is_429 (session_get a) = extra) ->
    2 * waited (request_loop session_get max_retries (seq b (S n))).2
    = max_retries * (max_retries - 1) - Z.of_nat b * (Z.of_nat b + 1)
      + (if extra
         then (max_retries + 1) * (max_retries + 2) - (Z.of_nat b + 1) * (Z.of_nat b + 2)
         else 0).
Proof.
  induction n as [|n IH]; intros b Hb Hall.
  - cbn [seq]. destruct (Hall b) as [H1 H2]; [lia|].
    rewrite (request_loop_waited _ _ H1), H2. cbn [request_loop snd waited fold_right].
    replace (Z.of_nat b <? max_retries - 1) with false by lia.
    destruct extra; nia.
  - cbn [seq]. destruct (Hall b) as [H1 H2]; [lia|].
    rewrite (request_loop_waited _ _ H1), H2.
    replace (Z.of_nat b <? max_retries - 1) with true by lia.
    specialize (IH (S b)). cbn [seq] in IH.
    rewrite Z.mul_add_distr_l, IH; [|lia|intros a Ha; apply Hall; lia].
    destruct extra; nia.
Qed.

Lemma sleep_factors_app t1 t2 : Fetch.sleep_factors (t1 ++ t2) = Fetch.sleep_factors t1 ++ Fetch.sleep_factors t2.
Proof. apply omap_app. Qed.

(** What an attempt that does not return adds to the sleeps. *)
Lemma request_loop_sleep_factors a rest :
  is_ok (session_get a) = false ->
  Fetch.sleep_factors (request_loop session_get max_retries (a :: rest)).2
  = (if is_429 (session_get a) then [Z.of_nat a + 2] else [])
    ++ (if Z.of_nat a <? max_retries - 1 then [Z.of_nat a + 1] else [])
    ++ Fetch.sleep_factors (request_loop session_get max_retries rest).2.
Proof.
  intros H. cbn [request_loop]. unfold backoff.
  destruct (session_get a) as [c text|msg]; cbn [is_ok is_429] in *.
  - rewrite H. destruct (request_loop session_get max_retries rest) as [r t]. cbn [snd].
    change (EvGet a :: ?l) with ([EvGet a] ++ l). rewrite !sleep_factors_app.
    destruct (Z.eqb_spec c 403) as [->|?]; [by destruct (Z.of_nat a <? max_retries - 1)|].
    by destruct (c =? 429), (Z.of_nat a <? max_retries - 1).
  - destruct (request_loop session_get max_retries rest) as [r t]. cbn [snd].
    change (EvGet a :: ?l) with ([EvGet a] ++ l). rewrite !sleep_factors_app.
    by destruct (Z.of_nat a <? max_retries - 1).
Qed.

Lemma sleep_factors_all_fail (extra : bool) n :
  forall b,
    Z.of_nat b + Z.of_nat (S n) = max_retries ->
    (forall a, (b <= a < b + S n)%nat ->
       is_ok (session_get a) = false /\ is_429 (session_get a) = extra) ->
    Fetch.sleep_factors (request_loop session_get max_retries (seq b (S n))).2
    = flat_map (fun a => (if extra then [Z.of_nat a + 2] else []) ++ [Z.of_nat a + 1])
        (seq b n)
      ++ (if extra then [max_retries + 1] else []).
Proof.
  induction n as [|n IH]; intros b Hb Hall.
  - cbn [seq flat_map app]. destruct (Hall b) as [H1 H2]; [lia|].
    rewrite (request_loop_sleep_factors _ _ H1), H2. cbn [request_loop snd].
    replace (Z.of_nat b <? max_retries - 1) with false by lia.
    replace (Z.of_nat b + 2) with (max_retries + 1) by lia.
    by destruct extra.
  - destruct (Hall b) as [H1 H2]; [lia|].
    change (seq b (S (S n))) with (b :: seq (S b) (S n)).
    rewrite (request_loop_sleep_factors _ _ H1), H2.
    replace (Z.of_nat b <? max_retries - 1) with true by lia.
    rewrite (IH (S b)); [|lia|intros a Ha; apply Hall; lia].
    cbn [seq flat_map]. by rewrite <- !app_assoc.
Qed.

Lemma flat_map_singleton {A B} (f : A -> B) l : flat_map (fun x => [f x]) l = map f l.
Proof. induction l as [|x l IH]; [done|]. cbn. by rewrite IH. Qed.

(** X8. The calls [time.sleep(self.retry_delay * k)] of [_make_request]:
    none when the first response is a 200. When every attempt fails
    without a 429, [k] is 1, 2, ..., [max_retries - 1], one call after
    each attempt but the last, [max_retries * (max_retries - 1) / 2]
    times [retry_delay] in all. When every attempt is answered 429, the
    call with [k = attempt + 2] comes first after each attempt, the last
    one included: [k] is 2, 1, 3, 2, ..., [max_retries], [max_retries - 1]
    and then [max_retries + 1]. *)
Theorem make_request_waiting_time :
  (forall text, 0 < max_retries -> session_get 0%nat = Response 200 text ->
     (_make_request session_get max_retries).2 = [EvGet 0])
  /\ (0 < max_retries ->
      (forall a, (a < Z.to_nat max_retries)%nat ->
         is_ok (session_get a) = false /\ is_429 (session_get a) = false) ->
      Fetch.sleep_factors (_make_request session_get max_retries).2
      = map (fun a => Z.of_nat a + 1) (seq 0 (Z.to_nat max_retries - 1))
      /\ 2 * waited (_make_request session_get max_retries).2
         = max_retries * (max_retries - 1))
  /\ (0 < max_retries ->
      (forall a, (a < Z.to_nat max_retries)%nat -> is_429 (session_get a) = true) ->
      Fetch.sleep_factors (_make_request session_get max_retries).2
      = flat_map (fun a => [Z.of_nat a + 2; Z.of_nat a + 1])
          (seq 0 (Z.to_nat max_retries - 1))
        ++ [max_retries + 1]
      /\ 2 * waited (_make_request session_get max_retries).2
         = max_retries * (max_retries - 1) + max_retries * (max_retries + 3)).
Proof.
  unfold _make_request. split; [|split].
  - intros text Hpos H0. destruct (Z.to_nat max_retries) as [|n] eqn:E; [lia|].
    cbn [seq request_loop]. by rewrite H0.
  - intros Hpos Hall. destruct (Z.to_nat max_retries) as [|n] eqn:E; [lia|]. split.
    + rewrite (sleep_factors_all_fail false n 0); [|lia|intros a Ha; apply Hall; lia].
      rewrite app_nil_r. cbn [app]. rewrite flat_map_singleton. f_equal. f_equal. lia.
    + rewrite (waited_all_fail false n 0); [simpl; lia|lia|].
      intros a Ha. apply Hall. lia.
  - intros Hpos Hall. destruct (Z.to_nat max_retries) as [|n] eqn:E; [lia|].
    assert (forall a, (0 <= a < 0 + S n)%nat ->
              is_ok (session_get a) = false /\ is_429 (session_get a) = true) as Hall'.
    { intros a Ha. specialize (Hall a ltac:(lia)). split; [|done].
      unfold is_ok, is_429 in *. destruct (session_get a) as [c text|msg]; [|done].
      apply Z.eqb_eq in Hall as ->. done. }
    split.
    + rewrite (sleep_factors_all_fail true n 0); [|lia|exact Hall'].
      by replace (S n - 1)%nat with n by lia.
    + rewrite (waited_all_fail true n 0); [simpl; lia|lia|exact Hall'].
Qed.

End FetchMore.

Lemma make_request_waiting_time_witness :
  Fetch.sleep_factors (Fetch._make_request Examples.always_204 3).2 = [1; 2]
  /\ 2 * Fetch.waited (Fetch._make_request Examples.always_204 3).2 = 3 * (3 - 1).
Proof.
  exact (proj1 (proj2 (make_request_waiting_time Examples.always_204 3))
           ltac:(lia) ltac:(intros a _; split; reflexivity)).
Defined.

(** ** The scraper *)
Section ScraperMore.
Import Str Guide Re Scraper.


Lemma search_literal_absent l r s :
  contains l s = false -> search (RSeq (RLit l) r) s = None.
Proof. apply search_from_literal_absent. Qed.


Lemma with_tt_startswith imdb_id : startswith (py "tt") (with_tt imdb_id) = true.
Proof. unfold with_tt. by destruct (startswith (py "tt") imdb_id) eqn:E. Qed.

(** X10. The prefix [tt] of an id is optional: [scrape] completes an id
    that lacks it and leaves alone one that has it, so both spellings
    give the same result; the record carries the completed id and the
    address built from it; and [scrape] returns [None] exactly when the
    request loop gives up. *)
Theorem scrape_completes_the_id session_get max_retries imdb_id :
  with_tt (with_tt imdb_id) = with_tt imdb_id
  /\ startswith (py "tt") (with_tt imdb_id) = true
  /\ (startswith (py "tt") imdb_id = false ->
      scrape session_get max_retries imdb_id
      = scrape session_get max_retries (py "tt" ++ imdb_id))
  /\ (forall g, scrape session_get max_retries imdb_id = Some g ->
        Guide.imdb_id g = with_tt imdb_id
        /\ url g = py "https://www.imdb.com/title/" ++ with_tt imdb_id ++ py "/parentalguide/")
  /\ (scrape session_get max_retries imdb_id = None <->
      (Fetch._make_request (session_get (guide_url (with_tt imdb_id))) max_retries).1 = None).
Proof.
  assert (with_tt (with_tt imdb_id) = with_tt imdb_id) as Hidem.
  { unfold with_tt at 1. by rewrite with_tt_startswith. }
  split; [exact Hidem|]. split; [apply with_tt_startswith|]. split; [|split].
  - intros Hno. unfold scrape.
    assert (with_tt (py "tt" ++ imdb_id) = with_tt imdb_id) as ->; [|done].
    unfold with_tt. rewrite Hno. done.
  - intros g. unfold scrape.
    destruct (Fetch._make_request _ _).1 as [response|]; [|done].
    intros [= <-]. cbn [Guide.imdb_id url build_guide]. split; [done|].
    reflexivity.
  - unfold scrape. by destruct (Fetch._make_request _ _).1.
Qed.

End ScraperMore.


Lemma scrape_completes_the_id_witness :
  Scraper.scrape (Examples.movie_server Examples.two_category_page) 3 (Str.py "0111161")
  = Scraper.scrape (Examples.movie_server Examples.two_category_page) 3 (Str.py "tt0111161").
Proof.
  apply (scrape_completes_the_id (Examples.movie_server Examples.two_category_page) 3
           (Str.py "0111161")).
  reflexivity.
Defined.

(** ** The span of a section *)
Section SectionSpan.
Import Str Guide Re Scraper.

Lemma first_occurrence p :
  forall s, contains p s = true ->
    exists pre post, s = pre ++ p ++ post
      /\ forall j, (j < length pre)%nat -> startswith p (drop j s) = false.
Proof.
  induction s as [|c s IH]; intros H.
  - exists [], []. split; [|cbn; lia].
    apply contains_spec in H as (pre & post & H). destruct pre; [|done].
    destruct p; [done|done].
  - destruct (startswith p (c :: s)) eqn:E.
    + apply startswith_spec in E as [post ->]. exists [], post. split; [done|cbn; lia].
    + cbn [contains] in H. rewrite E in H. cbn in H.
      destruct (IH H) as (pre & post & -> & Hj).
      exists (c :: pre), post. split; [done|].
      intros [|j] Hlt; [exact E|]. cbn in Hlt. cbn [drop]. apply Hj. lia.
Qed.

Lemma first_true (P : str -> bool) :
  P [] = true ->
  forall s, exists k, (k <= length s)%nat /\ P (drop k s) = true
    /\ forall j, (j < k)%nat -> P (drop j s) = false.
Proof.
  intros Hnil. induction s as [|c s (k & Hk & HP & Hj)].
  - exists 0%nat. split; [done|]. split; [done|]. intros; lia.
  - destruct (P (c :: s)) eqn:E.
    + exists 0%nat. split; [cbn; lia|]. split; [done|]. intros; lia.
    + exists (S k). split; [cbn; lia|]. split; [done|].
      intros [|j] Hlt; [done|]. apply Hj. lia.
Qed.

Lemma flat_map_map {A B C} (f : B -> list C) (h : A -> B) l :
  flat_map f (map h l) = flat_map (fun x => f (h x)) l.
Proof. induction l as [|x l IH]; [done|]. cbn. by rewrite IH. Qed.

Lemma head_flat_map_seq {B} (f : nat -> list B) y l k :
  f k = y :: l ->
  forall n a, (a <= k < a + n)%nat -> (forall j, (a <= j < k)%nat -> f j = []) ->
    head (flat_map f (seq a n)) = Some y.
Proof.
  intros Hk. induction n as [|n IH]; intros a Ha Hj; [lia|].
  cbn [seq flat_map]. destruct (decide (a = k)) as [->|Hne].
  - by rewrite Hk.
  - rewrite Hj by lia. cbn [app]. apply IH; [lia|]. intros j ?. apply Hj. lia.
Qed.

Lemma span_any s : span CAny s = length s.
Proof. induction s as [|c s IH]; [done|]. cbn. by rewrite IH. Qed.

(** The lazy [.*?] stops at the first place where what follows it matches. *)
Lemma run_lazy_any r i s g k w l :
  (k <= length s)%nat ->
  run r (i + k) (drop k s) g = w :: l ->
  (forall j, (j < k)%nat -> run r (i + j) (drop j s) g = []) ->
  head (run (RSeq lazy_any r) i s g) = Some w.
Proof.
  intros Hk Hw Hj. rewrite run_seq. unfold lazy_any. cbn [run]. unfold counts.
  rewrite span_any. cbn [Nat.ltb Nat.leb]. rewrite flat_map_map. cbn [fst snd].
  eapply (head_flat_map_seq (fun x => run r (i + x) (drop x s) g)); [exact Hw|lia|].
  intros j ?. apply Hj. lia.
Qed.

Lemma run_lit_nonempty l i s g :
  run (RLit l) i s g <> [] <-> exists s', s = l ++ s'.
Proof.
  cbn [run]. destruct (strip_prefix l s) as [s'|] eqn:E.
  - apply strip_prefix_Some in E. split; [by exists s'|done].
  - split; [done|]. intros [s' ->].
    assert (strip_prefix l (l ++ s') = Some s') as E' by by apply strip_prefix_Some.
    congruence.
Qed.

Lemma run_lit_seq_nonempty l r i s g :
  run (RSeq (RLit l) r) i s g <> []
  <-> exists s', s = l ++ s' /\ run r (i + length l) s' g <> [].
Proof.
  rewrite run_seq. cbn [run]. destruct (strip_prefix l s) as [s'|] eqn:E.
  - apply strip_prefix_Some in E as ->. cbn [flat_map fst snd]. rewrite app_nil_r.
    split; [by exists s'|]. by intros (s'' & ->%app_inv_head & H).
  - cbn [flat_map]. split; [done|]. intros (s' & -> & _).
    assert (strip_prefix l (l ++ s') = Some s') as E' by by apply strip_prefix_Some.
    congruence.
Qed.

Lemma run_alt_nonempty r1 r2 i s g :
  run (RAlt r1 r2) i s g <> [] <-> run r1 i s g <> [] \/ run r2 i s g <> [].
Proof.
  cbn [run]. destruct (run r1 i s g), (run r2 i s g); cbn; intuition congruence.
Qed.

Lemma run_eol_nonempty i s g :
  run REol i s g <> [] <-> s = [] \/ s = [10%N].
Proof.
  cbn [run]. destruct s as [|c [|c' s]].
  - intuition congruence.
  - destruct (N.eqb_spec c 10) as [->|Hne]; [intuition congruence|].
    split; [done|]. intros [?|?]; congruence.
  - split; [done|]. intros [?|?]; congruence.
Qed.

(** What [at_stop] says. *)
Lemma at_stop_spec s :
  at_stop s = true
  <-> (exists section_id rest, section_id ∈ SECTION_IDS /\ s = anchor section_id ++ rest)
      \/ s = [] \/ s = [10%N].
Proof.
  unfold at_stop. rewrite orb_true_iff, existsb_exists. split.
  - intros [(x & Hin & Hx)|H].
    + left. apply startswith_spec in Hx as [rest ->]. exists x, rest.
      split; [by apply list_elem_of_In|done].
    + right. destruct s as [|c [|c' s]]; [by left| |done].
      apply N.eqb_eq in H as ->. by right.
  - intros [(x & rest & Hin & ->)|[->| ->]].
    + left. exists x. split; [by apply list_elem_of_In|].
      apply startswith_spec. by exists rest.
    + by right.
    + by right.
Qed.

Lemma nonempty_elem {A} (l : list A) : l <> [] <-> exists x, x ∈ l.
Proof.
  destruct l as [|x l]; split; try done.
  - by intros (x & ?%elem_of_nil).
  - intros _. exists x. left.
Qed.

Lemma run_alt_in w r1 r2 i s g :
  w ∈ run (RAlt r1 r2) i s g <-> w ∈ run r1 i s g \/ w ∈ run r2 i s g.
Proof. cbn [run]. apply elem_of_app. Qed.

Lemma run_seq_in w r1 r2 i s g :
  w ∈ run (RSeq r1 r2) i s g
  <-> exists w1 : way, w1 ∈ run r1 i s g /\ w ∈ run r2 w1.1.1 w1.1.2 w1.2.
Proof.
  rewrite run_seq, list_elem_of_In, in_flat_map. split.
  - intros (w1 & ? & ?). exists w1. by rewrite !list_elem_of_In.
  - intros (w1 & ? & ?). exists w1. by rewrite <- !list_elem_of_In.
Qed.

Lemma run_lit_in w l i s g :
  w ∈ run (RLit l) i s g <-> exists s', s = l ++ s' /\ w = ((i + length l)%nat, s', g).
Proof.
  cbn [run]. destruct (strip_prefix l s) as [s'|] eqn:E.
  - apply strip_prefix_Some in E as ->. rewrite list_elem_of_singleton. split.
    + intros ->. by exists s'.
    + by intros (s'' & ->%app_inv_head & ->).
  - split; [by intros ?%elem_of_nil|]. intros (s' & -> & _).
    assert (strip_prefix l (l ++ s') = Some s') as E' by by apply strip_prefix_Some.
    congruence.
Qed.

Lemma stop_lookahead_nonempty i s g :
  run stop_lookahead i s g <> [] <-> at_stop s = true.
Proof.
  split.
  - intros (w & Hw)%nonempty_elem. unfold stop_lookahead in Hw.
    apply run_alt_in in Hw as [Hw|Hw].
    + apply run_seq_in in Hw as (w1 & (s1 & -> & ->)%run_lit_in & Hw). cbn [fst snd] in Hw.
      apply run_seq_in in Hw as (w2 & H2 & (s3 & Hs3 & _)%run_lit_in).
      repeat (apply run_alt_in in H2 as [H2|H2]);
        apply run_lit_in in H2 as (s2 & -> & ->); cbn [fst snd] in Hs3; subst s2;
        reflexivity.
    + apply at_stop_spec. right. apply (run_eol_nonempty i s g), nonempty_elem. by exists w.
  - intros [(x & rest & Hin & ->)|[->| ->]]%at_stop_spec.
    + unfold SECTION_IDS in Hin.
      repeat (apply elem_of_cons in Hin as [->|Hin]); try (by apply elem_of_nil in Hin);
        intros Hnil; vm_compute in Hnil; discriminate.
    + intros Hnil; vm_compute in Hnil; discriminate.
    + intros Hnil; vm_compute in Hnil; discriminate.
Qed.

Lemma stop_lookahead_groups i s g :
  Forall (fun w : way => w.2 = g) (run stop_lookahead i s g).
Proof.
  apply Forall_forall. intros w Hw. unfold stop_lookahead in Hw.
  apply run_alt_in in Hw as [Hw|Hw].
  - apply run_seq_in in Hw as (w1 & (s1 & -> & ->)%run_lit_in & Hw). cbn [fst snd] in Hw.
    apply run_seq_in in Hw as (w2 & H2 & (s3 & Hs3 & ->)%run_lit_in).
    repeat (apply run_alt_in in H2 as [H2|H2]);
      by apply run_lit_in in H2 as (s2 & -> & ->).
  - cbn [run] in Hw. destruct s as [|c [|c' s]].
    + by apply list_elem_of_singleton in Hw as ->.
    + destruct (c =? 10)%N; [by apply list_elem_of_singleton in Hw as ->|].
      by apply elem_of_nil in Hw.
    + by apply elem_of_nil in Hw.
Qed.

(** The lookahead holds exactly at the stops, and takes nothing. *)
Lemma run_stop_lookahead i s g :
  run (RLook stop_lookahead) i s g = if at_stop s then [(i, s, g)] else [].
Proof.
  cbn [run]. pose proof (stop_lookahead_nonempty i s g) as Hne.
  pose proof (stop_lookahead_groups i s g) as Hg.
  destruct (run stop_lookahead i s g) as [|w l].
  - destruct (at_stop s); [|done]. by destruct (proj2 Hne).
  - rewrite (proj1 Hne) by done. apply Forall_cons in Hg as [-> _]. done.
Qed.

(** The match of [section_pattern] at an anchor: up to the first stop. *)
Lemma match_at_section section_id i s k :
  (k <= length s)%nat -> at_stop (drop k s) = true ->
  (forall j, (j < k)%nat -> at_stop (drop j s) = false) ->
  match_at (section_pattern section_id) false i (anchor section_id ++ s)
  = Some {| m_start := i; m_end := (i + length (anchor section_id) + k)%nat;
            m_text := anchor section_id ++ take k s; m_groups := [] |}.
Proof.
  intros Hk Hstop Hbefore. unfold match_at, section_pattern. fold stop_lookahead.
  generalize (anchor section_id). intros a.
  rewrite run_seq, run_lit_app. cbn [flat_map fst snd]. rewrite app_nil_r.
  pose proof (run_lazy_any (RLook stop_lookahead) (i + length a) s []
                k ((i + length a + k)%nat, drop k s, []) [] Hk) as Hhead.
  rewrite run_stop_lookahead, Hstop in Hhead.
  assert (forall j, (j < k)%nat ->
            run (RLook stop_lookahead) (i + length a + j) (drop j s) [] = [])
    as Hnone by (intros j Hj; by rewrite run_stop_lookahead, Hbefore).
  specialize (Hhead eq_refl Hnone).
  destruct (run (RSeq lazy_any (RLook stop_lookahead)) _ s []) as [|w l]; [done|].
  cbn [List.find negb orb]. cbn [head] in Hhead. injection Hhead as ->.
    cbn [fst snd]. f_equal. f_equal.
    replace (i + length a + k - i)%nat
      with (length a + k)%nat by lia.
    by rewrite take_app_add.
Qed.

(** X11. The span [_find_section_content] returns for a category whose
    anchor is in the page: it begins with the first occurrence of the
    anchor and runs up to the first place after it where the anchor of
    one of the six sections stands or the page ends (a last newline is
    left out); nowhere inside the span, after its own anchor, does a
    section anchor begin. *)
Theorem section_span_ends_at_next_anchor doc (c : category) :
  contains (anchor (CATEGORY_IDS c)) doc = true ->
  exists pre body post,
    doc = pre ++ anchor (CATEGORY_IDS c) ++ body ++ post
    /\ (forall j, (j < length pre)%nat ->
          startswith (anchor (CATEGORY_IDS c)) (drop j doc) = false)
    /\ _find_section_content doc (CATEGORY_IDS c) = anchor (CATEGORY_IDS c) ++ body
    /\ (forall j, (j < length body)%nat -> at_stop (drop j (body ++ post)) = false)
    /\ (post = [] \/ post = [10%N]
        \/ exists section_id rest, section_id ∈ SECTION_IDS /\ post = anchor section_id ++ rest).
Proof.
  intros Hin. destruct (first_occurrence _ _ Hin) as (pre & s & -> & Hfirst).
  destruct (first_true at_stop eq_refl s) as (k & Hk & Hstop & Hbefore).
  exists pre, (take k s), (drop k s). rewrite take_drop.
  split; [done|]. split; [exact Hfirst|]. split; [|split].
  - unfold _find_section_content, search.
    rewrite (search_from_leftmost (section_pattern (CATEGORY_IDS c)) pre 0
               (anchor (CATEGORY_IDS c) ++ s) _
               ltac:(intros j Hj; apply match_at_literal_absent; by apply Hfirst)
               (match_at_section (CATEGORY_IDS c) _ s k Hk Hstop Hbefore)).
    done.
  - intros j Hj. apply Hbefore. rewrite length_take in Hj. lia.
  - apply at_stop_spec in Hstop. tauto.
Qed.

End SectionSpan.

Lemma section_span_ends_at_next_anchor_witness :
  exists pre body post,
    Examples.two_category_page
    = pre ++ Scraper.anchor (Scraper.CATEGORY_IDS Scraper.sex_nudity_key) ++ body ++ post
    /\ (forall j, (j < length pre)%nat ->
          Str.startswith (Scraper.anchor (Scraper.CATEGORY_IDS Scraper.sex_nudity_key))
            (drop j Examples.two_category_page) = false)
    /\ Scraper._find_section_content Examples.two_category_page
         (Scraper.CATEGORY_IDS Scraper.sex_nudity_key)
       = Scraper.anchor (Scraper.CATEGORY_IDS Scraper.sex_nudity_key) ++ body
    /\ (forall j, (j < length body)%nat -> Scraper.at_stop (drop j (body ++ post)) = false)
    /\ (post = [] \/ post = [10%N]
        \/ exists section_id rest,
             section_id ∈ Scraper.SECTION_IDS /\ post = Scraper.anchor section_id ++ rest).
Proof.
  apply (section_span_ends_at_next_anchor Examples.two_category_page Scraper.sex_nudity_key).
  vm_compute. reflexivity.
Defined.

(** ** Ids in addresses and in the movie list *)
Section UrlAndIds.
Import Str Guide Re Scraper.

Lemma match_at_first r i s w :
  head (run r i s []) = Some w ->
  match_at r false i s
  = Some {| m_start := i; m_end := w.1.1; m_text := take (w.1.1 - i) s; m_groups := w.2 |}.
Proof. unfold match_at. destruct (run r i s []) as [|w' l]; [done|]. by intros [= ->]. Qed.

Lemma run_group n r i s g :
  run (RGroup n r) i s g
  = map (fun w : way => (w.1.1, w.1.2, (n, take (w.1.1 - i) s) :: w.2)) (run r i s g).
Proof. done. Qed.

(** The greedy [\d+] before a character that is no digit takes all the
    digits first. *)
Lemma run_digits_head i ds c rest g :
  ds <> [] -> Forall (fun x => isdecimal x = true) ds -> isdecimal c = false ->
  exists l, run (RRep CDigit 1 None true) i (ds ++ c :: rest) g
            = ((i + length ds)%nat, c :: rest, g) :: l.
Proof.
  intros Hne Hds Hc. cbn [run]. unfold counts.
  rewrite (span_app_stop CDigit ds c rest) by done.
  destruct ds as [|d ds]; [done|]. cbn [length Nat.ltb Nat.leb].
  replace (S (length ds) - 1 + 1)%nat with (S (length ds)) by lia.
  rewrite seq_S, rev_app_distr. cbn [rev app map].
  replace (1 + length ds)%nat with (length (d :: ds)) by done.
  change (d :: ds ++ c :: rest) with ((d :: ds) ++ c :: rest).
  rewrite drop_app_length. by eexists.
Qed.

Lemma run_tt_digits_head i ds c rest g :
  ds <> [] -> Forall (fun x => isdecimal x = true) ds -> isdecimal c = false ->
  exists l, run (RGroup 1 (RSeq (RLit (py "tt")) (RRep CDigit 1 None true))) i
              (py "tt" ++ ds ++ c :: rest) g
            = ((i + 2 + length ds)%nat, c :: rest, (1%nat, py "tt" ++ ds) :: g) :: l.
Proof.
  intros Hne Hds Hc. rewrite run_group, run_seq, run_lit_app. cbn [flat_map fst snd].
  rewrite app_nil_r.
  destruct (run_digits_head (i + length (py "tt")) ds c rest g Hne Hds Hc) as [l ->].
  cbn [map fst snd]. eexists. f_equal. f_equal. f_equal. f_equal.
  replace (i + length (py "tt") + length ds - i)%nat with (length (py "tt" ++ ds))
    by (rewrite length_app; lia).
  by rewrite app_assoc, take_app_length.
Qed.

(** The id of an address: the first [/title/] that is followed by [tt],
    digits and a slash. *)
Lemma search_url_id pre ds rest :
  (forall j, (j < length pre)%nat ->
     startswith (py "/title/")
       (drop j (pre ++ py "/title/" ++ py "tt" ++ ds ++ 47%N :: rest)) = false) ->
  ds <> [] -> Forall (fun x => isdecimal x = true) ds ->
  exists m, search url_id_pattern (pre ++ py "/title/" ++ py "tt" ++ ds ++ 47%N :: rest)
            = Some m /\ group 1 m = py "tt" ++ ds.
Proof.
  intros Hpre Hne Hds.
  destruct (run_tt_digits_head (0 + length pre + length (py "/title/")) ds 47%N rest []
              Hne Hds eq_refl) as [l Hrun].
  eexists. split.
  - unfold search. apply search_from_leftmost.
    + intros j Hj. apply match_at_literal_absent. by apply Hpre.
    + apply match_at_first. unfold url_id_pattern.
      rewrite run_seq, run_lit_app. cbn [flat_map fst snd]. rewrite app_nil_r.
      rewrite run_seq, Hrun. cbn [flat_map fst snd].
      rewrite (run_lit_app (py "/") rest). reflexivity.
  - reflexivity.
Qed.

(** X12. [scrape_from_url] scrapes the id that stands in the address
    after the first [/title/], if that is [tt], digits and a slash: the
    address [scrape] builds for such an id leads back to the same
    scrape. An address without [/title/] gives [None] whatever the
    server would answer. *)
Theorem scrape_from_url_finds_the_id session_get max_retries :
  (forall url, contains (py "/title/") url = false ->
     scrape_from_url session_get max_retries url = None)
  /\ (forall pre ds rest,
        (forall j, (j < length pre)%nat ->
           startswith (py "/title/")
             (drop j (pre ++ py "/title/" ++ py "tt" ++ ds ++ 47%N :: rest)) = false) ->
        ds <> [] -> Forall (fun x => isdecimal x = true) ds ->
        scrape_from_url session_get max_retries
          (pre ++ py "/title/" ++ py "tt" ++ ds ++ 47%N :: rest)
        = scrape session_get max_retries (py "tt" ++ ds))
  /\ (forall ds, ds <> [] -> Forall (fun x => isdecimal x = true) ds ->
        scrape_from_url session_get max_retries (guide_url (py "tt" ++ ds))
        = scrape session_get max_retries (py "tt" ++ ds)).
Proof.
  assert (forall pre ds rest,
        (forall j, (j < length pre)%nat ->
           startswith (py "/title/")
             (drop j (pre ++ py "/title/" ++ py "tt" ++ ds ++ 47%N :: rest)) = false) ->
        ds <> [] -> Forall (fun x => isdecimal x = true) ds ->
        scrape_from_url session_get max_retries
          (pre ++ py "/title/" ++ py "tt" ++ ds ++ 47%N :: rest)
        = scrape session_get max_retries (py "tt" ++ ds)) as Hgen.
  { intros pre ds rest Hpre Hne Hds. unfold scrape_from_url.
    destruct (search_url_id pre ds rest Hpre Hne Hds) as (m & -> & ->). done. }
  split; [|split; [exact Hgen|]].
  - intros url Hno. unfold scrape_from_url, url_id_pattern.
    by rewrite search_literal_absent.
  - intros ds Hne Hds.
    replace (guide_url (py "tt" ++ ds))
      with (BASE_URL ++ py "/title/" ++ py "tt" ++ ds ++ 47%N :: py "parentalguide/")
      by (unfold guide_url; by rewrite <- (app_assoc (py "tt") ds)).
    apply Hgen; [|done|done].
    intros j Hj. change (length BASE_URL) with 20%nat in Hj.
    do 20 (destruct j as [|j]; [reflexivity|]). lia.
Qed.

Lemma run_rep_in w cs lo hi greedy i s g :
  w ∈ run (RRep cs lo hi greedy) i s g
  <-> exists k, k ∈ counts cs lo hi greedy s /\ w = ((i + k)%nat, drop k s, g).
Proof.
  cbn [run]. rewrite list_elem_of_fmap. split; intros (k & ? & ?); by exists k.
Qed.

Lemma run_group_in w n r i s g :
  w ∈ run (RGroup n r) i s g
  <-> exists w1 : way, w1 ∈ run r i s g
        /\ w = (w1.1.1, w1.1.2, (n, take (w1.1.1 - i) s) :: w1.2).
Proof.
  rewrite run_group, list_elem_of_fmap. split; intros (k & ? & ?); by exists k.
Qed.

Lemma counts_ge cs lo hi greedy s k :
  k ∈ counts cs lo hi greedy s -> (lo <= k)%nat.
Proof.
  unfold counts. destruct (_ <? lo)%nat; [by intros ?%elem_of_nil|].
  destruct greedy; rewrite list_elem_of_In; [rewrite <- in_rev|]; rewrite in_seq; lia.
Qed.

Lemma take_span cs :
  forall s k, (k <= span cs s)%nat -> Forall (fun x => cmatch cs x = true) (take k s).
Proof.
  induction s as [|c s IH]; intros [|k] Hk; try (by constructor).
  cbn [span] in Hk. destruct (cmatch cs c) eqn:E; [|lia].
  cbn [take]. constructor; [done|]. apply IH. lia.
Qed.

Lemma match_at_way r ma i s m :
  match_at r ma i s = Some m ->
  exists w : way, w ∈ run r i s [] /\ m_groups m = w.2 /\ m_end m = w.1.1.
Proof.
  unfold match_at. destruct (List.find _ _) as [w|] eqn:E; [|done].
  intros [= <-]. apply find_some in E as [Hin _]. exists w.
  by rewrite list_elem_of_In.
Qed.

(** Every match of a scan is the match at some place of some text. *)
Lemma finditer_from_matches r :
  forall s i k,
    Forall (fun m => exists ma j t, match_at r ma j t = Some m) (finditer_from r i k s).
Proof.
  induction s as [|c s IH]; intros i k.
  - destruct k; [|by constructor]. cbn [finditer_from].
    destruct (match_at r false i []) as [m|] eqn:E; [|by constructor].
    destruct (m_end m =? i)%nat.
    + constructor; [by eauto|].
      destruct (match_at r true i []) as [m'|] eqn:E'; [|by constructor].
      constructor; [by eauto|by constructor].
    + constructor; [by eauto|by constructor].
  - destruct k; [|by apply IH]. cbn [finditer_from].
    destruct (match_at r false i (c :: s)) as [m|] eqn:E; [|by apply IH].
    destruct (m_end m =? i)%nat.
    + constructor; [by eauto|].
      destruct (match_at r true i (c :: s)) as [m'|] eqn:E'; [|by apply IH].
      constructor; [by eauto|by apply IH].
    + constructor; [by eauto|by apply IH].
Qed.

Lemma finditer_search_none r s : search r s = None -> finditer r s = [].
Proof.
  rewrite search_head_finditer. by destruct (finditer r s).
Qed.

(** X13. Every id [extract_imdb_ids_from_movies_ts] returns is [tt]
    followed by at least one decimal digit, so [scrape] takes it as it
    is; a text without the key [imdbId] gives no id. *)
Theorem extracted_ids_are_well_formed content :
  (contains (q "imdbId" ++ py ":") content = false ->
   Batch.extract_imdb_ids_from_movies_ts content = [])
  /\ (forall imdb_id, imdb_id ∈ Batch.extract_imdb_ids_from_movies_ts content ->
        exists digits, imdb_id = py "tt" ++ digits /\ digits <> []
          /\ Forall (fun d => isdecimal d = true) digits
          /\ with_tt imdb_id = imdb_id).
Proof.
  split.
  - intros Hno. unfold Batch.extract_imdb_ids_from_movies_ts, findall1.
    rewrite finditer_search_none; [done|]. by apply search_literal_absent.
  - intros imdb_id Hin. unfold Batch.extract_imdb_ids_from_movies_ts, findall1 in Hin.
    apply list_elem_of_fmap in Hin as (m & -> & Hm).
    pose proof (finditer_from_matches Batch.imdb_id_pattern content 0 0) as Hall.
    rewrite Forall_forall in Hall. destruct (Hall m Hm) as (ma & j & t & Hmatch).
    apply match_at_way in Hmatch as (w & Hw & Hg & _).
    unfold Batch.imdb_id_pattern in Hw.
    apply run_seq_in in Hw as (w1 & (s1 & -> & ->)%run_lit_in & Hw). cbn [fst snd] in Hw.
    apply run_seq_in in Hw as (w2 & (k & _ & ->)%run_rep_in & Hw). cbn [fst snd] in Hw.
    apply run_seq_in in Hw as (w3 & (s3 & Hs3 & ->)%run_lit_in & Hw). cbn [fst snd] in Hw.
    apply run_seq_in in Hw as (w4 & Hw4 & (s7 & _ & ->)%run_lit_in).
    apply run_group_in in Hw4 as (w5 & Hw5 & ->).
    apply run_seq_in in Hw5 as (w6 & (s6 & -> & ->)%run_lit_in & Hw5). cbn [fst snd] in Hw5.
    apply run_rep_in in Hw5 as (n & Hn & ->). cbn [fst snd] in Hg.
    unfold group. rewrite Hg. cbn [List.find fst snd Nat.eqb].
    pose proof (counts_ge _ _ _ _ _ _ Hn) as Hge.
    pose proof (counts_le _ _ _ _ _ _ Hn) as Hle.
    pose proof (span_le_length CDigit s6) as Hlen.
    replace (take _ (py "tt" ++ s6)) with (py "tt" ++ take n s6).
    + exists (take n s6). split; [done|]. split; [|split].
      * intros Hnil. apply (f_equal length) in Hnil. rewrite length_take in Hnil.
        cbn in Hnil. lia.
      * by apply (take_span CDigit).
      * reflexivity.
    + match goal with |- _ = take ?a _ => replace a with (length (py "tt") + n)%nat by lia end.
      by rewrite take_app_add.
Qed.

End UrlAndIds.

Lemma scrape_from_url_finds_the_id_witness :
  Scraper.scrape_from_url (Examples.movie_server Examples.two_category_page) 3
    (Str.py "https://www.imdb.com/title/tt0111161/parentalguide/")
  = Scraper.scrape (Examples.movie_server Examples.two_category_page) 3 (Str.py "tt0111161").
Proof.
  refine (proj2 (proj2 (scrape_from_url_finds_the_id
            (Examples.movie_server Examples.two_category_page) 3)) (Str.py "0111161") _ _).
  - discriminate.
  - repeat constructor.
Defined.

Lemma extracted_ids_are_well_formed_witness :
  exists digits, Str.py "tt0111161" = Str.py "tt" ++ digits /\ digits <> []
    /\ Forall (fun d => Str.isdecimal d = true) digits
    /\ Scraper.with_tt (Str.py "tt0111161") = Str.py "tt0111161".
Proof.
  refine (proj2 (extracted_ids_are_well_formed
            (Str.py "{ title: 'A', " ++ Str.q "imdbId" ++ Str.py ": " ++ Str.q "tt0111161"
             ++ Str.py " }, { " ++ Str.q "imdbId" ++ Str.py ":" ++ Str.q "tt12" ++ Str.py " }"))
            (Str.py "tt0111161") _).
  vm_compute. left.
Defined.

(** ** The texts of a record *)
Section NormalForm.
Import Str Guide Re Scraper.

Lemma single_spaced_only_spaces s :
  forall p, single_spaced p s = true ->
    forall c, c ∈ s -> isspace c = true -> c = 32%N.
Proof.
  induction s as [|x s IH]; intros p H c Hin Hc.
  - by apply elem_of_nil in Hin.
  - cbn [single_spaced] in H. apply elem_of_cons in Hin as [->|Hin].
    + rewrite Hc in H. apply andb_true_iff in H as [H _].
      apply andb_true_iff in H as [H _]. by apply N.eqb_eq in H.
    + destruct (isspace x); [apply andb_true_iff in H as [_ H]|]; by eapply IH.
Qed.

Lemma single_spaced_no_pair a :
  forall p c c' b, single_spaced p (a ++ c :: c' :: b) = true ->
    isspace c = true -> isspace c' = false.
Proof.
  induction a as [|x a IH]; intros p c c' b H Hc.
  - cbn [app single_spaced] in H. rewrite Hc in H. destruct (isspace c'); [|done].
    apply andb_true_iff in H as [_ H]. apply andb_true_iff in H as [H _].
    apply andb_true_iff in H as [_ H]. done.
  - cbn [app single_spaced] in H.
    destruct (isspace x); [apply andb_true_iff in H as [_ H]|]; by eapply IH.
Qed.

Lemma rstrip_direct_last a :
  forall c, rstrip_direct (a ++ [c]) = a ++ [c] -> isspace c = false.
Proof.
  induction a as [|x a IH]; intros c H.
  - cbn in H. by destruct (isspace c).
  - cbn [app rstrip_direct] in H. destruct (rstrip_direct (a ++ [c])) as [|y r] eqn:E.
    + destruct (isspace x); [done|]. injection H as H. by destruct a.
    + injection H as H. apply IH. by rewrite E.
Qed.

Lemma normalized_nil : normalized [].
Proof.
  split; [by intros c ?%elem_of_nil|]. split; [by intros [] ????|].
  split; [done|]. by intros [] ??.
Qed.

Lemma clean_text_normalized s : normalized (_clean_text s).
Proof.
  unfold _clean_text, _decode_html_entities. rewrite sub_whitespace_run.
  unfold strip. rewrite rstrip_direct_eq.
  set (u := lstrip (squeeze false (Html.unescape s))).
  assert (single_spaced false (rstrip_direct u) = true) as Hss.
  { apply rstrip_direct_single_spaced, lstrip_single_spaced, single_spaced_squeeze. }
  assert (no_lead (rstrip_direct u)) as Hnl
    by apply rstrip_direct_no_lead, lstrip_no_lead.
  pose proof (rstrip_direct_idem u) as Hidem.
  split; [|split; [|split]].
  - by apply (single_spaced_only_spaces _ false).
  - intros a c c' b Heq. rewrite Heq in Hss. by apply (single_spaced_no_pair a false c c' b).
  - intros c b Heq. rewrite Heq in Hnl. exact Hnl.
  - intros a c Heq. rewrite Heq in Hidem. by apply (rstrip_direct_last a).
Qed.

Lemma cleaned_normalized t : cleaned t -> normalized t.
Proof. intros [->|[x ->]]; [apply normalized_nil|apply clean_text_normalized]. Qed.

Lemma extract_category_cleaned doc section_id :
  Forall cleaned (category_texts (_extract_category doc section_id)).
Proof.
  unfold category_texts, _extract_category. cbn [severity items]. constructor.
  - unfold _extract_category_severity. destruct (str_eqb _ []); [by left|].
    destruct (search _ _); [right; by eexists|by left].
  - unfold _extract_category_items. destruct (str_eqb _ []); [by constructor|].
    rewrite collect_items_filter. cbn [app]. apply Forall_forall. intros t Ht.
    apply list_elem_of_In, filter_In in Ht as [Ht _]. apply in_map_iff in Ht as (x & <- & _).
    right. by eexists.
Qed.

Lemma extract_certifications_cleaned doc :
  Forall cleaned (flat_map certification_texts (_extract_certifications doc)).
Proof.
  apply Forall_flat_map, Forall_forall. intros it Hit.
  unfold _extract_certifications in Hit. destruct (search _ doc) as [m|];
    [|by apply elem_of_nil in Hit].
  rewrite collect_certifications_omap in Hit. cbn [app] in Hit.
  apply list_elem_of_omap in Hit as (block & _ & Hblock).
  apply block_entry_Some in Hblock as (_ & Hcountry & _ & Hratings & _).
  unfold certification_texts. constructor.
  - rewrite block_country_search in Hcountry.
    destruct (search country_pattern block); [|done]. injection Hcountry as <-.
    right. by eexists.
  - rewrite Hratings. apply Forall_flat_map, Forall_forall. intros r Hr.
    unfold block_ratings in Hr.
    apply list_elem_of_In, filter_In in Hr as [Hr _]. apply in_map_iff in Hr as (p & <- & _).
    cbn [rating note]. constructor; [right; by eexists|].
    constructor; [right; by eexists|constructor].
Qed.

(** X14. Every text [_clean_text] returns is in normal form: it holds no
    whitespace but single spaces and neither begins nor ends with one.
    Every text that [scrape] reads from the page into a record (title,
    content rating, the severity and the items of the five categories,
    the countries, ratings and notes of the certifications) is in that
    form, whatever the page is. *)
Theorem every_text_of_a_record_is_normalized :
  (forall s, normalized (_clean_text s))
  /\ (forall imdb_id url doc, Forall normalized (page_texts (build_guide imdb_id url doc)))
  /\ (forall session_get max_retries imdb_id g,
        scrape session_get max_retries imdb_id = Some g -> Forall normalized (page_texts g)).
Proof.
  assert (forall imdb_id url doc, Forall normalized (page_texts (build_guide imdb_id url doc)))
    as Hbuild.
  { intros imdb_id url doc. eapply Forall_impl; [|intros t; apply cleaned_normalized].
    unfold page_texts, build_guide.
    cbn [title content_rating sex_nudity violence_gore profanity alcohol_drugs_smoking
         frightening_intense certifications].
    constructor.
    { unfold _extract_title. destruct (search subtitle_pattern doc); [right; by eexists|].
      destruct (search title_pattern doc); [|by left].
      destruct (search year_pattern _); [right; by eexists|by left]. }
    constructor.
    { unfold _extract_content_rating.
      destruct (search content_rating_pattern doc); [right; by eexists|by left]. }
    repeat (apply Forall_app; split; [apply extract_category_cleaned|]).
    apply extract_certifications_cleaned. }
  split; [exact clean_text_normalized|]. split; [exact Hbuild|].
  intros session_get max_retries imdb_id g. unfold scrape.
  destruct (Fetch._make_request _ _).1 as [response|]; [|done].
  intros [= <-]. apply Hbuild.
Qed.

End NormalForm.

Lemma every_text_of_a_record_is_normalized_witness :
  Forall Str.normalized
    (Scraper.page_texts
       (Scraper.build_guide (Str.py "tt0111161") (Scraper.guide_url (Str.py "tt0111161"))
          Examples.two_category_page)).
Proof.
  apply (proj2 (proj2 every_text_of_a_record_is_normalized)
           (Examples.movie_server Examples.two_category_page) 3 (Str.py "tt0111161")).
  reflexivity.
Defined.

(** ** The title *)
Section TitleFacts.
Import Str Guide Re Scraper.

Lemma search_title_text pre txt rest :
  (forall j, (j < length pre)%nat ->
     startswith (py "<title>")
       (drop j (pre ++ py "<title>" ++ txt ++ py "</title>" ++ rest)) = false) ->
  txt <> [] -> 60%N ∉ txt ->
  exists m, search title_pattern (pre ++ py "<title>" ++ txt ++ py "</title>" ++ rest) = Some m
            /\ group 1 m = txt.
Proof.
  intros Hpre Hne Ht.
  pose proof (run_text_until 60%N 1 (0 + length pre + length (py "<title>")) txt
                (py "</title>" ++ rest) [] Hne Ht (or_intror (ex_intro _ _ eq_refl)))
    as Hhead.
  eexists. split.
  - unfold search. apply search_from_leftmost.
    + intros j Hj. apply match_at_literal_absent. by apply Hpre.
    + apply match_at_first. unfold title_pattern.
      rewrite run_seq, run_lit_app. cbn [flat_map fst snd]. rewrite app_nil_r.
      rewrite run_seq. unfold text1.
      destruct (run (RGroup 1 _) _ _ _) as [|w l]; [discriminate Hhead|].
      cbn [head] in Hhead. apply (inj Some) in Hhead. subst w.
      cbn [flat_map fst snd]. rewrite run_lit_app. reflexivity.
  - reflexivity.
Qed.

Lemma contains_drop_false l :
  forall s, contains l s = false -> forall k, startswith l (drop k s) = false.
Proof.
  induction s as [|c s IH]; intros H k.
  - rewrite drop_nil. cbn in H. by apply orb_false_iff in H as [H _].
  - apply contains_cons_false in H as [H0 H]. destruct k; [done|]. by apply IH.
Qed.

(** A pattern that asks for a literal has no match in a text without it. *)
Lemma no_way_literal l r s :
  contains l s = false -> forall k i g, run (RSeq (RLit l) r) i (drop k s) g = [].
Proof.
  intros H k i g. rewrite run_seq. cbn [run].
  by rewrite strip_prefix_startswith by (by apply contains_drop_false).
Qed.

Lemma no_way_seq r1 r2 s :
  (forall k i g, run r2 i (drop k s) g = []) ->
  forall k i g, run (RSeq r1 r2) i (drop k s) g = [].
Proof.
  intros H k i g. rewrite run_seq. apply flat_map_nil. intros w Hw.
  pose proof (run_sound r1 i (drop k s) g) as Hs. rewrite Forall_forall in Hs.
  destruct (Hs w Hw) as (_ & _ & ->). rewrite drop_drop. apply H.
Qed.

Lemma no_way_search r :
  forall s, (forall k i g, run r i (drop k s) g = []) -> forall i, search_from r i s = None.
Proof.
  induction s as [|c s IH]; intros H i; cbn [search_from]; unfold match_at;
    pose proof (H 0%nat i []) as H0; rewrite drop_0 in H0; rewrite H0;
    cbn [List.find]; [done|].
  apply IH. intros k. apply (H (S k)).
Qed.

Lemma search_year_absent txt : 40%N ∉ txt -> search year_pattern txt = None.
Proof.
  intros H. apply no_way_search. unfold year_pattern.
  do 3 apply no_way_seq. apply no_way_literal.
  apply not_true_iff_false. by intros ?%contains_char.
Qed.

Lemma span_lt cs a b :
  Exists (fun x => cmatch cs x = false) a -> (span cs (a ++ b) < length a)%nat.
Proof.
  induction a as [|x a IH]; intros H; [by apply Exists_nil in H|].
  cbn [app span length]. destruct (cmatch cs x) eqn:E; [|lia].
  apply Exists_cons in H as [H|H]; [congruence|]. specialize (IH H). lia.
Qed.

Lemma span_ge cs a b :
  Forall (fun x => cmatch cs x = true) a -> (length a <= span cs (a ++ b))%nat.
Proof.
  induction 1 as [|x a Hx _ IH]; [cbn; lia|]. cbn [app span length]. rewrite Hx. lia.
Qed.

(** A greedy repetition before a character it cannot take takes all it
    can first; one of an exact count has one way. *)
Lemma run_rep_greedy_head cs lo i a c rest g :
  Forall (fun x => cmatch cs x = true) a -> cmatch cs c = false -> (lo <= length a)%nat ->
  exists l, run (RRep cs lo None true) i (a ++ c :: rest) g
            = ((i + length a)%nat, c :: rest, g) :: l.
Proof.
  intros Ha Hc Hlo. cbn [run]. unfold counts. rewrite (span_app_stop cs a c rest) by done.
  replace (length a <? lo)%nat with false by (symmetry; apply Nat.ltb_ge; lia).
  replace (length a - lo + 1)%nat with (S (length a - lo)) by lia.
  rewrite seq_S, rev_app_distr. cbn [rev app map].
  replace (lo + (length a - lo))%nat with (length a) by lia.
  rewrite drop_app_length. by eexists.
Qed.

Lemma run_rep_exact cs i a c rest g :
  Forall (fun x => cmatch cs x = true) a -> cmatch cs c = false ->
  run (RRep cs (length a) (Some (length a)) true) i (a ++ c :: rest) g
  = [((i + length a)%nat, c :: rest, g)].
Proof.
  intros Ha Hc. cbn [run]. unfold counts. rewrite (span_app_stop cs a c rest) by done.
  rewrite Nat.min_id, Nat.ltb_irrefl, Nat.sub_diag. cbn [Nat.add seq rev app map].
  by rewrite drop_app_length.
Qed.

(** [\s*\(\d{4}\)] where whitespace, a year in parentheses and anything
    follow. *)
Lemma run_year_tail i ws year tail g :
  Forall (fun x => isspace x = true) ws ->
  Forall (fun x => isdecimal x = true) year -> length year = 4%nat ->
  exists w l,
    run (RSeq (RRep CSpace 0 None true)
           (RSeq (RLit (py "(")) (RSeq (RRep CDigit 4 (Some 4%nat) true) (RLit (py ")")))))
      i (ws ++ 40%N :: year ++ 41%N :: tail) g = w :: l
    /\ w.2 = g.
Proof.
  intros Hws Hyear Hlen. rewrite run_seq.
  destruct (run_rep_greedy_head CSpace 0 i ws 40%N (year ++ 41%N :: tail) g Hws eq_refl
              ltac:(lia)) as [l ->].
  cbn [flat_map fst snd]. rewrite run_seq.
  change (40%N :: year ++ 41%N :: tail) with (py "(" ++ year ++ 41%N :: tail).
  rewrite run_lit_app. cbn [flat_map fst snd]. rewrite app_nil_r, run_seq.
  rewrite <- Hlen. rewrite run_rep_exact by done. cbn [flat_map fst snd].
  change (41%N :: tail) with (py ")" ++ tail). rewrite run_lit_app.
  by eexists _, _.
Qed.

(** [^(.+?)\s*\(\d{4}\)] on a name without line break or parenthesis
    that ends with a character that is no whitespace: group 1 is the
    name. *)
Lemma search_year_name init c ws year tail :
  10%N ∉ init ++ [c] -> 40%N ∉ init ++ [c] -> isspace c = false ->
  Forall (fun x => isspace x = true) ws ->
  Forall (fun x => isdecimal x = true) year -> length year = 4%nat ->
  exists m, search year_pattern ((init ++ [c]) ++ ws ++ 40%N :: year ++ 41%N :: tail) = Some m
            /\ group 1 m = init ++ [c].
Proof.
  intros Hnl Hpar Hc Hws Hyear Hlen.
  set (name := init ++ [c]) in *. set (tl := ws ++ 40%N :: year ++ 41%N :: tail).
  set (R := RSeq (RRep CSpace 0 None true)
              (RSeq (RLit (py "(")) (RSeq (RRep CDigit 4 (Some 4%nat) true) (RLit (py ")"))))).
  assert (length name = S (length init)) as Hname
    by (unfold name; rewrite length_app; cbn; lia).
  destruct (run_year_tail (0 + length name) ws year tail
              [(1%nat, take (0 + length name - 0) (name ++ tl))] Hws Hyear Hlen)
    as (w & l & Hrun & Hg).
  fold R tl in Hrun.
  assert (head (run year_pattern 0 (name ++ tl) []) = Some w) as Hhead.
  { unfold year_pattern. fold R. rewrite run_seq. cbn [run Nat.eqb flat_map fst snd].
    rewrite app_nil_r. rewrite flat_map_map, flat_map_map. cbn [fst snd].
    unfold counts.
    assert (length name <= span CDot (name ++ tl))%nat as Hspan.
    { apply span_ge, Forall_forall. intros x Hx. cbn [cmatch].
      destruct (N.eqb_spec x 10) as [->|]; [done|done]. }
    replace (span CDot (name ++ tl) <? 1)%nat with false
      by (symmetry; apply Nat.ltb_ge; lia).
    eapply (head_flat_map_seq
              (fun k => run R (0 + k) (drop k (name ++ tl))
                          [(1%nat, take (0 + k - 0) (name ++ tl))]) w l (length name)).
    - rewrite drop_app_length. exact Hrun.
    - lia.
    - intros j Hj. unfold R. rewrite run_seq. apply flat_map_nil. intros w' Hw'.
      apply run_rep_in in Hw' as (k & Hk & ->). cbn [fst snd].
      apply counts_le in Hk.
      rewrite drop_app_le in Hk |- * by lia.
      assert (drop j name = drop j init ++ [c]) as Hdrop
        by (unfold name; rewrite drop_app_le by lia; done).
      assert (k < length (drop j name))%nat as Hlt.
      { eapply Nat.le_lt_trans; [exact Hk|]. apply span_lt. rewrite Hdrop.
        apply Exists_app. right. by constructor. }
      rewrite drop_app_le by lia.
      destruct (drop k (drop j name)) as [|x rest] eqn:E.
      { apply (f_equal length) in E. rewrite length_drop in E. cbn in E. lia. }
      assert (x ∈ name) as Hx.
      { assert (x ∈ drop k (drop j name)) as Hin by (rewrite E; left).
        rewrite drop_drop in Hin. by eapply subseteq_drop. }
      rewrite run_seq. cbn [run app]. change (py "(") with [40%N] at 1.
      cbn [strip_prefix]. destruct (N.eqb_spec 40 x) as [<-|]; [done|done]. }
  exists {| m_start := 0; m_end := w.1.1; m_text := take (w.1.1 - 0) (name ++ tl);
            m_groups := w.2 |}.
  split.
  - unfold search. destruct (name ++ tl); cbn [search_from];
      by rewrite (match_at_first _ _ _ _ Hhead).
  - unfold group. cbn [m_groups]. rewrite Hg. cbn [List.find fst snd Nat.eqb].
    replace (0 + length name - 0)%nat with (length name) by lia.
    by rewrite take_app_length.
Qed.

(** X15. Where [_extract_title] takes the title from. A page with the
    subtitle element gives its text, whatever else the page holds. A
    page without it is read at its [<title>] element: a title text
    without an opening parenthesis gives the empty title, and a title
    text that is a name, whitespace and a year of four digits in
    parentheses gives the name. All results are normalized. *)
Theorem title_from_subtitle_or_page_title :
  (forall pre attrs txt rest,
     (forall j, (j < length pre)%nat ->
        startswith (py "data-testid=" ++ q "subtitle")
          (drop j (pre ++ (py "data-testid=" ++ q "subtitle") ++ attrs ++
                   62%N :: txt ++ rest)) = false) ->
     62%N ∉ attrs -> txt <> [] -> 60%N ∉ txt ->
     (rest = [] \/ exists rest', rest = 60%N :: rest') ->
     _extract_title (pre ++ (py "data-testid=" ++ q "subtitle") ++ attrs ++
                     62%N :: txt ++ rest)
     = _clean_text txt)
  /\ (forall pre txt rest,
        contains (py "data-testid=" ++ q "subtitle")
          (pre ++ py "<title>" ++ txt ++ py "</title>" ++ rest) = false ->
        (forall j, (j < length pre)%nat ->
           startswith (py "<title>")
             (drop j (pre ++ py "<title>" ++ txt ++ py "</title>" ++ rest)) = false) ->
        txt <> [] -> 60%N ∉ txt ->
        (40%N ∉ txt ->
         _extract_title (pre ++ py "<title>" ++ txt ++ py "</title>" ++ rest) = [])
        /\ (forall init c ws year tail,
              txt = (init ++ [c]) ++ ws ++ 40%N :: year ++ 41%N :: tail ->
              10%N ∉ init ++ [c] -> 40%N ∉ init ++ [c] -> isspace c = false ->
              Forall (fun x => isspace x = true) ws ->
              Forall (fun x => isdecimal x = true) year -> length year = 4%nat ->
              _extract_title (pre ++ py "<title>" ++ txt ++ py "</title>" ++ rest)
              = _clean_text (init ++ [c]))).
Proof.
  split.
  - intros pre attrs txt rest Hpre Ha Hne Ht Hrest. unfold _extract_title, subtitle_pattern.
    destruct (search_tag_text _ pre attrs txt rest Hpre Ha Hne Ht Hrest) as (m & -> & _ & ->).
    done.
  - intros pre txt rest Hsub Hpre Hne Ht.
    destruct (search_title_text pre txt rest Hpre Hne Ht) as (m & Hm & Hg).
    assert (_extract_title (pre ++ py "<title>" ++ txt ++ py "</title>" ++ rest)
            = match search year_pattern txt with
              | Some title_match => _clean_text (group 1 title_match)
              | None => []
              end) as ->.
    { unfold _extract_title, subtitle_pattern.
      rewrite search_literal_absent by done. by rewrite Hm, Hg. }
    split.
    + intros Hpar. by rewrite search_year_absent.
    + intros init c ws year tail -> Hnl Hpar Hc Hws Hyear Hlen.
      destruct (search_year_name init c ws year tail Hnl Hpar Hc Hws Hyear Hlen)
        as (m' & -> & ->).
      done.
Qed.

End TitleFacts.

Lemma title_from_subtitle_or_page_title_witness :
  Scraper._extract_title
    (Str.py "<html><head>" ++ Str.py "<title>" ++
     ((Str.py "The Movi" ++ Str.py "e") ++ Str.py " " ++
      40%N :: Str.py "1999" ++ 41%N :: Str.py " - Parents guide") ++
     Str.py "</title>" ++ Str.py "</head></html>")
  = Scraper._clean_text (Str.py "The Movi" ++ Str.py "e").
Proof.
  refine (proj2 (proj2 title_from_subtitle_or_page_title (Str.py "<html><head>") _
                   (Str.py "</head></html>") _ _ _ _)
            (Str.py "The Movi") 101%N (Str.py " ") (Str.py "1999")
            (Str.py " - Parents guide") eq_refl _ _ eq_refl _ _ eq_refl).
  - reflexivity.
  - intros j Hj. do 12 (destruct j as [|j]; [reflexivity|]). cbn in Hj. lia.
  - discriminate.
  - rewrite list_elem_of_In. vm_compute. intuition discriminate.
  - rewrite list_elem_of_In. vm_compute. intuition discriminate.
  - rewrite list_elem_of_In. vm_compute. intuition discriminate.
  - repeat constructor.
  - repeat constructor.
Defined.

(** ** The translation service *)
Section TranslateMore.
Import Str Translate.
Variable create : str -> nat -> reply.
Variable max_retries : Z.

Lemma calls_app t1 t2 : calls (t1 ++ t2) = calls t1 ++ calls t2.
Proof. apply omap_app. Qed.

Lemma slept_app t1 t2 : slept (t1 ++ t2) = slept t1 + slept t2.
Proof.
  induction t1 as [|e t1 IH]; [reflexivity|]. cbn [app slept fold_right].
  fold (slept (t1 ++ t2)) (slept t1). destruct e; lia.
Qed.

(** As long as the attempts fail, the loop goes on; each failure but the
    last possible one is followed by a sleep of [2 ^ (attempt + 1)]. *)
Lemma attempt_loop_failures items n :
  forall b rest,
    (forall a, (b <= a < b + n)%nat -> exists e, create (user_prompt items) a = ApiError e) ->
    (Z.of_nat (b + n) <= max_retries - 1) ->
    exists t,
      attempt_loop create max_retries items (seq b n ++ rest)
      = ((attempt_loop create max_retries items rest).1,
         t ++ (attempt_loop create max_retries items rest).2)
      /\ calls t = seq b n
      /\ slept t = 2 ^ (Z.of_nat (b + n) + 1) - 2 ^ (Z.of_nat b + 1).
Proof.
  induction n as [|n IH]; intros b rest Hfail Hle.
  - exists []. cbn [seq app]. split; [by destruct (attempt_loop _ _ _ _)|].
    split; [done|]. rewrite Nat.add_0_r. change (slept []) with 0. lia.
  - cbn [seq app attempt_loop]. destruct (Hfail b ltac:(lia)) as [e ->].
    destruct (IH (S b) rest) as (t & -> & Hcalls & Hslept).
    { intros a Ha. apply Hfail. lia. }
    { lia. }
    replace (Z.of_nat b <? max_retries - 1) with true by (symmetry; apply Z.ltb_lt; lia).
    exists (EvCreate b :: EvSleep (2 ^ (Z.of_nat b + 1)) :: t). split; [done|].
    split.
    { change (calls (EvCreate b :: EvSleep (2 ^ (Z.of_nat b + 1)) :: t)) with (b :: calls t).
      by rewrite Hcalls. }
    change (slept (EvCreate b :: EvSleep (2 ^ (Z.of_nat b + 1)) :: t))
      with (2 ^ (Z.of_nat b + 1) + slept t).
    rewrite Hslept.
    replace (Z.of_nat (b + S n)) with (Z.of_nat (S b + n)) by lia.
    replace (Z.of_nat (S b) + 1) with (Z.of_nat b + 1 + 1) by lia.
    rewrite (Z.pow_add_r 2 (Z.of_nat b + 1) 1) by lia. lia.
Qed.

(** X16. [translate_items] on a list that is not empty. If the first
    reply comes at attempt [a], the attempts 0 to [a] are made and
    [2 ^ (a + 1) - 2] seconds are slept in all. If all the
    [max_retries] attempts raise, the result is [None] after exactly
    [max_retries] attempts, with [2 ^ max_retries - 2] seconds slept:
    no sleep follows the last attempt. *)
Theorem translate_items_backs_off items :
  items <> [] ->
  (forall a text,
     (a < Z.to_nat max_retries)%nat ->
     (forall b, (b < a)%nat -> exists e, create (user_prompt items) b = ApiError e) ->
     create (user_prompt items) a = Content text ->
     calls (translate_items create max_retries items).2 = seq 0 (S a)
     /\ slept (translate_items create max_retries items).2 = 2 ^ (Z.of_nat a + 1) - 2)
  /\ ((forall a, (a < Z.to_nat max_retries)%nat ->
         exists e, create (user_prompt items) a = ApiError e) ->
      (translate_items create max_retries items).1 = None
      /\ calls (translate_items create max_retries items).2 = seq 0 (Z.to_nat max_retries)
      /\ (0 < max_retries ->
          slept (translate_items create max_retries items).2 = 2 ^ max_retries - 2)).
Proof.
  intros Hne. destruct items as [|item items]; [done|]. cbn [translate_items].
  split.
  - intros a text Ha Hfail Htext.
    replace (Z.to_nat max_retries) with (a + S (Z.to_nat max_retries - S a))%nat by lia.
    rewrite seq_app.
    destruct (attempt_loop_failures (item :: items) a 0
                (seq (0 + a) (S (Z.to_nat max_retries - S a)))) as (t & -> & Hcalls & Hslept).
    { intros b Hb. apply Hfail. lia. }
    { lia. }
    cbn [seq attempt_loop Nat.add]. rewrite Htext. cbn [fst snd].
    rewrite calls_app, slept_app, Hcalls, Hslept.
    change (calls [EvCreate a]) with [(0 + a)%nat]. change (slept [EvCreate a]) with 0.
    split; [by rewrite <- seq_S|]. cbn [Nat.add]. change (Z.of_nat 0 + 1) with 1. lia.
  - intros Hfail. destruct (Z.to_nat max_retries) as [|n] eqn:En.
    + cbn [seq attempt_loop fst snd]. split; [done|]. split; [done|]. lia.
    + rewrite seq_S.
      destruct (attempt_loop_failures (item :: items) n 0 [(0 + n)%nat])
        as (t & -> & Hcalls & Hslept).
      { intros b Hb. apply Hfail. lia. }
      { lia. }
      cbn [attempt_loop]. destruct (Hfail (0 + n)%nat ltac:(lia)) as [e ->].
      replace (Z.of_nat (0 + n) <? max_retries - 1) with false
        by (symmetry; apply Z.ltb_ge; lia).
      cbn [fst snd app]. split; [done|].
      rewrite calls_app, slept_app, Hcalls, Hslept.
      change (calls [EvCreate (0 + n)%nat]) with [(0 + n)%nat].
      change (slept [EvCreate (0 + n)%nat]) with 0.
      split; [done|]. intros _. change (Z.of_nat 0 + 1) with 1.
      replace (Z.of_nat (0 + n) + 1) with max_retries by lia. lia.
Qed.

End TranslateMore.

Lemma translate_items_backs_off_witness :
  Translate.calls (Translate.translate_items Examples.one_item_service 3
                     [Str.py "A kiss"; Str.py "A fight"]).2 = [0; 1]%nat
  /\ Translate.slept (Translate.translate_items Examples.one_item_service 3
                        [Str.py "A kiss"; Str.py "A fight"]).2 = 2.
Proof.
  refine (proj1 (translate_items_backs_off Examples.one_item_service 3
                   [Str.py "A kiss"; Str.py "A fight"] _) 1%nat (Str.py " uno --- ") _ _ _).
  - discriminate.
  - cbn. lia.
  - intros [|b] Hb; [by eexists|lia].
  - reflexivity.
Defined.

(** ** The reply of the service *)
Section ReplyFacts.
Import Str Translate.

Lemma strip_direct s : strip s = rstrip_direct (lstrip s).
Proof. unfold strip. apply rstrip_direct_eq. Qed.

Lemma strip_idem s : strip (strip s) = strip s.
Proof.
  rewrite !strip_direct.
  rewrite (no_lead_lstrip (rstrip_direct (lstrip s)))
    by apply rstrip_direct_no_lead, lstrip_no_lead.
  apply rstrip_direct_idem.
Qed.

Lemma strip_fixed t : strip t = t -> no_lead t /\ rstrip_direct t = t.
Proof.
  intros H. assert (no_lead t) as Hnl.
  { rewrite <- H, strip_direct. apply rstrip_direct_no_lead, lstrip_no_lead. }
  split; [done|]. rewrite strip_direct, no_lead_lstrip in H; done.
Qed.

Lemma lstrip_ws pre u :
  Forall (fun x => isspace x = true) pre -> lstrip (pre ++ u) = lstrip u.
Proof.
  induction 1 as [|x pre Hx _ IH]; [done|]. unfold lstrip in *. cbn [app drop_while].
  by rewrite Hx.
Qed.

Lemma rstrip_direct_ws u w :
  Forall (fun x => isspace x = true) w -> rstrip_direct (u ++ w) = rstrip_direct u.
Proof.
  intros Hw. induction u as [|c u IH].
  - cbn [app rstrip_direct]. induction Hw as [|x w Hx _ IHw]; [done|].
    cbn [rstrip_direct]. by rewrite IHw, Hx.
  - cbn [app rstrip_direct]. by rewrite IH.
Qed.

(** An item between whitespace is what [strip] keeps. *)
Lemma strip_between pre t w :
  Forall (fun x => isspace x = true) pre -> Forall (fun x => isspace x = true) w ->
  t <> [] -> strip t = t -> strip (pre ++ t ++ w) = t.
Proof.
  intros Hpre Hw Hne Ht. apply strip_fixed in Ht as [Hnl Hr].
  rewrite strip_direct, lstrip_ws by done.
  rewrite no_lead_lstrip by (destruct t; [done|exact Hnl]).
  by rewrite rstrip_direct_ws.
Qed.

Lemma rstrip_direct_app x y :
  y <> [] -> rstrip_direct y = y -> rstrip_direct (x ++ y) = x ++ y.
Proof.
  intros Hne Hy. induction x as [|c x IH]; [done|]. cbn [app rstrip_direct].
  rewrite IH. by destruct (x ++ y) eqn:E; [apply app_eq_nil in E as [_ ?]|].
Qed.

Lemma split_aux_skip sep cur :
  forall k s, (k <= length s)%nat ->
    split_aux sep k cur s = split_aux sep 0 cur (drop k s).
Proof.
  induction k as [|k IH]; intros s Hk; [by rewrite drop_0|].
  destruct s as [|c s]; [cbn in Hk; lia|]. cbn [split_aux drop]. apply IH. cbn in Hk. lia.
Qed.

Lemma split_aux_no_sep sep :
  forall p cur, contains sep p = false -> split_aux sep 0 cur p = [rev cur ++ p].
Proof.
  induction p as [|c p IH]; intros cur H; [by rewrite app_nil_r|].
  apply contains_cons_false in H as [H0 H]. cbn [split_aux]. rewrite H0, IH by done.
  cbn [rev]. by rewrite <- app_assoc.
Qed.

Lemma split_aux_first sep rest :
  sep <> [] ->
  forall p cur,
    (forall j, (j < length p)%nat -> startswith sep (drop j (p ++ sep ++ rest)) = false) ->
    split_aux sep 0 cur (p ++ sep ++ rest) = (rev cur ++ p) :: split_aux sep 0 [] rest.
Proof.
  intros Hsep. induction p as [|c p IH]; intros cur Hp.
  - destruct sep as [|a sep']; [done|]. cbn [app split_aux].
    assert (startswith (a :: sep') (a :: sep' ++ rest) = true) as ->
      by (apply startswith_spec; by exists rest).
    rewrite app_nil_r. f_equal. cbn [length].
    replace (S (length sep') - 1)%nat with (length sep') by lia.
    rewrite split_aux_skip by (rewrite length_app; lia). by rewrite drop_app_length.
  - pose proof (Hp 0%nat ltac:(cbn; lia)) as H0. rewrite drop_0 in H0.
    cbn [app split_aux] in H0 |- *. rewrite H0, IH.
    + cbn [rev]. by rewrite <- app_assoc.
    + intros j Hj. apply (Hp (S j)). cbn. lia.
Qed.

Lemma not_dash x : isspace x = true -> (45 =? x)%N = false.
Proof. intros Hx. destruct (N.eqb_spec 45 x) as [<-|]; [done|done]. Qed.

Lemma no_dashes_in_ws w rest :
  Forall (fun x => isspace x = true) w ->
  forall j, (j < length w)%nat -> startswith (py "---") (drop j (w ++ rest)) = false.
Proof.
  induction 1 as [|x w Hx _ IH]; intros j Hj; [cbn in Hj; lia|].
  destruct j as [|j].
  - cbn. by rewrite not_dash.
  - cbn [app drop]. apply IH. cbn in Hj. lia.
Qed.

(** No separator begins in an item without one, nor in the whitespace
    after it. *)
Lemma no_dashes_before x w rest :
  isspace x = true -> Forall (fun y => isspace y = true) w ->
  forall p, contains (py "---") p = false ->
    forall j, (j < length (p ++ x :: w))%nat ->
      startswith (py "---") (drop j ((p ++ x :: w) ++ rest)) = false.
Proof.
  intros Hx Hw. induction p as [|a p IH]; intros Hp j Hj.
  - apply no_dashes_in_ws; [by constructor|done].
  - apply contains_cons_false in Hp as [H0 Hp]. destruct j as [|j].
    + change (py "---") with [45; 45; 45]%N in H0 |- *.
      destruct p as [|b [|c p]]; cbn [startswith app drop] in H0 |- *.
      * rewrite (not_dash x) by done. by destruct (45 =? a)%N.
      * rewrite (not_dash x) by done. by destruct (45 =? a)%N, (45 =? b)%N.
      * exact H0.
    + cbn [app drop]. apply IH; [done|]. cbn in Hj. lia.
Qed.

Lemma contains_after_ws pre t :
  Forall (fun x => isspace x = true) pre ->
  contains (py "---") t = false -> contains (py "---") (pre ++ t) = false.
Proof.
  induction 1 as [|x pre Hx _ IH]; intros Ht; [done|].
  cbn [app contains]. rewrite IH by done. cbn. by rewrite not_dash.
Qed.

(** The pieces of a reply that holds items between separators. *)
Lemma split_join ws1 ws2 :
  ws1 <> [] -> Forall (fun x => isspace x = true) ws1 ->
  Forall (fun x => isspace x = true) ws2 ->
  forall trs pre,
    trs <> [] -> Forall (fun x => isspace x = true) pre ->
    Forall (fun t => t <> [] /\ strip t = t /\ contains (py "---") t = false) trs ->
    map strip (split (py "---") (pre ++ join (ws1 ++ py "---" ++ ws2) trs)) = trs.
Proof.
  intros Hne1 Hws1 Hws2. induction trs as [|t trs IH]; intros pre Hne Hpre Hgood; [done|].
  apply Forall_cons in Hgood as [(Ht & Hstrip & Hno) Hgood].
  destruct trs as [|t' trs].
  - cbn [join]. unfold split. rewrite split_aux_no_sep by (by apply contains_after_ws).
    cbn [rev app map]. f_equal.
    rewrite <- (app_nil_r t) at 1. by apply strip_between.
  - change (join (ws1 ++ py "---" ++ ws2) (t :: t' :: trs))
      with (t ++ (ws1 ++ py "---" ++ ws2) ++ join (ws1 ++ py "---" ++ ws2) (t' :: trs)).
    replace (pre ++ t ++ (ws1 ++ py "---" ++ ws2) ++ join (ws1 ++ py "---" ++ ws2) (t' :: trs))
      with (((pre ++ t) ++ ws1) ++ py "---"
            ++ (ws2 ++ join (ws1 ++ py "---" ++ ws2) (t' :: trs)))
      by (by rewrite <- !app_assoc).
    unfold split. rewrite split_aux_first.
    + cbn [map rev app]. f_equal.
      * rewrite <- app_assoc. by apply strip_between.
      * by apply IH.
    + done.
    + destruct ws1 as [|x w]; [done|]. apply Forall_cons in Hws1 as [Hx Hw].
      apply no_dashes_before; [done|done|]. by apply contains_after_ws.
Qed.

Lemma join_stripped sep trs :
  trs <> [] -> Forall (fun t => t <> [] /\ strip t = t) trs ->
  strip (join sep trs) = join sep trs.
Proof.
  intros Hne Hgood. rewrite strip_direct.
  assert (no_lead (join sep trs)) as Hnl.
  { destruct trs as [|t trs]; [done|]. apply Forall_cons in Hgood as [[Ht Hs] _].
    apply strip_fixed in Hs as [Hnl _].
    destruct trs; cbn [join]; by destruct t. }
  rewrite no_lead_lstrip by done. clear Hnl.
  induction trs as [|t trs IH]; [done|]. apply Forall_cons in Hgood as [[Ht Hs] Hgood].
  apply strip_fixed in Hs as [_ Hr]. destruct trs as [|t' trs]; [done|].
  change (join sep (t :: t' :: trs)) with (t ++ sep ++ join sep (t' :: trs)).
  rewrite app_assoc. apply rstrip_direct_app; [|by apply IH].
  destruct t'; [by apply Forall_cons in Hgood as [[? _] _]|].
  by destruct trs.
Qed.

(** X17. What [translate_items] makes of a reply. The items it cuts
    out of a reply are never empty and carry no whitespace at their
    ends. A reply that holds translations (not empty, without
    whitespace at their ends and without [---]) between separators
    [---], each with whitespace before it and possibly after it, is cut
    into exactly these translations; when there are as many as items,
    they are the result. *)
Theorem reply_is_cut_at_the_separators :
  (forall content, Forall (fun item => item <> [] /\ strip item = item) (parse_reply content))
  /\ (forall ws1 ws2 trs,
        ws1 <> [] -> Forall (fun x => isspace x = true) ws1 ->
        Forall (fun x => isspace x = true) ws2 ->
        Forall (fun t => t <> [] /\ strip t = t /\ contains (py "---") t = false) trs ->
        parse_reply (join (ws1 ++ py "---" ++ ws2) trs) = trs
        /\ (forall create max_retries items a,
              length trs = length items -> items <> [] ->
              (a < Z.to_nat max_retries)%nat ->
              (forall b, (b < a)%nat -> exists e, create (user_prompt items) b = ApiError e) ->
              create (user_prompt items) a = Content (join (ws1 ++ py "---" ++ ws2) trs) ->
              (translate_items create max_retries items).1 = Some trs)).
Proof.
  split.
  - intros content. unfold parse_reply. apply Forall_forall. intros item Hitem.
    apply list_elem_of_In, filter_In in Hitem as [Hin Hne].
    apply in_map_iff in Hin as (piece & <- & _). split.
    + intros Hnil. rewrite Hnil in Hne. done.
    + apply strip_idem.
  - intros ws1 ws2 trs Hne1 Hws1 Hws2 Hgood.
    assert (parse_reply (join (ws1 ++ py "---" ++ ws2) trs) = trs) as Hparse.
    { unfold parse_reply. destruct trs as [|t trs]; [done|].
      rewrite join_stripped; [|done|].
      - pose proof (split_join ws1 ws2 Hne1 Hws1 Hws2 (t :: trs) [] ltac:(done)
                      ltac:(constructor) ltac:(done)) as Hsplit.
        rewrite app_nil_l in Hsplit. rewrite Hsplit.
        apply forallb_filter_id, forallb_forall. intros x Hx.
        rewrite Forall_forall in Hgood. destruct (Hgood x) as [Hx' _].
        { by apply list_elem_of_In. }
        unfold str_eqb. by rewrite bool_decide_eq_false_2.
      - eapply Forall_impl; [exact Hgood|]. by intros x (? & ? & ?). }
    split; [exact Hparse|].
    intros create max_retries items a Hlen Hitems Ha Hfail Hreply.
    destruct items as [|item items]; [done|]. cbn [translate_items].
    rewrite (attempt_loop_first_reply create max_retries (item :: items) 0
               (Z.to_nat max_retries) a _ ltac:(lia) Hreply
               ltac:(intros k Hk; apply Hfail; lia)).
    by rewrite Hparse, repair_same.
Qed.

End ReplyFacts.

Lemma reply_is_cut_at_the_separators_witness :
  Translate.parse_reply
    (Translate.join ([10%N] ++ Str.py "---" ++ [10%N]) [Str.py "uno - dos"; Str.py "tres"])
  = [Str.py "uno - dos"; Str.py "tres"].
Proof.
  refine (proj1 (proj2 reply_is_cut_at_the_separators [10%N] [10%N]
                   [Str.py "uno - dos"; Str.py "tres"] _ _ _ _)).
  - discriminate.
  - repeat constructor.
  - repeat constructor.
  - repeat constructor; discriminate.
Defined.

(** ** Translating a guide file *)
Section TranslateFileFacts.
Import Str Translate.
Variable client : Scraper.category -> str -> nat -> reply.
Variable force : bool.

Lemma attempt_loop_some_length create max_retries items :
  forall l out,
    (attempt_loop create max_retries items l).1 = Some out -> length out = length items.
Proof.
  induction l as [|a l IH]; intros out; [done|]. cbn [attempt_loop].
  destruct (create (user_prompt items) a).
  - intros [= <-]. apply repair_length.
  - destruct (attempt_loop create max_retries items l) as [r t]. apply IH.
Qed.

Lemma translate_items_some_length create max_retries items out :
  (translate_items create max_retries items).1 = Some out -> length out = length items.
Proof.
  destruct items as [|item items]; [by intros [= <-]|]. apply attempt_loop_some_length.
Qed.

Lemma all_categories c : c ∈ CATEGORIES.
Proof. unfold CATEGORIES. destruct c; set_solver. Qed.

Lemma categories_nodup : NoDup CATEGORIES.
Proof. unfold CATEGORIES. repeat (constructor; [set_solver|]). constructor. Qed.

(** A round of the loop leaves the other categories alone. *)
Lemma translate_category_frame (d : file_data) m t c c' :
  c' <> c -> (translate_category client force (d, m, t) c).1.1 c' = d c'.
Proof.
  intros Hne. unfold translate_category. destruct (d c) as [cd|]; [|done].
  destruct (default [] (cd_items cd)) as [|i its].
  - cbn. unfold set_category. by destruct (decide (c' = c)).
  - destruct (negb force && has_items_zh cd); [done|].
    destruct (translate_items _ _ _) as [[tr|] calls]; cbn; [|done].
    unfold set_category. by destruct (decide (c' = c)).
Qed.

(** What a round does depends on the dictionary of its category only. *)
Lemma translate_category_local (d1 d2 : file_data) m t c :
  d1 c = d2 c ->
  (translate_category client force (d1, m, t) c).1.1 c
  = (translate_category client force (d2, false, []) c).1.1 c
  /\ (translate_category client force (d1, m, t) c).1.2
     = m || (translate_category client force (d2, false, []) c).1.2
  /\ (translate_category client force (d1, m, t) c).2
     = t ++ (translate_category client force (d2, false, []) c).2.
Proof.
  intros H. unfold translate_category. rewrite H. destruct (d2 c) as [cd|] eqn:E.
  2: { cbn [fst snd]. rewrite orb_false_r, app_nil_r. repeat split; congruence. }
  destruct (default [] (cd_items cd)) as [|i its].
  { cbn [fst snd]. unfold set_category. rewrite !decide_True by done.
    by rewrite orb_false_r, app_nil_r. }
  destruct (negb force && has_items_zh cd).
  { cbn [fst snd]. rewrite orb_false_r, app_nil_r. repeat split; congruence. }
  destruct (translate_items _ _ _) as [[tr|] calls]; cbn [fst snd app].
  - unfold set_category. rewrite !decide_True by done. by rewrite orb_true_r.
  - rewrite orb_false_r. repeat split; congruence.
Qed.

Lemma existsb_ext_in {A} (f g : A -> bool) l :
  (forall x, x ∈ l -> f x = g x) -> existsb f l = existsb g l.
Proof.
  induction l as [|x l IH]; intros H; [done|]. cbn [existsb].
  rewrite (H x) by left. rewrite IH; [done|]. intros y Hy. apply H. by right.
Qed.

Lemma flat_map_ext_elem {A B} (f g : A -> list B) l :
  (forall x, x ∈ l -> f x = g x) -> flat_map f l = flat_map g l.
Proof.
  induction l as [|x l IH]; intros H; [done|]. cbn [flat_map].
  rewrite (H x) by left. rewrite IH; [done|]. intros y Hy. apply H. by right.
Qed.

(** The loop over categories that differ: each category is treated as
    if it were alone. *)
Lemma fold_categories cs :
  NoDup cs ->
  forall (d : file_data) m t,
    (forall c, (fold_left (translate_category client force) cs (d, m, t)).1.1 c
               = if decide (c ∈ cs)
                 then (translate_category client force (d, false, []) c).1.1 c
                 else d c)
    /\ (fold_left (translate_category client force) cs (d, m, t)).1.2
       = m || existsb (fun c => (translate_category client force (d, false, []) c).1.2) cs
    /\ (fold_left (translate_category client force) cs (d, m, t)).2
       = t ++ flat_map (fun c => (translate_category client force (d, false, []) c).2) cs.
Proof.
  induction 1 as [|c cs Hnotin Hnd IH]; intros d m t.
  - cbn. split; [|by rewrite orb_false_r, app_nil_r].
    intros c. by rewrite decide_False by apply not_elem_of_nil.
  - cbn [fold_left].
    pose proof (translate_category_local d d m t c eq_refl) as (Hd1 & Hm1 & Ht1).
    destruct (translate_category client force (d, m, t) c) as [[d1 m1] t1] eqn:E.
    cbn [fst snd] in Hd1, Hm1, Ht1.
    assert (forall c', c' <> c -> d1 c' = d c') as Hframe.
    { intros c' Hne. pose proof (translate_category_frame d m t c c' Hne) as HF.
      by rewrite E in HF. }
    destruct (IH d1 m1 t1) as (Hd & Hm & Ht).
    assert (forall x, x ∈ cs ->
              (translate_category client force (d1, false, []) x).1.1 x
              = (translate_category client force (d, false, []) x).1.1 x
              /\ (translate_category client force (d1, false, []) x).1.2
                 = (translate_category client force (d, false, []) x).1.2
              /\ (translate_category client force (d1, false, []) x).2
                 = (translate_category client force (d, false, []) x).2) as Hsame.
    { intros x Hx. apply (translate_category_local d1 d false [] x).
      apply Hframe. intros ->. done. }
    split; [|split].
    + intros x. rewrite Hd. destruct (decide (x ∈ cs)) as [Hx|Hx].
      * rewrite decide_True by (by right). by apply Hsame.
      * destruct (decide (x = c)) as [->|Hne].
        -- rewrite decide_True by left. exact Hd1.
        -- rewrite decide_False by (intros [?|?]%elem_of_cons; done). by apply Hframe.
    + rewrite Hm, Hm1. cbn [existsb]. rewrite <- orb_assoc. f_equal. f_equal.
      apply existsb_ext_in. intros x Hx. by apply Hsame.
    + rewrite Ht, Ht1. cbn [flat_map]. rewrite <- app_assoc. f_equal. f_equal.
      apply flat_map_ext_elem. intros x Hx. by apply Hsame.
Qed.

(** In a run that is not skipped at the start, no category is skipped
    for being translated already. *)
Lemma no_skip_inside (data : file_data) c cd :
  negb force &&
  existsb (fun cat => match data cat with
                      | Some cat_data => has_items_zh cat_data
                      | None => false
                      end) CATEGORIES = false ->
  data c = Some cd -> negb force && has_items_zh cd = false.
Proof.
  intros Hskip Hc. destruct force; [done|]. cbn [negb andb] in Hskip |- *.
  apply not_true_iff_false. intros Hzh. apply not_true_iff_false in Hskip. apply Hskip.
  apply existsb_exists. exists c. split; [apply list_elem_of_In, all_categories|].
  by rewrite Hc.
Qed.

(** What a round leaves under its category when none is skipped. *)
Lemma translate_category_result (d : file_data) c cd :
  d c = Some cd -> negb force && has_items_zh cd = false ->
  exists zh,
    (translate_category client force (d, false, []) c).1.1 c
    = Some {| cd_items := cd_items cd; cd_items_zh := zh |}
    /\ match default [] (cd_items cd) with
       | [] => zh = Some []
       | item :: items =>
           match (translate_items (client c) 3 (item :: items)).1 with
           | Some tr => zh = Some tr /\ length tr = length (item :: items)
           | None => zh = cd_items_zh cd
           end
       end.
Proof.
  intros Hc Hskip. unfold translate_category. rewrite Hc.
  destruct (default [] (cd_items cd)) as [|i its].
  { eexists. cbn. unfold set_category. by rewrite decide_True by done. }
  rewrite Hskip.
  pose proof (translate_items_some_length (client c) 3 (i :: its)) as Hlen.
  destruct (translate_items (client c) 3 (i :: its)) as [[tr|] calls]; cbn [fst snd] in *.
  - eexists. unfold set_category. rewrite decide_True by done. split; [done|].
    split; [done|]. by apply Hlen.
  - exists (cd_items_zh cd). rewrite Hc. by destruct cd.
Qed.

(** The run that wrote the file. *)
Lemma written_run (data : file_data) write_ok returned data' t :
  translate_file client force (Some data) write_ok = (returned, Some data', t) ->
  returned = true
  /\ negb force &&
     existsb (fun cat => match data cat with
                         | Some cat_data => has_items_zh cat_data
                         | None => false
                         end) CATEGORIES = false
  /\ (forall c, data' c = (translate_category client force (data, false, []) c).1.1 c)
  /\ existsb (fun c => (translate_category client force (data, false, []) c).1.2) CATEGORIES
     = true.
Proof.
  unfold translate_file. destruct (negb force && existsb _ CATEGORIES) eqn:Hskip; [done|].
  destruct (fold_categories CATEGORIES categories_nodup data false []) as (Hd & Hm & _).
  destruct (fold_left _ CATEGORIES _) as [[d' m'] t']. cbn [fst snd] in Hd, Hm.
  destruct m'; [|done]. destruct write_ok; [|done]. intros [= <- <- <-].
  split; [done|]. split; [done|]. split; [|by rewrite Hm].
  intros c. rewrite Hd. by rewrite decide_True by apply all_categories.
Qed.

(** X18. The file [translate_file] writes. A category the file does not
    have is not added; the items of a category are never changed; a
    category without items gets the empty list of translations; a
    category with items gets the list [translate_items] returned for
    them, which is as long as the items, and keeps what it had if
    [translate_items] gave up. *)
Theorem written_file_keeps_items_and_lengths (data : file_data) write_ok returned data' t :
  translate_file client force (Some data) write_ok = (returned, Some data', t) ->
  returned = true
  /\ forall c,
       match data c with
       | None => data' c = None
       | Some cd =>
           exists zh,
             data' c = Some {| cd_items := cd_items cd; cd_items_zh := zh |}
             /\ match default [] (cd_items cd) with
                | [] => zh = Some []
                | item :: items =>
                    match (translate_items (client c) 3 (item :: items)).1 with
                    | Some tr => zh = Some tr /\ length tr = length (item :: items)
                    | None => zh = cd_items_zh cd
                    end
                end
       end.
Proof.
  intros (Hret & Hskip & Hd & _)%written_run. split; [exact Hret|]. intros c.
  rewrite Hd. destruct (data c) as [cd|] eqn:Hc.
  - apply translate_category_result; [done|]. by eapply no_skip_inside.
  - unfold translate_category. by rewrite Hc.
Qed.

(** X19. After a run that wrote the file, a run without [force] on the
    written file returns [True] at once: it calls nothing and writes
    nothing, whatever categories the first run could not translate. *)
Theorem written_file_is_skipped_next_time (data : file_data) write_ok returned data' t :
  translate_file client force (Some data) write_ok = (returned, Some data', t) ->
  forall client' write_ok',
    translate_file client' false (Some data') write_ok' = (true, None, []).
Proof.
  intros (_ & Hskip & Hd & Hm)%written_run client' write_ok'.
  apply existsb_exists in Hm as (c & _ & Hc).
  assert (exists tr, data' c = Some tr /\ has_items_zh tr = true) as (cd' & Hcd' & Hzh).
  { rewrite Hd. unfold translate_category in Hc |- *.
    destruct (data c) as [cd|] eqn:Edata; [|done].
    destruct (default [] (cd_items cd)) as [|i its]; [done|].
    destruct (negb force && has_items_zh cd); [done|].
    pose proof (translate_items_some_length (client c) 3 (i :: its)) as Hlen.
    destruct (translate_items (client c) 3 (i :: its)) as [[tr|] calls]; [|done].
    cbn [fst snd] in *. eexists. unfold set_category. rewrite decide_True by done.
    split; [done|]. specialize (Hlen tr eq_refl). by destruct tr. }
  unfold translate_file. cbn [negb andb].
  assert (existsb (fun cat => match data' cat with
                              | Some cat_data => has_items_zh cat_data
                              | None => false
                              end) CATEGORIES = true) as ->; [|done].
  apply existsb_exists. exists c. split; [apply list_elem_of_In, all_categories|].
  by rewrite Hcd'.
Qed.

Lemma asked_app t1 t2 : asked (t1 ++ t2) = asked t1 ++ asked t2.
Proof. apply omap_app. Qed.

Lemma asked_flat_map (f : Scraper.category -> list file_event) (p : Scraper.category -> bool) :
  forall cs, (forall c, asked (f c) = if p c then [c] else []) ->
    asked (flat_map f cs) = List.filter p cs.
Proof.
  intros cs H. induction cs as [|c cs IH]; [done|]. cbn [flat_map List.filter].
  rewrite asked_app, H, IH. by destruct (p c).
Qed.

Lemma delays_app t1 t2 : delays (t1 ++ t2) = (delays t1 + delays t2)%nat.
Proof. unfold delays. by rewrite List.filter_app, length_app. Qed.

(** X20. In a run that is not skipped, [translate_items] is called
    exactly once for every category of the file that has items, in the
    order of [CATEGORIES], whatever the calls return: a failure stops
    nothing. If all these calls give up, nothing is written and
    [translate_file] still returns [True]. *)
Theorem failed_translations_are_not_reported (data : file_data) write_ok :
  negb force &&
  existsb (fun cat => match data cat with
                      | Some cat_data => has_items_zh cat_data
                      | None => false
                      end) CATEGORIES = false ->
  asked (translate_file client force (Some data) write_ok).2
  = List.filter (fun c => match data c with
                          | Some cd => match default [] (cd_items cd) with
                                       | [] => false
                                       | _ :: _ => true
                                       end
                          | None => false
                          end) CATEGORIES
  /\ ((forall c cd, data c = Some cd ->
         (translate_items (client c) 3 (default [] (cd_items cd))).1 = None
         \/ default [] (cd_items cd) = []) ->
      (translate_file client force (Some data) write_ok).1 = (true, None)
      /\ delays (translate_file client force (Some data) write_ok).2 = 0%nat).
Proof.
  intros Hskip. unfold translate_file. rewrite Hskip.
  destruct (fold_categories CATEGORIES categories_nodup data false []) as (_ & Hm & Ht).
  destruct (fold_left _ CATEGORIES _) as [[d' m'] t']. cbn [fst snd] in Hm, Ht.
  cbn [app orb] in Hm, Ht. split.
  - assert (asked t' = List.filter (fun c => match data c with
                          | Some cd => match default [] (cd_items cd) with
                                       | [] => false
                                       | _ :: _ => true
                                       end
                          | None => false
                          end) CATEGORIES) as Hasked.
    { rewrite Ht. apply asked_flat_map. intros c. unfold translate_category.
      destruct (data c) as [cd|] eqn:Hc; [|done].
      destruct (default [] (cd_items cd)) as [|i its]; [done|].
      rewrite (no_skip_inside data c cd Hskip Hc).
      by destruct (translate_items _ _ _) as [[tr|] calls]. }
    by destruct m', write_ok.
  - intros Hfail.
    assert (forall c, (translate_category client force (data, false, []) c).1.2 = false
                      /\ delays (translate_category client force (data, false, []) c).2
                         = 0%nat) as Hnone.
    { intros c. unfold translate_category. destruct (data c) as [cd|] eqn:Hc; [|done].
      destruct (Hfail c cd Hc) as [Hnone|Hnil].
      - destruct (default [] (cd_items cd)) as [|i its]; [done|].
        destruct (negb force && has_items_zh cd); [done|].
        destruct (translate_items _ _ _) as [[tr|] calls]; [done|done].
      - by rewrite Hnil. }
    assert (m' = false) as ->.
    { rewrite Hm. apply not_true_iff_false. intros (c & _ & Hc)%existsb_exists.
      destruct (Hnone c) as [Hc' _]. congruence. }
    cbn [fst snd]. split; [done|]. rewrite Ht.
    assert (forall cs,
              delays (flat_map (fun c => (translate_category client force (data, false, []) c).2)
                        cs) = 0%nat) as Hall; [|apply Hall].
    induction cs as [|c cs IH]; [done|]. cbn [flat_map].
    rewrite delays_app, IH. by destruct (Hnone c) as [_ ->].
Qed.

End TranslateFileFacts.

Lemma written_file_keeps_items_and_lengths_witness :
  exists data',
    (Translate.translate_file Examples.first_category_service false
       (Some Examples.sample_file) true).1.2 = Some data'
    /\ data' Scraper.sex_nudity_key
       = Some {| Translate.cd_items := Some [Str.py "A kiss"];
                 Translate.cd_items_zh := Some [Str.py "Un beso"] |}
    /\ data' Scraper.profanity_key = Examples.sample_file Scraper.profanity_key.
Proof.
  eexists. split; [reflexivity|].
  pose proof (written_file_keeps_items_and_lengths Examples.first_category_service false
                Examples.sample_file true true _ _ eq_refl) as [_ H].
  split.
  - destruct (H Scraper.sex_nudity_key) as (zh & -> & Hzh). cbn in Hzh.
    destruct Hzh as [-> _]. reflexivity.
  - destruct (H Scraper.profanity_key) as (zh & -> & Hzh). cbn in Hzh.
    rewrite Hzh. reflexivity.
Defined.

Lemma written_file_is_skipped_next_time_witness :
  Translate.translate_file Examples.no_service false
    (Some (default Examples.sample_file
             (Translate.translate_file Examples.first_category_service false
                (Some Examples.sample_file) true).1.2)) true
  = (true, None, []).
Proof.
  apply (written_file_is_skipped_next_time Examples.first_category_service false
           Examples.sample_file true true _
           (Translate.translate_file Examples.first_category_service false
              (Some Examples.sample_file) true).2).
  reflexivity.
Defined.

Lemma failed_translations_are_not_reported_witness :
  Translate.asked (Translate.translate_file Examples.no_service false
                     (Some Examples.sample_file) true).2
  = [Scraper.sex_nudity_key; Scraper.profanity_key]
  /\ (Translate.translate_file Examples.no_service false (Some Examples.sample_file) true).1
     = (true, None).
Proof.
  destruct (failed_translations_are_not_reported Examples.no_service false
              Examples.sample_file true eq_refl) as [Hasked Hfail].
  split; [exact Hasked|]. apply Hfail. intros c cd Hc.
  destruct c; cbn in Hc; try discriminate; injection Hc as <-;
    first [left; reflexivity|right; reflexivity].
Defined.

(** ** The certificates section *)
Section CertificateSection.
Import Str Guide Re Scraper.

Lemma run_no_section_end i s g :
  section_end s = false ->
  run (RAlt (RLit (py "</section>")) (RLit (py "<footer"))) i s g = [].
Proof.
  unfold section_end. intros [H1 H2]%orb_false_iff. cbn [run].
  by rewrite (strip_prefix_startswith _ _ H1), (strip_prefix_startswith _ _ H2).
Qed.

Lemma run_section_end i term rest g :
  term = py "</section>" \/ term = py "<footer" ->
  run (RAlt (RLit (py "</section>")) (RLit (py "<footer"))) i (term ++ rest) g
  = [((i + length term)%nat, rest, g)].
Proof. intros [-> | ->]; vm_compute; reflexivity. Qed.

Lemma section_end_spec s :
  section_end s = true
  <-> exists term rest, (term = py "</section>" \/ term = py "<footer") /\ s = term ++ rest.
Proof.
  unfold section_end. rewrite orb_true_iff, !startswith_spec. split.
  - intros [[rest ->]|[rest ->]]; eexists _, rest; split; try reflexivity; tauto.
  - intros (term & rest & [-> | ->] & ->); [left|right]; by exists rest.
Qed.

Lemma run_lazy_group n i s g :
  run (RGroup n lazy_any) i s g
  = map (fun k => ((i + k)%nat, drop k s, (n, take k s) :: g)) (seq 0 (length s + 1)).
Proof.
  rewrite run_group. unfold lazy_any. cbn [run]. unfold counts.
  rewrite span_any. cbn [Nat.ltb Nat.leb]. rewrite Nat.sub_0_r, map_map.
  apply map_ext. intros k. cbn [fst snd]. by replace (i + k - i)%nat with k by lia.
Qed.

(** The match of [cert_section_pattern] at the marker: up to the first
    [</section>] or [<footer] after it, which it takes. *)
Lemma match_at_cert_section i body term rest :
  term = py "</section>" \/ term = py "<footer" ->
  (forall j, (j < length body)%nat ->
     section_end (drop j (body ++ term ++ rest)) = false) ->
  match_at cert_section_pattern false i (cert_marker ++ body ++ term ++ rest)
  = Some {| m_start := i;
            m_end := (i + length cert_marker + length body + length term)%nat;
            m_text := cert_marker ++ body ++ term;
            m_groups := [(1%nat, body)] |}.
Proof.
  intros Hterm Hbefore.
  assert (head (run cert_section_pattern i (cert_marker ++ body ++ term ++ rest) [])
          = Some ((i + length cert_marker + length body + length term)%nat, rest,
                  [(1%nat, body)])) as Hhead.
  { unfold cert_section_pattern.
    change (py "data-testid=" ++ q "certificates-container") with cert_marker.
    generalize cert_marker. intros mk.
    rewrite run_seq, run_lit_app. cbn [flat_map fst snd]. rewrite app_nil_r.
    rewrite run_seq, run_lazy_group, flat_map_map. cbn [fst snd].
    apply (head_flat_map_seq _ _ [] (length body)).
    - by rewrite drop_app_length, take_app_length, (run_section_end _ _ _ _ Hterm).
    - rewrite length_app. lia.
    - intros j Hj. apply run_no_section_end, Hbefore. lia. }
  rewrite (match_at_first _ _ _ _ Hhead). cbn [fst snd]. f_equal. f_equal.
  replace (i + length cert_marker + length body + length term - i)%nat
    with (length (cert_marker ++ body ++ term)) by (rewrite !length_app; lia).
  replace (cert_marker ++ body ++ term ++ rest)
    with ((cert_marker ++ body ++ term) ++ rest) by (by rewrite <- !app_assoc).
  apply take_app_length.
Qed.

(** Without a [</section>] or [<footer] after the first marker the
    pattern matches nowhere. *)
Lemma search_cert_section_none pre tail :
  (forall j, (j < length pre)%nat ->
     startswith cert_marker (drop j (pre ++ cert_marker ++ tail)) = false) ->
  (forall j, section_end (drop j tail) = false) ->
  search cert_section_pattern (pre ++ cert_marker ++ tail) = None.
Proof.
  intros Hfirst Hnone. apply no_way_search. intros k i g.
  unfold cert_section_pattern.
  change (py "data-testid=" ++ q "certificates-container") with cert_marker.
  revert Hfirst. generalize cert_marker. intros mk Hfirst.
  rewrite run_seq. destruct (decide (k < length pre)%nat) as [Hk|Hk].
  - cbn [run]. by rewrite (strip_prefix_startswith _ _ (Hfirst k Hk)).
  - apply flat_map_nil. intros w (s' & Hs' & ->)%run_lit_in. cbn [fst snd].
    assert (s' = drop (k - length pre) tail) as ->.
    { apply (f_equal (drop (length mk))) in Hs'.
      rewrite drop_app_length, drop_drop in Hs'. rewrite <- Hs'.
      rewrite drop_app_ge by lia. rewrite drop_app_ge by lia. f_equal. lia. }
    apply no_way_seq. intros k' i' g'. apply run_no_section_end, Hnone.
Qed.

Lemma first_true_or_none (P : str -> bool) :
  P [] = false ->
  forall s, (forall j, P (drop j s) = false)
    \/ exists k, (k < length s)%nat /\ P (drop k s) = true
         /\ forall j, (j < k)%nat -> P (drop j s) = false.
Proof.
  intros Hnil. induction s as [|c s [IH|(k & Hk & HP & Hj)]].
  - left. intros j. by rewrite drop_nil.
  - destruct (P (c :: s)) eqn:E.
    + right. exists 0%nat. split; [cbn; lia|]. split; [done|]. intros; lia.
    + left. intros [|j]; [done|]. apply IH.
  - right. destruct (P (c :: s)) eqn:E.
    + exists 0%nat. split; [cbn; lia|]. split; [done|]. intros; lia.
    + exists (S k). split; [cbn; lia|]. split; [done|].
      intros [|j] Hlt; [done|]. apply Hj. lia.
Qed.

(** C7, as the code has it: a page without the marker of the
    certificates container has no certifications, and neither has a page
    in which no [</section>] and no [<footer] comes after the first
    marker, whatever countries and ratings follow it. Otherwise the
    section runs from the first marker to the end of the first
    [</section>] or [<footer] after it, and the certifications are the
    entries of its blocks, in their order, one for each country block that
    has a first country label that is not empty and at least one rating,
    and none for the others, unless cleaning a country or a rating
    raises; every entry has a country and a rating; the page of the
    example, with three countries of which one has no rating, gives
    exactly two entries. *)
Theorem certifications_one_per_rated_country (doc : str) :
  (contains cert_marker doc = false ->
   _extract_certifications doc = [] /\ _extract_certifications_raises doc = None)
  /\ (contains cert_marker doc = true ->
      exists pre tail,
        doc = pre ++ cert_marker ++ tail
        /\ (forall j, (j < length pre)%nat -> startswith cert_marker (drop j doc) = false)
        /\ (((forall j, section_end (drop j tail) = false)
             /\ _extract_certifications doc = []
             /\ _extract_certifications_raises doc = None)
            \/ exists body term rest,
                 tail = body ++ term ++ rest
                 /\ (term = py "</section>" \/ term = py "<footer")
                 /\ (forall j, (j < length body)%nat -> section_end (drop j tail) = false)
                 /\ _extract_certifications doc
                    = omap block_entry
                        (split cert_item_boundary (cert_marker ++ body ++ term))
                 /\ _extract_certifications_raises doc
                    = Html.first_raised country_block_raises
                        (split cert_item_boundary (cert_marker ++ body ++ term))))
  /\ (forall block, block_country block = None -> block_entry block = None)
  /\ (forall block, block_country block = Some [] -> block_entry block = None)
  /\ (forall block, block_ratings block = [] -> block_entry block = None)
  /\ (forall block c r rs,
        contains (py "certificates-item") block = true ->
        block_country block = Some c -> c <> [] -> block_ratings block = r :: rs ->
        block_entry block = Some {| country := c; ratings := r :: rs |})
  /\ Forall (fun it => country it <> [] /\ ratings it <> []) (_extract_certifications doc)
  /\ (forall pre attrs name rest,
        (forall j, (j < length pre)%nat ->
           startswith (py "ipc-metadata-list-item__label")
             (drop j (pre ++ py "ipc-metadata-list-item__label" ++ attrs ++
                      62%N :: name ++ rest)) = false) ->
        62%N ∉ attrs -> name <> [] -> 60%N ∉ name ->
        (rest = [] \/ exists rest', rest = 60%N :: rest') ->
        block_country (pre ++ py "ipc-metadata-list-item__label" ++ attrs ++
                       62%N :: name ++ rest)
        = Some (_clean_text name))
  /\ map country (_extract_certifications Examples.two_category_page)
     = [py "Argentina"; py "Canada"].
Proof.
  split.
  { intros Habsent. unfold _extract_certifications, _extract_certifications_raises, search.
    unfold cert_section_pattern.
    by rewrite (search_from_literal_absent _ _ _ _ Habsent). }
  split.
  { intros Hin. destruct (first_occurrence _ _ Hin) as (pre & tail & -> & Hfirst).
    exists pre, tail. split; [done|]. split; [exact Hfirst|].
    destruct (first_true_or_none section_end eq_refl tail)
      as [Hnone|(k & Hk & Hend & Hbefore)].
    - left. split; [exact Hnone|].
      unfold _extract_certifications, _extract_certifications_raises.
      by rewrite (search_cert_section_none pre tail Hfirst Hnone).
    - right. apply section_end_spec in Hend as (term & rest & Hterm & Hrest).
      exists (take k tail), term, rest.
      assert (tail = take k tail ++ term ++ rest) as Htail
        by (by rewrite <- Hrest, take_drop).
      split; [exact Htail|]. split; [exact Hterm|].
      split; [intros j Hj; apply Hbefore; rewrite length_take in Hj; lia|].
      assert (search cert_section_pattern (pre ++ cert_marker ++ tail)
              = Some {| m_start := (0 + length pre)%nat;
                        m_end := (0 + length pre + length cert_marker
                                  + length (take k tail) + length term)%nat;
                        m_text := cert_marker ++ take k tail ++ term;
                        m_groups := [(1%nat, take k tail)] |}) as Hm.
      { unfold search. apply search_from_leftmost.
        - intros j Hj. unfold cert_section_pattern.
          apply match_at_literal_absent. by apply Hfirst.
        - rewrite Htail at 1. apply match_at_cert_section; [exact Hterm|].
          rewrite <- Htail. intros j Hj. apply Hbefore. rewrite length_take in Hj. lia. }
      unfold _extract_certifications, _extract_certifications_raises.
      rewrite Hm. cbn [m_text]. split; [|done].
      apply collect_certifications_omap. }
  split; [intros b Hb; unfold block_entry; rewrite Hb; by case_match|].
  split; [intros b Hb; unfold block_entry; rewrite Hb, str_eqb_nil_true; by case_match|].
  split; [intros b Hb; unfold block_entry; rewrite Hb; by repeat case_match|].
  split.
  { intros b c r rs H1 H2 H3 H4. unfold block_entry. rewrite H1, H2, H4.
    destruct (str_eqb c []) eqn:E; [by apply str_eqb_nil in E|done]. }
  split; [|split; [|by vm_compute]].
  - unfold _extract_certifications.
    destruct (search cert_section_pattern doc) as [m|]; [|constructor].
    rewrite collect_certifications_omap. apply Forall_forall. intros it Hit.
    apply list_elem_of_omap in Hit as (b & _ & Hb).
    apply block_entry_Some in Hb. tauto.
  - intros pre attrs name rest Hpre Ha Hne Ht Hrest.
    destruct (search_tag_text _ pre attrs name rest Hpre Ha Hne Ht Hrest)
      as (lm & Hlm & _ & Hg).
    rewrite block_country_search.
    assert (search country_pattern
              (pre ++ py "ipc-metadata-list-item__label" ++ attrs ++ 62%N :: name ++ rest)
            = Some lm) as -> by exact Hlm.
    simpl. by rewrite Hg.
Qed.

End CertificateSection.

Lemma certifications_one_per_rated_country_witness :
  exists pre body term rest,
    Examples.two_category_page = pre ++ Scraper.cert_marker ++ body ++ term ++ rest
    /\ (term = Str.py "</section>" \/ term = Str.py "<footer")
    /\ Scraper._extract_certifications Examples.two_category_page
       = omap Scraper.block_entry
           (Re.split Scraper.cert_item_boundary (Scraper.cert_marker ++ body ++ term))
    /\ length (Scraper._extract_certifications Examples.two_category_page) = 2%nat.
Proof.
  destruct (proj1 (proj2 (certifications_one_per_rated_country Examples.two_category_page))
              ltac:(vm_compute; reflexivity))
    as (pre & tail & Hdoc & _ & [(_ & Hnil & _)|(body & term & rest & Htail & Hterm & _ & Hc & _)]).
  - vm_compute in Hnil. discriminate Hnil.
  - exists pre, body, term, rest. rewrite Hdoc, Htail at 1.
    split; [reflexivity|]. split; [exact Hterm|]. split; [exact Hc|].
    vm_compute. reflexivity.
Defined.

(** C7 does not hold of every page with a container: here the
    container holds a country with a rating and the code returns no
    certification, the page having no [</section>] and no [<footer]. *)
Lemma container_without_end_gives_nothing :
  Str.contains Scraper.cert_marker Examples.unclosed_certificates_page = true
  /\ map Guide.country
       (omap Scraper.block_entry
          (Re.split Scraper.cert_item_boundary Examples.unclosed_certificates_page))
     = [Str.py "Argentina"]
  /\ Scraper._extract_certifications Examples.unclosed_certificates_page = [].
Proof. repeat split; vm_compute; reflexivity. Qed.
